(** * Model-conversion tools (tools/*.py): a shallow embedding and its properties

    The repository is a set of independent Python command-line scripts that
    download models, convert ONNX -> SavedModel -> TFLite and print
    diagnostics.  Every script is a straight line of calls into third-party
    libraries wrapped in try/except/finally.  The embedding below keeps
    exactly that shape:

    - Python exceptions are values of [exn], with the part of the class
      hierarchy the handlers distinguish ([except ImportError],
      [except ModuleNotFoundError], [except Exception]);
    - the file system is a tree of directories and files, and the [os],
      [shutil] and [tempfile] calls the scripts make are functions on it;
      the operating system may refuse the removal of a temporary directory,
      the one failure the converters are written to swallow;
    - third-party libraries (onnx2tf, onnx-tf, TensorFlow, onnxsim, the
      model hub, urllib) are the fields of a record [Env]: each call either
      returns or raises, and may rewrite the file system arbitrarily;
    - a script is a computation in the monad [M], which threads the [world]
      (file system, standard output, the log of calls made) and an
      exception. *)

From Stdlib Require Import ZArith Lia.
From stdpp Require Import base option list strings gmap sorting.

#[local] Set Warnings "-register-all".
#[local] Open Scope string_scope.
#[local] Open Scope list_scope.

(** ** Python exceptions *)

(** The classes the scripts can tell apart.  [SystemExit] and
    [KeyboardInterrupt] derive from [BaseException] only; the others derive
    from [Exception]; [ModuleNotFoundError] derives from [ImportError]. *)
Inductive exc_class : Type :=
  | SystemExit
  | KeyboardInterrupt
  | ImportError
  | ModuleNotFoundError
  | OSError
  | KeyError
  | RuntimeError.

Record exn : Type := Exn { exn_class : exc_class; exn_msg : string }.

(** [isinstance(e, Exception)] *)
Definition is_Exception (e : exn) : bool :=
  match exn_class e with
  | SystemExit | KeyboardInterrupt => false
  | _ => true
  end.

(** [isinstance(e, ImportError)] *)
Definition is_ImportError (e : exn) : bool :=
  match exn_class e with
  | ImportError | ModuleNotFoundError => true
  | _ => false
  end.

(** [isinstance(e, ModuleNotFoundError)] *)
Definition is_ModuleNotFoundError (e : exn) : bool :=
  match exn_class e with
  | ModuleNotFoundError => true
  | _ => false
  end.

(** ** Paths *)

(** A path as the scripts handle it: absolute or relative to the working
    directory, as a list of components. *)
Record upath : Type := UPath { is_abs : bool; comps : list string }.

(** [os.path.join(p, name)] for a plain name *)
Definition path_join (p : upath) (name : string) : upath :=
  UPath (is_abs p) (comps p ++ [name]).

(** [os.path.abspath(p)] *)
Definition abspath (cwd : list string) (p : upath) : upath :=
  if is_abs p then p else UPath true (cwd ++ comps p).

(** [os.path.dirname(p)] *)
Definition dirname (p : upath) : upath :=
  UPath (is_abs p) (removelast (comps p)).

(** [os.path.basename(p)] *)
Definition basename (p : upath) : string :=
  List.last (comps p) EmptyString.

(** Truth value of the string a path function returns: it is empty exactly
    when neither a root nor a component is left. *)
Definition path_truthy (p : upath) : bool :=
  is_abs p || match comps p with [] => false | _ => true end.

(** ** The file system *)

Inductive node : Type :=
  | File (data : list Z)
  | Dir (ents : gmap string node).

Fixpoint fs_lookup (p : list string) (n : node) : option node :=
  match p with
  | [] => Some n
  | c :: p' =>
      match n with
      | File _ => None
      | Dir es =>
          match es !! c with
          | Some m => fs_lookup p' m
          | None => None
          end
      end
  end.

Definition fs_isfile (p : list string) (n : node) : bool :=
  match fs_lookup p n with Some (File _) => true | _ => false end.

Definition fs_isdir (p : list string) (n : node) : bool :=
  match fs_lookup p n with Some (Dir _) => true | _ => false end.

Definition fs_exists (p : list string) (n : node) : bool :=
  match fs_lookup p n with Some _ => true | None => false end.

(** The directory at [p] exists and has at least one entry. *)
Definition fs_nonempty_dir (p : list string) (n : node) : bool :=
  match fs_lookup p n with
  | Some (Dir es) => negb (bool_decide (es = ∅))
  | _ => false
  end.

(** Rewrite the entry named by [p] inside its parent directory; nothing
    happens when the parent is missing, and the root is never replaced. *)
Fixpoint fs_alter (f : option node → option node) (p : list string)
    (n : node) : node :=
  match p with
  | [] => n
  | c :: p' =>
      match n with
      | File _ => n
      | Dir es =>
          match p' with
          | [] => Dir (partial_alter f c es)
          | _ :: _ => Dir (alter (fs_alter f p') c es)
          end
      end
  end.

Definition fs_remove (p : list string) (n : node) : node :=
  fs_alter (λ _, None) p n.

Definition fs_put (p : list string) (m : node) (n : node) : node :=
  fs_alter (λ _, Some m) p n.

(** [os.makedirs(p, exist_ok=True)]: [None] when a component is a file. *)
Fixpoint fs_makedirs (p : list string) (n : node) : option node :=
  match p with
  | [] => match n with Dir _ => Some n | File _ => None end
  | c :: p' =>
      match n with
      | File _ => None
      | Dir es =>
          match fs_makedirs p' (default (Dir ∅) (es !! c)) with
          | Some m => Some (Dir (<[c := m]> es))
          | None => None
          end
      end
  end.

(** [os.listdir(p)] *)
Definition fs_listdir (p : list string) (n : node) : option (list string) :=
  match fs_lookup p n with
  | Some (Dir es) => Some (map fst (map_to_list es))
  | _ => None
  end.

(** [os.rename(src, dst)]: the source must exist, the destination must not
    (the portable behaviour: on Windows an existing destination is an error),
    and a directory cannot be moved into itself. *)
Definition fs_rename (src dst : list string) (n : node) : option node :=
  match fs_lookup src n with
  | None => None
  | Some sub =>
      if fs_exists dst n || bool_decide (src `prefix_of` dst)
         || negb (fs_isdir (removelast dst) n)
      then None
      else Some (fs_put dst sub (fs_remove src n))
  end.

(** [open(p, "wb").write(data)]: the parent must be a directory and [p] must
    not be one. *)
Definition fs_write (p : list string) (data : list Z) (n : node) : option node :=
  if fs_isdir p n || negb (fs_isdir (removelast p) n)
     || bool_decide (p = [])
  then None
  else Some (fs_put p (File data) n).

(** [shutil.rmtree(p)]: [p] must be a directory. *)
Definition fs_rmtree (p : list string) (n : node) : option node :=
  if fs_isdir p n && negb (bool_decide (p = []))
  then Some (fs_remove p n) else None.

(** [os.remove(p)]: [p] must be a file. *)
Definition fs_unlink (p : list string) (n : node) : option node :=
  if fs_isfile p n then Some (fs_remove p n) else None.

(** [os.rmdir(p)]: [p] must be an empty directory. *)
Definition fs_rmdir (p : list string) (n : node) : option node :=
  match fs_lookup p n with
  | Some (Dir es) =>
      if bool_decide (es = ∅) && negb (bool_decide (p = []))
      then Some (fs_remove p n) else None
  | _ => None
  end.

(** What is left of the tree at [p] when its removal stops after the
    entries [gone] (paths below [p], relative to it) are removed: the
    directory itself stays. *)
Definition fs_remove_below (p : list string) (gone : list (list string))
    (n : node) : node :=
  foldl (λ m q, match q with
                | [] => m
                | _ :: _ => fs_remove (p ++ q) m
                end) n gone.

(** ** Python dictionaries

    A [dict] keeps its keys in insertion order; assigning to a key that is
    present replaces the value in place. *)
Section Dict.
Context {K V : Type} `{EqDecision K}.

Definition dict : Type := list (K * V).

(** [d.get(k)] *)
Fixpoint dict_get (d : dict) (k : K) : option V :=
  match d with
  | [] => None
  | (k', v) :: d' => if decide (k' = k) then Some v else dict_get d' k
  end.

(** [d[k] = v] *)
Fixpoint dict_set (d : dict) (k : K) (v : V) : dict :=
  match d with
  | [] => [(k, v)]
  | (k', v') :: d' =>
      if decide (k' = k) then (k', v) :: d' else (k', v') :: dict_set d' k v
  end.

(** [k in d] *)
Definition dict_mem (d : dict) (k : K) : bool :=
  match dict_get d k with Some _ => true | None => false end.

(** [d.items()] and iteration over the keys *)
Definition dict_items (d : dict) : list (K * V) := d.
Definition dict_keys (d : dict) : list K := map fst d.

(** A dict display [{k1: v1, ...}] or comprehension: the pairs are
    assigned from left to right. *)
Definition dict_of_pairs (l : list (K * V)) : dict :=
  foldl (λ d kv, dict_set d kv.1 kv.2) [] l.
End Dict.
Arguments dict : clear implicits.

(** ** Data of the third-party libraries *)

(** [onnx.TensorProto] element types named by the shim *)
Inductive TensorProto : Type :=
  | FLOAT | UINT8 | INT8 | UINT16 | INT16 | INT32 | INT64 | BOOL
  | FLOAT16 | DOUBLE | UINT32 | UINT64 | COMPLEX64 | COMPLEX128 | STRING.

(** numpy scalar types named by the shim *)
Inductive np_dtype : Type :=
  | np_float32 | np_uint8 | np_int8 | np_uint16 | np_int16 | np_int32
  | np_int64 | np_bool_ | np_float16 | np_float64 | np_uint32 | np_uint64
  | np_complex64 | np_complex128 | np_object_.

#[global] Instance TensorProto_eq_dec : EqDecision TensorProto.
Proof. solve_decision. Defined.
#[global] Instance np_dtype_eq_dec : EqDecision np_dtype.
Proof. solve_decision. Defined.

(** The namespace the shim stores as [onnx.mapping] *)
Record onnx_mapping : Type := OnnxMapping {
  TENSOR_TYPE_TO_NP_TYPE : dict TensorProto np_dtype;
  NP_TYPE_TO_TENSOR_TYPE : dict np_dtype TensorProto
}.

(** An ONNX model, as far as the scripts read it *)
Record Dimension : Type := { dim_value : Z; dim_param : string }.
Record ValueInfoProto : Type :=
  { vi_name : string; vi_shape_dim : list Dimension }.
Record NodeProto : Type := { op_type : string }.
Record GraphProto : Type :=
  { graph_node : list NodeProto; graph_input : list ValueInfoProto }.
Record ModelProto : Type := { graph : GraphProto }.

(** A loaded TensorFlow SavedModel, as far as the scripts read it *)
Record NodeDef : Type := { op : string }.
Record ConcreteFunction : Type := {
  structured_input_signature : string;
  structured_outputs : string;
  graph_def_node : list NodeDef
}.
Record SavedModelObj : Type :=
  { signatures : dict string ConcreteFunction }.

(** The representation [onnx_tf.backend.prepare] returns (opaque) *)
Inductive TfRep : Type := TfRepOf (m : ModelProto).

(** One layer call of the skeleton optical-flow network *)
Record layer_spec : Type := {
  layer_kind : string; layer_filters : Z; layer_kernel : Z;
  layer_strides : Z; layer_activation : string
}.

(** [tf.lite.TFLiteConverter], with the attributes the scripts assign *)
Inductive tf_optimize : Type := Optimize_DEFAULT.
Inductive tf_dtype : Type := tf_float16.
Inductive conv_source_kind : Type :=
  | FromSavedModel (dir : list string)
  | FromKerasModel (layers : list layer_spec).
Record TFLiteConverter : Type := {
  conv_source : conv_source_kind;
  conv_allow_custom_ops : bool;
  conv_optimizations : list tf_optimize;
  conv_supported_types : list tf_dtype
}.

(** ** Output, call log and world *)

(** A value interpolated into a printed message *)
Inductive pyval : Type :=
  | VStr (s : string)
  | VInt (z : Z)
  | VPath (p : upath)
  | VExn (e : exn)
  | VInts (l : list Z)
  | VStrs (l : list string).

(** A printed line: the text of the (f-)string with [{}] for each
    interpolated value, and the values. *)
Record line : Type := Line { line_fmt : string; line_args : list pyval }.

Inductive fs_call : Type :=
  | IsFile (p : list string)
  | IsDir (p : list string)
  | PathExists (p : list string)
  | Makedirs (p : list string)
  | Mkdtemp (p : list string)
  | Listdir (p : list string)
  | Rename (src dst : list string)
  | Rmtree (p : list string)
  | Remove (p : list string)
  | Rmdir (p : list string)
  | OpenWrite (p : list string).

(** What the script did to the outside: import statements, file-system
    calls and calls into third-party libraries (named, with the paths
    passed). *)
Inductive event : Type :=
  | EvImport (module : string)
  | EvFs (c : fs_call)
  | EvCall (fn : string) (paths : list (list string)).

Record world : Type := World {
  w_fs : node;
  w_cwd : list string;
  w_out : list line;
  w_log : list event;
  w_onnx_mapping : option onnx_mapping
}.

Definition set_fs (n : node) (w : world) : world :=
  World n (w_cwd w) (w_out w) (w_log w) (w_onnx_mapping w).
Definition add_out (l : line) (w : world) : world :=
  World (w_fs w) (w_cwd w) (w_out w ++ [l]) (w_log w) (w_onnx_mapping w).
Definition add_log (ev : event) (w : world) : world :=
  World (w_fs w) (w_cwd w) (w_out w) (w_log w ++ [ev]) (w_onnx_mapping w).
Definition set_onnx_mapping (m : onnx_mapping) (w : world) : world :=
  World (w_fs w) (w_cwd w) (w_out w) (w_log w) (Some m).

(** A fresh process: nothing printed, nothing called yet. *)
Definition init_world (n : node) (cwd : list string) : world :=
  World n cwd [] [] None.

(** ** The monad of scripts *)

Inductive result (A : Type) : Type :=
  | Ret (a : A)
  | Raise (e : exn).
Arguments Ret {A} a.
Arguments Raise {A} e.

Definition M (A : Type) : Type := world → result A * world.

Definition ret {A} (a : A) : M A := λ w, (Ret a, w).
Definition raise {A} (e : exn) : M A := λ w, (Raise e, w).
Definition bind {A B} (m : M A) (k : A → M B) : M B := λ w,
  match m w with
  | (Ret a, w') => k a w'
  | (Raise e, w') => (Raise e, w')
  end.

Notation "'let*' x ':=' m 'in' k" := (bind m (fun x => k))
  (at level 10, x name, m at level 200, k at level 200).
Notation "m '>>' k" := (bind m (fun _ => k))
  (at level 100, k at level 200, right associativity).

(** [try: body / except ... as e: handler e]; a handler that does not match
    re-raises. *)
Definition try_except {A} (body : M A) (handler : exn → M A) : M A := λ w,
  match body w with
  | (Raise e, w') => handler e w'
  | (Ret a, w') => (Ret a, w')
  end.

(** [try: body / finally: fin] *)
Definition try_finally {A} (body : M A) (fin : M unit) : M A := λ w,
  match body w with
  | (r, w') =>
      match fin w' with
      | (Ret _, w'') => (r, w'')
      | (Raise e, w'') => (Raise e, w'')
      end
  end.

(** [for x in l: body x] *)
Fixpoint for_each {A} (l : list A) (body : A → M unit) : M unit :=
  match l with
  | [] => ret tt
  | x :: l' => body x >> for_each l' body
  end.

Definition print (fmt : string) (args : list pyval) : M unit := λ w,
  (Ret tt, add_out (Line fmt args) w).

Definition emit (ev : event) : M unit := λ w, (Ret tt, add_log ev w).

Definition get_fs : M node := λ w, (Ret (w_fs w), w).
Definition put_fs (n : node) : M unit := λ w, (Ret tt, set_fs n w).

(** The absolute components a path names in the current process. *)
Definition resolve (p : upath) : M (list string) := λ w,
  (Ret (comps (abspath (w_cwd w) p)), w).

Definition os_path_abspath (p : upath) : M upath := λ w,
  (Ret (abspath (w_cwd w) p), w).

Definition os_error {A} (msg : string) : M A := raise (Exn OSError msg).

(** A file-system call that changes the tree or raises [OSError]. *)
Definition fs_update (c : fs_call) (f : node → option node) (msg : string)
    : M unit :=
  emit (EvFs c) >>
  let* n := get_fs in
  match f n with
  | Some n' => put_fs n'
  | None => os_error msg
  end.

Definition os_path_isfile (p : upath) : M bool :=
  let* a := resolve p in
  emit (EvFs (IsFile a)) >>
  let* n := get_fs in ret (fs_isfile a n).

Definition os_path_isdir (p : upath) : M bool :=
  let* a := resolve p in
  emit (EvFs (IsDir a)) >>
  let* n := get_fs in ret (fs_isdir a n).

Definition os_path_exists (p : upath) : M bool :=
  let* a := resolve p in
  emit (EvFs (PathExists a)) >>
  let* n := get_fs in ret (fs_exists a n).

(** [os.makedirs(p, exist_ok=True)] *)
Definition os_makedirs (p : upath) : M unit :=
  let* a := resolve p in
  fs_update (Makedirs a) (fs_makedirs a) "makedirs: a component is a file".

Definition os_rename (src dst : upath) : M unit :=
  let* a := resolve src in
  let* b := resolve dst in
  fs_update (Rename a b) (fs_rename a b) "rename failed".

Definition os_listdir (p : upath) : M (list string) :=
  let* a := resolve p in
  emit (EvFs (Listdir a)) >>
  let* n := get_fs in
  match fs_listdir a n with
  | Some names => ret names
  | None => os_error "listdir: not a directory"
  end.

Definition shutil_rmtree (p : upath) : M unit :=
  let* a := resolve p in
  fs_update (Rmtree a) (fs_rmtree a) "rmtree: not a directory".

Definition os_remove (p : upath) : M unit :=
  let* a := resolve p in
  fs_update (Remove a) (fs_unlink a) "remove: not a file".

Definition os_rmdir (p : upath) : M unit :=
  let* a := resolve p in
  fs_update (Rmdir a) (fs_rmdir a) "rmdir: not an empty directory".

(** [with open(p, "wb") as f: f.write(data)] *)
Definition write_file (p : upath) (data : list Z) : M unit :=
  let* a := resolve p in
  fs_update (OpenWrite a) (fs_write a data) "open: cannot write".

(** [d[k]] *)
Definition dict_getitem {V} (d : dict string V) (k : string) : M V :=
  match dict_get d k with
  | Some v => ret v
  | None => raise (Exn KeyError k)
  end.

(** [sorted(l, key=...)]: a stable sort, written as insertion sort over the
    order [le] the key induces. *)
Fixpoint insert_sorted {A} (le : A → A → bool) (x : A) (l : list A) : list A :=
  match l with
  | [] => [x]
  | y :: l' => if le x y then x :: y :: l' else y :: insert_sorted le x l'
  end.

Definition sorted {A} (le : A → A → bool) (l : list A) : list A :=
  foldr (insert_sorted le) [] l.

(** ** Third-party collaborators

    What the scripts call but do not define.  An import either succeeds or
    raises; a library call returns or raises, and the ones that write to
    disk return the file system they leave behind (also when they raise). *)
Record Env : Type := {
  (** [sys.version_info.major], [.minor] and [platform.system()] *)
  python_version : Z * Z;
  platform_system : string;
  (** the outcome of [import m] / [from m import x], by dotted name *)
  import_result : string → option exn;
  (** [hasattr(numpy, name)] *)
  np_hasattr : string → bool;
  (** [tempfile.gettempdir()] and the random names [tempfile] tries *)
  gettempdir : list string;
  temp_names : list string;
  (** the operating system may stop the removal of a directory tree (a file
      in use, a missing permission): [rmtree_fault p n] is [Some (gone, msg)]
      when removing the tree at [p] meets an [OSError] with the message
      [msg] and only the entries [gone] get removed, [None] when the
      removal goes through; it is consulted by the two removals of a
      temporary directory, [tmpdir.cleanup()] and
      [shutil.rmtree(tmpdir, ignore_errors=True)] *)
  rmtree_fault : list string → node → option (list (list string) * string);
  (** [onnx2tf.convert(input_onnx_file_path, output_folder_path, ...)] *)
  onnx2tf_convert : list string → list string → node → node * option exn;
  (** [onnx.load(path)] *)
  onnx_load : list string → node → result ModelProto;
  (** [ModelProto.SerializeToString()], the bytes [onnx.save] writes *)
  onnx_serialize : ModelProto → list Z;
  (** [onnx_tf.backend.prepare(model)] and [tf_rep.export_graph(dir)] *)
  onnx_tf_prepare : ModelProto → result TfRep;
  export_graph : TfRep → list string → node → node * option exn;
  (** [tf.lite.TFLiteConverter.from_saved_model(dir)] and [.convert()] *)
  from_saved_model : list string → node → option exn;
  tflite_convert : TFLiteConverter → node → result (list Z);
  (** [onnxsim.simplify(model, ...)] *)
  onnxsim_simplify : ModelProto → result (ModelProto * bool);
  (** [tf.__version__], [hub.load(url)], [tf.saved_model.save(obj, dir)],
      [tf.saved_model.load(dir)] *)
  tf_version : string;
  hub_load : string → node → node * result SavedModelObj;
  saved_model_save : SavedModelObj → list string → node → node * option exn;
  saved_model_load : list string → node → result SavedModelObj;
  (** [urllib.request.urlretrieve(url, path)] *)
  urlretrieve : string → list string → node → node * option exn;
  (** building the Keras model from its layer calls, and converting it *)
  keras_build : list layer_spec → option exn;
  from_keras_model : list layer_spec → option exn
}.

(** Lower-casing of ASCII letters, for [str.lower()] *)
Definition ascii_lower (c : Ascii.ascii) : Ascii.ascii :=
  let n := Ascii.nat_of_ascii c in
  if (65 <=? n)%nat && (n <=? 90)%nat then Ascii.ascii_of_nat (n + 32) else c.

Fixpoint str_lower (s : string) : string :=
  match s with
  | EmptyString => EmptyString
  | String c s' => String (ascii_lower c) (str_lower s')
  end.

(** [s.startswith(p)] and [p in s] *)
Fixpoint str_startswith (p s : string) : bool :=
  match p, s with
  | EmptyString, _ => true
  | String a p', String b s' => bool_decide (a = b) && str_startswith p' s'
  | String _ _, EmptyString => false
  end.

Fixpoint str_contains (p s : string) : bool :=
  str_startswith p s
  || match s with
     | EmptyString => false
     | String _ s' => str_contains p s'
     end.

(** ** Calls into the collaborators *)
Section Collaborators.
Context (E : Env).

(** [import m] *)
Definition py_import (m : string) : M unit :=
  emit (EvImport m) >>
  match import_result E m with
  | None => ret tt
  | Some e => raise e
  end.

(** A library call that may write to disk. *)
Definition ext_write (fn : string) (paths : list (list string))
    (f : node → node * option exn) : M unit :=
  emit (EvCall fn paths) >>
  let* n := get_fs in
  put_fs (f n).1 >>
  match (f n).2 with
  | None => ret tt
  | Some e => raise e
  end.

(** A library call that may write to disk and returns a value. *)
Definition ext_call {A} (fn : string) (paths : list (list string))
    (f : node → node * result A) : M A :=
  emit (EvCall fn paths) >>
  let* n := get_fs in
  put_fs (f n).1 >>
  match (f n).2 with
  | Ret a => ret a
  | Raise e => raise e
  end.

(** A library call that only reads. *)
Definition ext_read {A} (fn : string) (paths : list (list string))
    (f : node → result A) : M A :=
  emit (EvCall fn paths) >>
  let* n := get_fs in
  match f n with
  | Ret a => ret a
  | Raise e => raise e
  end.

(** [tempfile.mkdtemp(prefix=prefix)]: the first candidate name that is
    free in the temporary directory. *)
Definition mkdtemp (prefix : string) : M upath :=
  let* n := get_fs in
  let base := gettempdir E in
  match List.find (λ s, negb (fs_exists (base ++ [prefix +:+ s])%list n))
          (temp_names E) with
  | Some s =>
      let d := (base ++ [prefix +:+ s])%list in
      if fs_isdir base n
      then emit (EvFs (Mkdtemp d)) >> put_fs (fs_put d (Dir ∅) n) >>
           ret (UPath true d)
      else os_error "mkdtemp: no temporary directory"
  | None => os_error "mkdtemp: no usable temporary directory name found"
  end.

(** [tempfile.TemporaryDirectory(prefix=prefix)]; the object is its
    [name]. *)
Definition TemporaryDirectory (prefix : string) : M upath := mkdtemp prefix.

(** [tmpdir.cleanup()]: removes the tree; a name that is gone is not an
    error, a name that is not a directory is.  When the operating system
    stops the removal, what could be removed is gone and the error is
    raised. *)
Definition TemporaryDirectory_cleanup (name : upath) : M unit :=
  let* a := resolve name in
  emit (EvFs (Rmtree a)) >>
  let* n := get_fs in
  match fs_lookup a n with
  | None => ret tt
  | Some _ =>
      match fs_rmtree a n with
      | Some n' =>
          match rmtree_fault E a n with
          | None => put_fs n'
          | Some (gone, msg) =>
              put_fs (fs_remove_below a gone n) >> os_error msg
          end
      | None => os_error "cleanup: not a directory"
      end
  end.

(** [shutil.rmtree(p, ignore_errors=True)]: no error is raised, whether [p]
    is no directory or the operating system stops the removal; in the
    latter case what could be removed is gone and the rest is left. *)
Definition shutil_rmtree_ignore_errors (p : upath) : M unit :=
  let* a := resolve p in
  emit (EvFs (Rmtree a)) >>
  let* n := get_fs in
  match fs_rmtree a n with
  | Some n' =>
      match rmtree_fault E a n with
      | None => put_fs n'
      | Some (gone, _) => put_fs (fs_remove_below a gone n)
      end
  | None => ret tt
  end.

End Collaborators.

(** ** tools/onnx_to_tflite.py *)
Module OnnxToTflite.
Section Script.
Context (E : Env).

(** Lines 47-62: when onnx2tf left [out_dir/saved_model], make [out_dir]
    itself the SavedModel directory. *)
Definition reroot_saved_model (out_dir : upath) : M unit :=
  let saved_model_dir := path_join out_dir "saved_model" in
  let* found := os_path_isdir saved_model_dir in
  if found then
    let tmp := path_join out_dir "__tmp_saved_model__" in
    os_rename saved_model_dir tmp >>
    let* names := os_listdir out_dir in
    for_each names (λ name,
      let p := path_join out_dir name in
      let* d := os_path_isdir p in
      let* any := (if d then ret true else os_path_isfile p) in
      if any then
        if negb (String.eqb (basename p) "__tmp_saved_model__") then
          let* d' := os_path_isdir p in
          if d' then shutil_rmtree p else os_remove p
        else ret tt
      else ret tt) >>
    let* names' := os_listdir tmp in
    for_each names' (λ name,
      os_rename (path_join tmp name) (path_join out_dir name)) >>
    os_rmdir tmp
  else ret tt.

(** Lines 34-64: the body of the outer [try], up to its [return]. *)
Definition try_onnx2tf (onnx_path out_dir : upath) : M unit :=
  try_except (py_import E "onnx2tf")
    (λ e, if is_Exception e
          then raise (Exn ModuleNotFoundError (exn_msg e))
          else raise e) >>
  print "[INFO] Using onnx2tf to convert ONNX -> SavedModel ..." [] >>
  let* a := resolve onnx_path in
  let* b := resolve out_dir in
  ext_write "onnx2tf.convert" [a; b] (onnx2tf_convert E a b) >>
  reroot_saved_model out_dir >>
  print "[OK] SavedModel written to: {}" [VPath out_dir].

(** Lines 79-96: the tables of the [onnx.mapping] shim. *)
Definition shim_TENSOR_TYPE_TO_NP_TYPE : dict TensorProto np_dtype :=
  dict_of_pairs [
    (FLOAT, np_float32);
    (UINT8, np_uint8);
    (INT8, np_int8);
    (UINT16, np_uint16);
    (INT16, np_int16);
    (INT32, np_int32);
    (INT64, np_int64);
    (BOOL, np_bool_);
    (FLOAT16, np_float16);
    (DOUBLE, np_float64);
    (UINT32, if np_hasattr E "uint32" then np_uint32 else np_uint64);
    (UINT64, np_uint64);
    (COMPLEX64,
     if np_hasattr E "complex64" then np_complex64 else np_complex128);
    (COMPLEX128, np_complex128);
    (STRING, np_object_)
  ].

Definition shim_NP_TYPE_TO_TENSOR_TYPE : dict np_dtype TensorProto :=
  dict_of_pairs
    (map (λ kv, (kv.2, kv.1)) (dict_items shim_TENSOR_TYPE_TO_NP_TYPE)).

(** Lines 76-100: the [except] branch that installs the shim. *)
Definition install_mapping_shim : M unit :=
  py_import E "types" >>
  py_import E "numpy" >>
  py_import E "onnx.TensorProto" >>
  λ w, (Ret tt,
        set_onnx_mapping
          (OnnxMapping shim_TENSOR_TYPE_TO_NP_TYPE
             shim_NP_TYPE_TO_TENSOR_TYPE) w).

(** Lines 70-107: the onnx-tf fallback. *)
Definition onnx_tf_fallback (onnx_path out_dir : upath) : M unit :=
  py_import E "onnx" >>
  try_except (py_import E "onnx.mapping")
    (λ e, if is_Exception e then install_mapping_shim else raise e) >>
  py_import E "onnx_tf.backend" >>
  print "[INFO] Using onnx-tf to convert ONNX -> SavedModel ..." [] >>
  let* a := resolve onnx_path in
  let* model := ext_read "onnx.load" [a] (onnx_load E a) in
  let* tf_rep :=
    ext_read "onnx_tf.backend.prepare" [] (λ _, onnx_tf_prepare E model) in
  let* b := resolve out_dir in
  ext_write "tf_rep.export_graph" [b] (export_graph E tf_rep b) >>
  print "[OK] SavedModel written to: {}" [VPath out_dir].

Definition _convert_onnx_to_saved_model (onnx_path out_dir : upath)
    : M unit :=
  let* returned :=
    try_except (try_onnx2tf onnx_path out_dir >> ret true)
      (λ e,
        if is_ModuleNotFoundError e then
          print "[INFO] onnx2tf unavailable (or missing optional deps). Falling back to onnx-tf ..." [] >>
          ret false
        else if is_Exception e then
          print "[WARN] onnx2tf failed: {}. Falling back to onnx-tf ..."
            [VExn e] >>
          ret false
        else raise e) in
  if returned then ret tt else onnx_tf_fallback onnx_path out_dir.

Definition _convert_saved_model_to_tflite (saved_model_dir tflite_out : upath)
    (fp16 optimize allow_custom_ops : bool) : M unit :=
  py_import E "tensorflow" >>
  print "[INFO] Converting SavedModel -> TFLite ..." [] >>
  let* d := resolve saved_model_dir in
  ext_read "tf.lite.TFLiteConverter.from_saved_model" [d]
    (λ n, match from_saved_model E d n with
          | None => Ret tt
          | Some e => Raise e
          end) >>
  let converter :=
    {| conv_source := FromSavedModel d;
       conv_allow_custom_ops := if allow_custom_ops then true else false;
       conv_optimizations := if optimize then [Optimize_DEFAULT] else [];
       conv_supported_types := if fp16 then [tf_float16] else [] |} in
  let* tflite_model :=
    ext_read "converter.convert" [d] (tflite_convert E converter) in
  let* out_abs := os_path_abspath tflite_out in
  os_makedirs (dirname out_abs) >>
  write_file tflite_out tflite_model >>
  print "[OK] TFLite model written to: {}" [VPath tflite_out].

(** The parsed command line ([argparse]).  The script only tests the truth
    value of [args.saved_model_dir], so [None] stands for an option that is
    absent or the empty string. *)
Record Args : Type := {
  args_onnx : upath;
  args_out : upath;
  args_saved_model_dir : option upath;
  args_fp16 : bool;
  args_optimize : bool;
  args_allow_custom_ops : bool
}.

(** Lines 153-161: the SavedModel directory, and the temporary directory
    object when one was made ([keep_saved_model] is its absence). *)
Definition prepare_saved_model_dir (args : Args)
    : M (upath * option upath) :=
  match args_saved_model_dir args with
  | Some s =>
      let* saved_model_dir := os_path_abspath s in
      os_makedirs saved_model_dir >>
      ret (saved_model_dir, None)
  | None =>
      let* tmpdir := TemporaryDirectory E "onnx2tflite_" in
      ret (path_join tmpdir "saved_model", Some tmpdir)
  end.

Definition main (args : Args) : M Z :=
  (if (fst (python_version E) =? 3)%Z && (snd (python_version E) >=? 12)%Z
   then print "[WARN] Detected Python {}.{}. For best compatibility, use Python 3.10 with requirements in tools/requirements-convert.txt."
          [VInt (fst (python_version E)); VInt (snd (python_version E))]
   else ret tt) >>
  (if String.eqb (str_lower (platform_system E)) "windows"
   then print "[INFO] Running on Windows; long path or antivirus may slow conversion." []
   else ret tt) >>
  let* onnx_path := os_path_abspath (args_onnx args) in
  let* tflite_out := os_path_abspath (args_out args) in
  let* found := os_path_isfile onnx_path in
  if negb found then
    print "[ERR] ONNX file not found: {}" [VPath onnx_path] >>
    ret 1%Z
  else
    let* prep := prepare_saved_model_dir args in
    let saved_model_dir := prep.1 in
    let* returned :=
      try_finally
        (try_except
           (os_makedirs saved_model_dir >>
            _convert_onnx_to_saved_model onnx_path saved_model_dir >>
            _convert_saved_model_to_tflite saved_model_dir tflite_out
              (args_fp16 args) (args_optimize args)
              (args_allow_custom_ops args) >>
            print "[DONE] Conversion complete." [] >>
            ret None)
           (λ e,
             if is_Exception e then
               print "[ERR] Conversion failed: {}" [VExn e] >>
               ret (Some 2%Z)
             else raise e))
        (match prep.2 with
         | Some tmpdir =>
             try_except (TemporaryDirectory_cleanup E tmpdir)
               (λ e, if is_Exception e then ret tt else raise e)
         | None => ret tt
         end) in
    match returned with
    | Some code => ret code
    | None => ret 0%Z
    end.

End Script.
End OnnxToTflite.

(** ** tools/onnx_to_tflite_simple.py *)
Module OnnxToTfliteSimple.
Section Script.
Context (E : Env).

(** ["."], the current directory *)
Definition curdir : upath := UPath false [].

Definition main (argv : list upath) : M Z :=
  if (length argv <? 3)%nat then
    print "Usage: python onnx_to_tflite_simple.py <input.onnx> <output.tflite>" [] >>
    ret 1%Z
  else
    let onnx_path := nth 1 argv curdir in
    let tflite_path := nth 2 argv curdir in
    let* found := os_path_isfile onnx_path in
    if negb found then
      print "[ERR] ONNX file not found: {}" [VPath onnx_path] >>
      ret 1%Z
    else
      print "[1/2] Converting ONNX -> SavedModel with onnx2tf..." [] >>
      let* tmpdir := mkdtemp E "onnx2tflite_" in
      try_finally
        (let* returned :=
           try_except
             (py_import E "onnx2tf" >>
              let* a := resolve onnx_path in
              let* b := resolve tmpdir in
              ext_write "onnx2tf.convert" [a; b] (onnx2tf_convert E a b) >>
              ret None)
             (λ e,
               if is_ImportError e then
                 print "[ERR] onnx2tf not installed or missing dependencies: {}"
                   [VExn e] >>
                 print "Install with: pip install onnx2tf onnx-graphsurgeon psutil" [] >>
                 ret (Some 2%Z)
               else if is_Exception e then
                 print "[ERR] onnx2tf conversion failed: {}" [VExn e] >>
                 ret (Some 2%Z)
               else raise e) in
         match returned with
         | Some code => ret code
         | None =>
             let saved_model_dir := path_join tmpdir "saved_model" in
             let* found' := os_path_isdir saved_model_dir in
             if negb found' then
               print "[ERR] SavedModel not found at {}" [VPath saved_model_dir] >>
               ret 2%Z
             else
               print "[2/2] Converting SavedModel -> TFLite..." [] >>
               py_import E "tensorflow" >>
               let* d := resolve saved_model_dir in
               ext_read "tf.lite.TFLiteConverter.from_saved_model" [d]
                 (λ n, match from_saved_model E d n with
                       | None => Ret tt
                       | Some e => Raise e
                       end) >>
               let converter :=
                 {| conv_source := FromSavedModel d;
                    conv_allow_custom_ops := false;
                    conv_optimizations := [Optimize_DEFAULT];
                    conv_supported_types := [tf_float16] |} in
               let* tflite_model :=
                 ext_read "converter.convert" [d] (tflite_convert E converter) in
               let* out_abs := os_path_abspath tflite_path in
               os_makedirs (if path_truthy (dirname out_abs)
                            then dirname out_abs else curdir) >>
               write_file tflite_path tflite_model >>
               print "[OK] TFLite model written to: {}" [VPath tflite_path] >>
               (* the value formatted is [len(tflite_model) / 1024 / 1024] *)
               print "     Size: {:.2f} MB"
                 [VInt (Z.of_nat (length tflite_model))] >>
               ret 0%Z
         end)
        (shutil_rmtree_ignore_errors E tmpdir).

End Script.
End OnnxToTfliteSimple.

(** ** tools/simplify_model.py *)
Module SimplifyModel.
Section Script.
Context (E : Env).

Definition problematic_ops : gset string :=
  list_to_set ["GridSample"; "NonMaxSuppression"; "ScatterElements";
               "OneHot"; "TopK"; "RoiAlign"].

(** Lines 67-68: the shape as the script reads it, [-1] for every dimension
    without a positive value. *)
Definition declared_shape (input_tensor : ValueInfoProto) : list Z :=
  map (λ dim, if (dim_value dim >? 0)%Z then dim_value dim else (-1)%Z)
    (vi_shape_dim input_tensor).

(** Lines 67-73: the body of the loop over the graph inputs. *)
Definition check_input_shape (input_tensor : ValueInfoProto) : M unit :=
  let shape := declared_shape input_tensor in
  if bool_decide ((-1)%Z ∈ shape) then
    print "⚠ Dynamic shape in '{}': {}"
      [VStr (vi_name input_tensor); VInts shape] >>
    print "  Consider fixing input dimensions for better hardware support" []
  else
    print "✓ '{}': {}" [VStr (vi_name input_tensor); VInts shape].

(** Lines 24-40: the optional onnx-simplifier pass; the model to go on
    with. *)
Definition try_onnxsim (model : ModelProto) : M ModelProto :=
  try_except
    (py_import E "onnxsim" >>
     print "Running onnx-simplifier..." [] >>
     let* r := ext_read "onnxsim.simplify" [] (λ _, onnxsim_simplify E model) in
     if r.2 then
       print "✓ Model simplified successfully" [] >>
       ret r.1
     else
       print "⚠ Simplification may have issues, check output carefully" [] >>
       ret model)
    (λ e,
      if is_ImportError e then
        print "⚠ onnx-simplifier not installed. Install with: pip install onnx-simplifier" [] >>
        ret model
      else if is_Exception e then
        print "⚠ Simplification failed: {}" [VExn e] >>
        ret model
      else raise e).

(** Lines 43-62: the operator report. *)
Definition report_operations (model : ModelProto) : M unit :=
  print "\nAnalyzing operations..." [] >>
  let ops : gset string :=
    list_to_set (map op_type (graph_node (graph model))) in
  let found_problems := ops ∩ problematic_ops in
  (if negb (bool_decide (found_problems = ∅)) then
     print "⚠ Found NNAPI-incompatible operations: {}"
       [VStrs (elements found_problems)] >>
     print "\nTo fix GridSample:" [] >>
     print "1. Re-export model from PyTorch with torch.nn.functional.grid_sample" [] >>
     print "   replaced by torch.nn.functional.affine_grid + grid_sample decomposition" [] >>
     print "2. Or use a different interpolation method in the source model" [] >>
     print "\nCurrent model will fall back to CPU for these operations." []
   else
     print "✓ No known problematic operations found" []) >>
  print "\nAll operations in model: {}" [VStrs (sorted String.leb (elements ops))].

(** [onnx.save(model, path)] *)
Definition onnx_save (model : ModelProto) (path : upath) : M unit :=
  let* a := resolve path in
  emit (EvCall "onnx.save" [a]) >>
  write_file path (onnx_serialize E model).

Definition simplify_model (input_path output_path : upath) : M ModelProto :=
  print "Loading model: {}" [VPath input_path] >>
  let* a := resolve input_path in
  let* model := ext_read "onnx.load" [a] (onnx_load E a) in
  let* model := try_onnxsim model in
  report_operations model >>
  print "\nChecking input shapes..." [] >>
  for_each (graph_input (graph model)) check_input_shape >>
  print "\nSaving to: {}" [VPath output_path] >>
  onnx_save model output_path >>
  print "✓ Done!" [] >>
  ret model.

End Script.
End SimplifyModel.

(** ** tools/download_film.py *)
Module DownloadFilm.
Section Script.
Context (E : Env).

(** Lines 8-35: the body of the [try], up to its [return output_dir]. *)
Definition download_film_attempt : M (option upath) :=
    (py_import E "tensorflow" >>
     py_import E "tensorflow_hub" >>
     print "TensorFlow version: {}" [VStr (tf_version E)] >>
     let model_url := "https://tfhub.dev/google/film/1" in
     print "\n[INFO] Downloading FILM from TensorFlow Hub: {}" [VStr model_url] >>
     print "[INFO] This may take a few minutes (model is ~75MB)..." [] >>
     let* interpolator := ext_call "hub.load" [] (hub_load E model_url) in
     print "[SUCCESS] Model downloaded and loaded!" [] >>
     print "\n[INFO] Available signatures: {}"
       [VStrs (dict_keys (signatures interpolator))] >>
     let* infer := dict_getitem (signatures interpolator) "serving_default" in
     print "\n[INFO] Inputs: {}" [VStr (structured_input_signature infer)] >>
     print "[INFO] Outputs: {}" [VStr (structured_outputs infer)] >>
     let output_dir := UPath false ["film_models"; "film_tfhub"] in
     print "\n[INFO] Saving to {}..." [VPath output_dir] >>
     let* a := resolve output_dir in
     ext_write "tf.saved_model.save" [a] (saved_model_save E interpolator a) >>
     print "[SUCCESS] Saved to {}" [VPath output_dir] >>
     ret (Some output_dir)).

Definition download_film_model : M (option upath) :=
  try_except download_film_attempt
    (λ e,
      if is_ImportError e then
        print "[ERR] Missing dependency: {}" [VExn e] >>
        print "[INFO] Install with: pip install tensorflow tensorflow-hub" [] >>
        ret None
      else if is_Exception e then
        print "[ERR] Download failed: {}" [VExn e] >>
        ret None
      else raise e).

(** Lines 59-61: the operator tally. *)
Definition count_ops (nodes : list NodeDef) : dict string Z :=
  foldl (λ op_types node,
           dict_set op_types (op node)
             (default 0%Z (dict_get op_types (op node)) + 1)%Z)
    [] nodes.

(** Line 66: [sorted(op_types.items(), key=lambda x: -x[1])[:20]] *)
Definition top_operators (op_types : dict string Z) : list (string * Z) :=
  take 20 (sorted (λ x y, (- x.2 <=? - y.2)%Z) (dict_items op_types)).

(** Lines 70-76: operators that may not run on the accelerator. *)
Definition problematic_operators (op_types : dict string Z) : list string :=
  let problematic :=
    if dict_mem op_types "ResampleGrad" || dict_mem op_types "Resample"
    then ["Resample/ResampleGrad (custom op)"] else [] in
  let custom_ops :=
    List.filter (λ op, str_startswith "Custom" op || str_contains "Grid" op)
      (dict_keys op_types) in
  match custom_ops with
  | [] => problematic
  | _ :: _ => (problematic ++ custom_ops)%list
  end.

Definition inspect_saved_model (model_path : upath)
    : M (option (dict string Z)) :=
  try_except
    (py_import E "tensorflow" >>
     print "\n[INFO] Inspecting SavedModel at {}" [VPath model_path] >>
     let* a := resolve model_path in
     let* model := ext_read "tf.saved_model.load" [a] (saved_model_load E a) in
     let* concrete_func := dict_getitem (signatures model) "serving_default" in
     let nodes := graph_def_node concrete_func in
     let op_types := count_ops nodes in
     print "\n[INFO] Model has {} nodes" [VInt (Z.of_nat (length nodes))] >>
     print "[INFO] Unique operator types: {}"
       [VInt (Z.of_nat (length op_types))] >>
     print "\n[INFO] Top 20 operators:" [] >>
     for_each (top_operators op_types)
       (λ oc, print "  {}: {}" [VStr oc.1; VInt oc.2]) >>
     let problematic := problematic_operators op_types in
     (match problematic with
      | _ :: _ =>
          print "\n[WARN] Potentially unsupported operators for NNAPI:" [] >>
          for_each problematic (λ o, print "  - {}" [VStr o])
      | [] =>
          print "\n[INFO] No obvious GridSample or custom ops detected" [] >>
          print "[INFO] Model uses standard TF ops (Conv2D, DepthwiseConv2D, etc.)" []
      end) >>
     ret (Some op_types))
    (λ e,
      if is_Exception e then
        print "[ERR] Inspection failed: {}" [VExn e] >>
        ret None
      else raise e).

End Script.
End DownloadFilm.

(** ** tools/download_optical_flow.py *)
Module DownloadOpticalFlow.
Section Script.
Context (E : Env).

(** Lines 16-39: the body of the [try], with its two [return output_path]. *)
Definition download_raft_lite_attempt : M (option upath) :=
    (py_import E "torch" >>
     py_import E "urllib.request" >>
     print "[INFO] Downloading RAFT-Lite checkpoint..." [] >>
     let model_url :=
       "https://github.com/princeton-vl/RAFT/raw/master/models/raft-small.pth" in
     let output_path := UPath false ["optical_flow_models"; "raft_small.pth"] in
     os_makedirs (UPath false ["optical_flow_models"]) >>
     let* present := os_path_exists output_path in
     if present then
       print "[INFO] Model already exists: {}" [VPath output_path] >>
       ret (Some output_path)
     else
       print "[INFO] Downloading from {}..." [VStr model_url] >>
       let* a := resolve output_path in
       ext_write "urllib.request.urlretrieve" [a] (urlretrieve E model_url a) >>
       print "[SUCCESS] Downloaded to {}" [VPath output_path] >>
       print "\n[NEXT] Convert PyTorch model to ONNX:" [] >>
       print "  python tools/convert_raft_to_onnx.py" [] >>
       ret (Some output_path)).

Definition download_raft_lite : M (option upath) :=
  try_except download_raft_lite_attempt
    (λ e,
      if is_Exception e then
        print "[ERR] Failed to download RAFT-Lite: {}" [VExn e] >>
        ret None
      else raise e).

(** Lines 54-67: the layer calls of the skeleton network, in order. *)
Definition flow_layers : list layer_spec := [
  {| layer_kind := "Conv2D"; layer_filters := 32; layer_kernel := 7;
     layer_strides := 2; layer_activation := "relu" |};
  {| layer_kind := "Conv2D"; layer_filters := 64; layer_kernel := 5;
     layer_strides := 2; layer_activation := "relu" |};
  {| layer_kind := "Conv2D"; layer_filters := 96; layer_kernel := 3;
     layer_strides := 2; layer_activation := "relu" |};
  {| layer_kind := "Conv2DTranspose"; layer_filters := 64; layer_kernel := 3;
     layer_strides := 2; layer_activation := "relu" |};
  {| layer_kind := "Conv2DTranspose"; layer_filters := 32; layer_kernel := 3;
     layer_strides := 2; layer_activation := "relu" |};
  {| layer_kind := "Conv2DTranspose"; layer_filters := 16; layer_kernel := 3;
     layer_strides := 2; layer_activation := "relu" |};
  {| layer_kind := "Conv2D"; layer_filters := 2; layer_kernel := 3;
     layer_strides := 1; layer_activation := "linear" |}
]%Z.

(** Lines 48-91: the body of the [try], up to its [return output_path]. *)
Definition create_simple_optical_flow_tflite_attempt : M (option upath) :=
    (py_import E "tensorflow" >>
     py_import E "tensorflow.keras" >>
     print "[INFO] Creating simple CNN optical flow model..." [] >>
     (* lines 54-70: keras.Input .. keras.Model(...), model.summary() *)
     ext_read "keras.Model" []
       (λ _, match keras_build E flow_layers with
             | None => Ret tt
             | Some e => Raise e
             end) >>
     print "\n[INFO] Converting to TFLite..." [] >>
     ext_read "tf.lite.TFLiteConverter.from_keras_model" []
       (λ _, match from_keras_model E flow_layers with
             | None => Ret tt
             | Some e => Raise e
             end) >>
     let converter :=
       {| conv_source := FromKerasModel flow_layers;
          conv_allow_custom_ops := false;
          conv_optimizations := [Optimize_DEFAULT];
          conv_supported_types := [tf_float16] |} in
     let* tflite_model :=
       ext_read "converter.convert" [] (tflite_convert E converter) in
     let output_path :=
       UPath false ["app"; "src"; "main"; "assets"; "optical_flow_fp16.tflite"] in
     os_makedirs (dirname output_path) >>
     write_file output_path tflite_model >>
     print "[SUCCESS] Saved to {}" [VPath output_path] >>
     (* the value formatted is [len(tflite_model) / 1024] *)
     print "[INFO] Model size: {:.1f} KB"
       [VInt (Z.of_nat (length tflite_model))] >>
     print "\n[WARN] This is an untrained skeleton model." [] >>
     print "[WARN] For real optical flow, use pre-trained PWC-Net or RAFT-Lite." [] >>
     ret (Some output_path)).

Definition create_simple_optical_flow_tflite : M (option upath) :=
  try_except create_simple_optical_flow_tflite_attempt
    (λ e,
      if is_Exception e then
        print "[ERR] Failed to create TFLite model: {}" [VExn e] >>
        ret None
      else raise e).

End Script.
End DownloadOpticalFlow.

(** ** Sample environments

    Concrete collaborators, used to run the scripts on explicit inputs. *)

(** Every import succeeds, every library call returns without touching the
    disk, numpy has every scalar type. *)
Definition quiet_env : Env := {|
  python_version := (3, 10)%Z;
  platform_system := "Linux";
  import_result := λ _, None;
  np_hasattr := λ _, true;
  gettempdir := ["tmp"];
  temp_names := ["a1"; "b2"; "c3"];
  rmtree_fault := λ _ _, None;
  onnx2tf_convert := λ _ _ n, (n, None);
  onnx_load := λ _ _, Ret {| graph := {| graph_node := []; graph_input := [] |} |};
  onnx_serialize := λ _, [8%Z];
  onnx_tf_prepare := λ m, Ret (TfRepOf m);
  export_graph := λ _ _ n, (n, None);
  from_saved_model := λ _ _, None;
  tflite_convert := λ _ _, Ret [84; 70; 76; 51]%Z;
  onnxsim_simplify := λ m, Ret (m, true);
  tf_version := "2.15.0";
  hub_load := λ _ n, (n, Ret {| signatures := [] |});
  saved_model_save := λ _ _ n, (n, None);
  saved_model_load := λ _ _, Ret {| signatures := [] |};
  urlretrieve := λ _ _ n, (n, None);
  keras_build := λ _, None;
  from_keras_model := λ _, None
|}.

(** [E] with one collaborator replaced. *)
Definition with_import_result (x : string → option exn) (E : Env) : Env := {|
  python_version := python_version E;
  platform_system := platform_system E;
  import_result := x;
  np_hasattr := np_hasattr E;
  gettempdir := gettempdir E;
  temp_names := temp_names E;
  rmtree_fault := rmtree_fault E;
  onnx2tf_convert := onnx2tf_convert E;
  onnx_load := onnx_load E;
  onnx_serialize := onnx_serialize E;
  onnx_tf_prepare := onnx_tf_prepare E;
  export_graph := export_graph E;
  from_saved_model := from_saved_model E;
  tflite_convert := tflite_convert E;
  onnxsim_simplify := onnxsim_simplify E;
  tf_version := tf_version E;
  hub_load := hub_load E;
  saved_model_save := saved_model_save E;
  saved_model_load := saved_model_load E;
  urlretrieve := urlretrieve E;
  keras_build := keras_build E;
  from_keras_model := from_keras_model E
|}.

Definition with_np_hasattr (x : string → bool) (E : Env) : Env := {|
  python_version := python_version E;
  platform_system := platform_system E;
  import_result := import_result E;
  np_hasattr := x;
  gettempdir := gettempdir E;
  temp_names := temp_names E;
  rmtree_fault := rmtree_fault E;
  onnx2tf_convert := onnx2tf_convert E;
  onnx_load := onnx_load E;
  onnx_serialize := onnx_serialize E;
  onnx_tf_prepare := onnx_tf_prepare E;
  export_graph := export_graph E;
  from_saved_model := from_saved_model E;
  tflite_convert := tflite_convert E;
  onnxsim_simplify := onnxsim_simplify E;
  tf_version := tf_version E;
  hub_load := hub_load E;
  saved_model_save := saved_model_save E;
  saved_model_load := saved_model_load E;
  urlretrieve := urlretrieve E;
  keras_build := keras_build E;
  from_keras_model := from_keras_model E
|}.

Definition with_onnx2tf_convert (x : list string → list string → node → node * option exn) (E : Env) : Env := {|
  python_version := python_version E;
  platform_system := platform_system E;
  import_result := import_result E;
  np_hasattr := np_hasattr E;
  gettempdir := gettempdir E;
  temp_names := temp_names E;
  rmtree_fault := rmtree_fault E;
  onnx2tf_convert := x;
  onnx_load := onnx_load E;
  onnx_serialize := onnx_serialize E;
  onnx_tf_prepare := onnx_tf_prepare E;
  export_graph := export_graph E;
  from_saved_model := from_saved_model E;
  tflite_convert := tflite_convert E;
  onnxsim_simplify := onnxsim_simplify E;
  tf_version := tf_version E;
  hub_load := hub_load E;
  saved_model_save := saved_model_save E;
  saved_model_load := saved_model_load E;
  urlretrieve := urlretrieve E;
  keras_build := keras_build E;
  from_keras_model := from_keras_model E
|}.


Definition with_export_graph (x : TfRep → list string → node → node * option exn) (E : Env) : Env := {|
  python_version := python_version E;
  platform_system := platform_system E;
  import_result := import_result E;
  np_hasattr := np_hasattr E;
  gettempdir := gettempdir E;
  temp_names := temp_names E;
  rmtree_fault := rmtree_fault E;
  onnx2tf_convert := onnx2tf_convert E;
  onnx_load := onnx_load E;
  onnx_serialize := onnx_serialize E;
  onnx_tf_prepare := onnx_tf_prepare E;
  export_graph := x;
  from_saved_model := from_saved_model E;
  tflite_convert := tflite_convert E;
  onnxsim_simplify := onnxsim_simplify E;
  tf_version := tf_version E;
  hub_load := hub_load E;
  saved_model_save := saved_model_save E;
  saved_model_load := saved_model_load E;
  urlretrieve := urlretrieve E;
  keras_build := keras_build E;
  from_keras_model := from_keras_model E
|}.

Definition with_tflite_convert (x : TFLiteConverter → node → result (list Z)) (E : Env) : Env := {|
  python_version := python_version E;
  platform_system := platform_system E;
  import_result := import_result E;
  np_hasattr := np_hasattr E;
  gettempdir := gettempdir E;
  temp_names := temp_names E;
  rmtree_fault := rmtree_fault E;
  onnx2tf_convert := onnx2tf_convert E;
  onnx_load := onnx_load E;
  onnx_serialize := onnx_serialize E;
  onnx_tf_prepare := onnx_tf_prepare E;
  export_graph := export_graph E;
  from_saved_model := from_saved_model E;
  tflite_convert := x;
  onnxsim_simplify := onnxsim_simplify E;
  tf_version := tf_version E;
  hub_load := hub_load E;
  saved_model_save := saved_model_save E;
  saved_model_load := saved_model_load E;
  urlretrieve := urlretrieve E;
  keras_build := keras_build E;
  from_keras_model := from_keras_model E
|}.


Definition with_hub_load (x : string → node → node * result SavedModelObj) (E : Env) : Env := {|
  python_version := python_version E;
  platform_system := platform_system E;
  import_result := import_result E;
  np_hasattr := np_hasattr E;
  gettempdir := gettempdir E;
  temp_names := temp_names E;
  rmtree_fault := rmtree_fault E;
  onnx2tf_convert := onnx2tf_convert E;
  onnx_load := onnx_load E;
  onnx_serialize := onnx_serialize E;
  onnx_tf_prepare := onnx_tf_prepare E;
  export_graph := export_graph E;
  from_saved_model := from_saved_model E;
  tflite_convert := tflite_convert E;
  onnxsim_simplify := onnxsim_simplify E;
  tf_version := tf_version E;
  hub_load := x;
  saved_model_save := saved_model_save E;
  saved_model_load := saved_model_load E;
  urlretrieve := urlretrieve E;
  keras_build := keras_build E;
  from_keras_model := from_keras_model E
|}.

Definition with_saved_model_load (x : list string → node → result SavedModelObj) (E : Env) : Env := {|
  python_version := python_version E;
  platform_system := platform_system E;
  import_result := import_result E;
  np_hasattr := np_hasattr E;
  gettempdir := gettempdir E;
  temp_names := temp_names E;
  rmtree_fault := rmtree_fault E;
  onnx2tf_convert := onnx2tf_convert E;
  onnx_load := onnx_load E;
  onnx_serialize := onnx_serialize E;
  onnx_tf_prepare := onnx_tf_prepare E;
  export_graph := export_graph E;
  from_saved_model := from_saved_model E;
  tflite_convert := tflite_convert E;
  onnxsim_simplify := onnxsim_simplify E;
  tf_version := tf_version E;
  hub_load := hub_load E;
  saved_model_save := saved_model_save E;
  saved_model_load := x;
  urlretrieve := urlretrieve E;
  keras_build := keras_build E;
  from_keras_model := from_keras_model E
|}.

Definition with_urlretrieve (x : string → list string → node → node * option exn) (E : Env) : Env := {|
  python_version := python_version E;
  platform_system := platform_system E;
  import_result := import_result E;
  np_hasattr := np_hasattr E;
  gettempdir := gettempdir E;
  temp_names := temp_names E;
  rmtree_fault := rmtree_fault E;
  onnx2tf_convert := onnx2tf_convert E;
  onnx_load := onnx_load E;
  onnx_serialize := onnx_serialize E;
  onnx_tf_prepare := onnx_tf_prepare E;
  export_graph := export_graph E;
  from_saved_model := from_saved_model E;
  tflite_convert := tflite_convert E;
  onnxsim_simplify := onnxsim_simplify E;
  tf_version := tf_version E;
  hub_load := hub_load E;
  saved_model_save := saved_model_save E;
  saved_model_load := saved_model_load E;
  urlretrieve := x;
  keras_build := keras_build E;
  from_keras_model := from_keras_model E
|}.

Definition with_rmtree_fault (x : list string → node → option (list (list string) * string)) (E : Env) : Env := {|
  python_version := python_version E;
  platform_system := platform_system E;
  import_result := import_result E;
  np_hasattr := np_hasattr E;
  gettempdir := gettempdir E;
  temp_names := temp_names E;
  rmtree_fault := x;
  onnx2tf_convert := onnx2tf_convert E;
  onnx_load := onnx_load E;
  onnx_serialize := onnx_serialize E;
  onnx_tf_prepare := onnx_tf_prepare E;
  export_graph := export_graph E;
  from_saved_model := from_saved_model E;
  tflite_convert := tflite_convert E;
  onnxsim_simplify := onnxsim_simplify E;
  tf_version := tf_version E;
  hub_load := hub_load E;
  saved_model_save := saved_model_save E;
  saved_model_load := saved_model_load E;
  urlretrieve := urlretrieve E;
  keras_build := keras_build E;
  from_keras_model := from_keras_model E
|}.

(** [quiet_env] with a numpy that lacks [uint32]. *)
Definition env_without_uint32 : Env :=
  with_np_hasattr (λ name, negb (String.eqb name "uint32")) quiet_env.

(** ** Notions used to state the properties *)

(** What a tensor element type comes back as after
    [NP_TYPE_TO_TENSOR_TYPE[TENSOR_TYPE_TO_NP_TYPE[t]]]. *)
Definition shim_roundtrip (E : Env) (t : TensorProto) : option TensorProto :=
  match dict_get (OnnxToTflite.shim_TENSOR_TYPE_TO_NP_TYPE E) t with
  | Some d => dict_get (OnnxToTflite.shim_NP_TYPE_TO_TENSOR_TYPE E) d
  | None => None
  end.

(** The type the round trip yields: a type whose own numpy type is missing
    shares the wider numpy type, whose reverse entry is the wider tensor
    type. *)
Definition shim_roundtrip_expected (E : Env) (t : TensorProto) : TensorProto :=
  match t with
  | UINT32 => if np_hasattr E "uint32" then UINT32 else UINT64
  | COMPLEX64 => if np_hasattr E "complex64" then COMPLEX64 else COMPLEX128
  | _ => t
  end.


(** An event that is a call into a conversion backend or an import of one:
    everything but the file-system calls of the script itself. *)
Definition is_backend_event (ev : event) : bool :=
  match ev with
  | EvFs _ => false
  | EvImport _ | EvCall _ _ => true
  end.

(** The events a computation adds to the log of [w]. *)
Definition new_events {A} (m : M A) (w : world) : list event :=
  drop (length (w_log w)) (w_log (m w).2).

(** The absolute components of [p] in the world [w]. *)
Definition resolved (w : world) (p : upath) : list string :=
  comps (abspath (w_cwd w) p).

(** A file system with one ONNX file in the root directory, and a process
    started in the root. *)
Definition fs_with_model : node :=
  Dir (<["model.onnx" := File [8%Z]]> (<["tmp" := Dir ∅]> ∅)).
Definition root_world : world := init_world fs_with_model [].

(** Several lines printed at once. *)
Definition add_outs (ls : list line) (w : world) : world :=
  World (w_fs w) (w_cwd w) (w_out w ++ ls) (w_log w) (w_onnx_mapping w).

(** The lines a computation prints when started in [w]. *)
Definition new_lines {A} (m : M A) (w : world) : list line :=
  drop (length (w_out w)) (w_out (m w).2).

(** How often the operator type [k] occurs among the nodes of a graph. *)
Definition occurrences (k : string) (nodes : list NodeDef) : Z :=
  Z.of_nat (length (filter (λ n, op n = k) nodes)).

(** The line the inspector prints for one entry of its listing. *)
Definition tally_line (oc : string * Z) : line :=
  Line "  {}: {}" [VStr oc.1; VInt oc.2].

(** A SavedModel whose serving signature has the given operator types. *)
Definition model_with_ops (ops : list string) : SavedModelObj :=
  {| signatures :=
       [("serving_default",
         {| structured_input_signature := "x";
            structured_outputs := "y";
            graph_def_node := map Build_NodeDef ops |})] |}.

(** [quiet_env] where loading any SavedModel gives a graph with the
    operator types Conv2D, Relu, Conv2D. *)
Definition env_with_graph : Env :=
  with_saved_model_load
    (λ _ _, Ret (model_with_ops ["Conv2D"; "Relu"; "Conv2D"])) quiet_env.

(** ** Invariants of computations *)

(** [m] keeps the property [I] of the world, whatever it returns or
    raises. *)
Definition preserves {A} (I : world → Prop) (m : M A) : Prop :=
  ∀ w, I w → I (m w).2.

(** [I] does not look at what is printed, logged or monkey-patched. *)
Class FrameInv (I : world → Prop) : Prop := {
  inv_out : ∀ l w, I w → I (add_out l w);
  inv_log : ∀ ev w, I w → I (add_log ev w);
  inv_mapping : ∀ m w, I w → I (set_onnx_mapping m w)
}.

(** [I] does not look at the file system. *)
Class FsFree (I : world → Prop) : Prop :=
  fs_free : ∀ n w, I w → I (set_fs n w).

(** A change of the file system that keeps [I]. *)
Definition fs_safe (I : world → Prop) (f : node → option node) : Prop :=
  ∀ w n', I w → f (w_fs w) = Some n' → I (set_fs n' w).

(** The log of the world starts with [t]. *)
Definition log_from (t : list event) (w : world) : Prop :=
  t `prefix_of` w_log w.

(** The file system of the world has the directory [P]. *)
Definition has_dir (P : list string) (w : world) : Prop :=
  fs_isdir P (w_fs w) = true.

(** The directory [P] has an entry. *)
Definition has_nonempty_dir (P : list string) (w : world) : Prop :=
  fs_nonempty_dir P (w_fs w) = true.

(** An input with a dimension that has no positive value ([-1], or unset,
    which protobuf reads as 0). *)
Definition has_dynamic_dim (input_tensor : ValueInfoProto) : Prop :=
  Exists (λ d, (dim_value d ≤ 0)%Z) (vi_shape_dim input_tensor).

(** The lines the simplifier prints for a flagged input, and for an input
    that is not flagged. *)
Definition dynamic_shape_lines (input_tensor : ValueInfoProto) : list line :=
  [Line "⚠ Dynamic shape in '{}': {}"
     [VStr (vi_name input_tensor);
      VInts (SimplifyModel.declared_shape input_tensor)];
   Line "  Consider fixing input dimensions for better hardware support" []].

Definition static_shape_lines (input_tensor : ValueInfoProto) : list line :=
  [Line "✓ '{}': {}"
     [VStr (vi_name input_tensor);
      VInts (SimplifyModel.declared_shape input_tensor)]].

Definition shape_lines (input_tensor : ValueInfoProto) : list line :=
  if decide (has_dynamic_dim input_tensor)
  then dynamic_shape_lines input_tensor
  else static_shape_lines input_tensor.



(** A computation that only prints: it returns, and adds the same lines
    whatever the world. *)
Definition prints_only (m : M unit) : Prop :=
  ∃ ls, ∀ w, m w = (Ret tt, add_outs ls w).

(** The lines of the simplifier's operator report for a model. *)
Definition report_lines (model : ModelProto) : list line :=
  new_lines (SimplifyModel.report_operations model) (init_world (Dir ∅) []).






(** The file system, and the working directory, are the given ones. *)
Definition fs_is (n : node) (w : world) : Prop := w_fs w = n.
Definition cwd_is (c : list string) (w : world) : Prop := w_cwd w = c.

(** [q] names something strictly inside the directory [P]. *)
Definition strictly_below (P q : list string) : Prop :=
  ∃ c r, q = P ++ c :: r.

(** The command line [--onnx model.onnx --out out.tflite], with or without
    [--saved-model-dir]. *)
Definition sample_args (saved_model_dir : option upath) : OnnxToTflite.Args :=
  {| OnnxToTflite.args_onnx := UPath false ["model.onnx"];
     OnnxToTflite.args_out := UPath false ["out.tflite"];
     OnnxToTflite.args_saved_model_dir := saved_model_dir;
     OnnxToTflite.args_fp16 := true;
     OnnxToTflite.args_optimize := true;
     OnnxToTflite.args_allow_custom_ops := false |}.

(** [sys.argv] of [onnx_to_tflite_simple.py model.onnx out.tflite] *)
Definition sample_argv : list upath :=
  [UPath false ["onnx_to_tflite_simple.py"]; UPath false ["model.onnx"];
   UPath false ["out.tflite"]].

(** The output of the world starts with [t]. *)
Definition out_from (t : list line) (w : world) : Prop :=
  t `prefix_of` w_out w.

(** A printed line that reports an error. *)
Definition is_diagnostic (l : line) : bool :=
  str_startswith "[ERR]" (line_fmt l).

(** Every value [m] can return satisfies [Q]. *)
Definition returns_only {A} (Q : A → Prop) (m : M A) : Prop :=
  ∀ w a, (m w).1 = Ret a → Q a.

(** The paths the acquirers report. *)
Definition film_output_dir : upath := UPath false ["film_models"; "film_tfhub"].
Definition raft_output_path : upath :=
  UPath false ["optical_flow_models"; "raft_small.pth"].
Definition skeleton_output_path : upath :=
  UPath false ["app"; "src"; "main"; "assets"; "optical_flow_fp16.tflite"].

(** [quiet_env] where the user interrupts the hub download (Ctrl-C). *)
Definition env_interrupted_download : Env :=
  with_hub_load
    (λ _ n, (n, Raise (Exn KeyboardInterrupt EmptyString))) quiet_env.

(** [quiet_env] where the hub download fails with a network error. *)
Definition env_network_down : Env :=
  with_hub_load
    (λ _ n, (n, Raise (Exn OSError "<urlopen error timed out>"))) quiet_env.

(** What the caller of an acquirer [f] gets, given what the body [attempt]
    of its [try] does from the world [w]: the path the attempt returns; or
    [None] with a printed diagnostic naming the exception, when the attempt
    raised an instance of [Exception]; or the exception itself otherwise. *)
Definition acquirer_outcome (attempt f : M (option upath)) (path : upath)
    (w : world) : Prop :=
  match attempt w with
  | (Ret r, w') => f w = (Ret r, w') ∧ r = Some path
  | (Raise e, w') =>
      if is_Exception e
      then (f w).1 = Ret None
           ∧ ∃ l, l ∈ new_lines f w ∧ is_diagnostic l = true
                  ∧ line_args l = [VExn e]
      else f w = (Raise e, w')
  end.

(** Whatever [m] does, the first thing it logs is [ev]. *)
Definition emits_first {A} (ev : event) (m : M A) : Prop :=
  ∀ w, log_from (w_log w ++ [ev]) (m w).2.

(** The two lines the full converter prints when it leaves onnx2tf for
    onnx-tf. *)
Definition onnx2tf_unavailable_line : line :=
  Line "[INFO] onnx2tf unavailable (or missing optional deps). Falling back to onnx-tf ..." [].
Definition onnx2tf_failed_line (e : exn) : line :=
  Line "[WARN] onnx2tf failed: {}. Falling back to onnx-tf ..." [VExn e].
Definition fallback_line (e : exn) : line :=
  if is_ModuleNotFoundError e then onnx2tf_unavailable_line
  else onnx2tf_failed_line e.

(** [quiet_env] where onnx2tf cannot be imported (a sub-dependency is
    missing). *)
Definition env_no_onnx2tf : Env :=
  with_import_result
    (λ m, if String.eqb m "onnx2tf"
          then Some (Exn ImportError "cannot import name 'tf_keras'")
          else None)
    quiet_env.

(** [quiet_env] where [onnx2tf.convert] ends the process with
    [sys.exit(1)]. *)
Definition env_onnx2tf_exits : Env :=
  with_onnx2tf_convert (λ _ _ n, (n, Some (Exn SystemExit "1"))) quiet_env.

(** [quiet_env] where [onnx2tf.convert] raises an error. *)
Definition env_onnx2tf_fails : Env :=
  with_onnx2tf_convert
    (λ _ _ n, (n, Some (Exn RuntimeError "unsupported operator"))) quiet_env.

(** A library call that leaves the directory [P] in place. *)
Definition keeps_dir (P : list string) (f : node → node * option exn) : Prop :=
  ∀ n, fs_isdir P n = true → fs_isdir P (f n).1 = true.

(** What the full converter needs from its backends to keep a persistent
    SavedModel directory [P]: the two exporters leave [P] in place, and the
    TFLite converter only succeeds on a directory that holds something. *)
Record backends_respect (E : Env) (P : list string) : Prop := {
  onnx2tf_keeps : ∀ a, keeps_dir P (onnx2tf_convert E a P);
  export_graph_keeps : ∀ rep, keeps_dir P (export_graph E rep P);
  tflite_needs_model : ∀ conv n bytes,
    conv_source conv = FromSavedModel P →
    tflite_convert E conv n = Ret bytes → fs_nonempty_dir P n = true
}.

(** [quiet_env] with backends that write a SavedModel: onnx2tf writes
    [saved_model/saved_model.pb] under its output folder, onnx-tf writes
    [saved_model.pb] into it, and the TFLite converter refuses a directory
    without entries. *)
Definition env_writing_backends : Env :=
  with_onnx2tf_convert
    (λ _ out n,
       match fs_makedirs (out ++ ["saved_model"]) n with
       | Some n' =>
           (fs_put (out ++ ["saved_model"; "saved_model.pb"]) (File [1%Z]) n',
            None)
       | None => (n, Some (Exn OSError "cannot create output folder"))
       end)
    (with_export_graph
       (λ _ out n, (fs_put (out ++ ["saved_model.pb"]) (File [1%Z]) n, None))
       (with_tflite_convert
          (λ conv n,
             match conv_source conv with
             | FromSavedModel d =>
                 if fs_nonempty_dir d n then Ret [84; 70; 76; 51]%Z
                 else Raise (Exn OSError "SavedModel file does not exist")
             | FromKerasModel _ => Ret [84; 70; 76; 51]%Z
             end)
          quiet_env)).

(** The operating system lets every removal of a directory tree go
    through. *)
Definition removal_never_fails (E : Env) : Prop :=
  ∀ p n, rmtree_fault E p n = None.

(** The exporters leave their output folder [P], and the directories [Q]
    above it, in place: they neither remove them nor put a file there. *)
Definition backends_keep_output (E : Env) : Prop :=
  ∀ P Q, Q `prefix_of` P →
    (∀ a, keeps_dir Q (onnx2tf_convert E a P))
    ∧ (∀ rep, keeps_dir Q (export_graph E rep P)).

(** [env_writing_backends] on a system that refuses to remove a directory
    (Windows, with a file of the directory still open): nothing is removed
    and the removal raises. *)
Definition env_removal_refused : Env :=
  with_rmtree_fault
    (λ _ _, Some ([], "[WinError 32] The process cannot access the file because it is being used by another process"))
    env_writing_backends.

(** [quiet_env] where [onnx2tf.convert] puts an empty file in place of its
    output folder. *)
Definition env_file_for_folder : Env :=
  with_onnx2tf_convert (λ _ out n, (fs_put out (File []) n, None)) quiet_env.

(** What a run of the full converter with [--saved-model-dir P] leaves,
    by exit code: 1 is the missing input; after 2 the directory [P] exists;
    after 0 it exists and holds something. *)
Definition keeps_given_dir (P : list string) (run : result Z * world) : Prop :=
  match run.1 with
  | Ret code =>
      code = 1%Z
      ∨ (code = 2%Z ∧ fs_isdir P (w_fs run.2) = true)
      ∨ (code = 0%Z ∧ fs_isdir P (w_fs run.2) = true
         ∧ fs_nonempty_dir P (w_fs run.2) = true)
  | Raise _ => True
  end.

(** [env_writing_backends] without TensorFlow. *)
Definition env_no_tensorflow : Env :=
  with_import_result
    (λ m, if String.eqb m "tensorflow"
          then Some (Exn ModuleNotFoundError "No module named 'tensorflow'")
          else None)
    env_writing_backends.

(** ** Notions used for further properties *)

(** The sum of the counts of a tally. *)
Definition tally_total (d : dict string Z) : Z :=
  foldr (λ kv s, (kv.2 + s)%Z) 0%Z d.

(** The diagnostic of the graph inspector. *)
Definition inspection_failed_line (e : exn) : line :=
  Line "[ERR] Inspection failed: {}" [VExn e].

(** Why an inspection fails with the exception [e]: TensorFlow cannot be
    imported, the SavedModel cannot be loaded, or it has no
    [serving_default] signature. *)
Definition inspection_fails (E : Env) (p : upath) (w : world) (e : exn) : Prop :=
  import_result E "tensorflow" = Some e
  ∨ (import_result E "tensorflow" = None
     ∧ (saved_model_load E (resolved w p) (w_fs w) = Raise e
        ∨ ∃ model,
            saved_model_load E (resolved w p) (w_fs w) = Ret model
            ∧ dict_get (signatures model) "serving_default" = None
            ∧ e = Exn KeyError "serving_default")).

(** [quiet_env] where the loaded SavedModel has a signature, but not the
    default one. *)
Definition env_no_default_signature : Env :=
  with_saved_model_load
    (λ _ _, Ret {| signatures :=
                     [("predict",
                       {| structured_input_signature := "x";
                          structured_outputs := "y";
                          graph_def_node := [] |})] |})
    quiet_env.

(** The entry the inspector adds for the resampling operators. *)
Definition resample_entry : string := "Resample/ResampleGrad (custom op)".

(** A file system where the RAFT checkpoint is already in place. *)
Definition fs_with_checkpoint : node :=
  Dir (<["optical_flow_models" := Dir (<["raft_small.pth" := File [7%Z]]> ∅)]> ∅).



(** The converter [_convert_saved_model_to_tflite] configures for the
    SavedModel directory [d] and its three switches (lines 114-121). *)
Definition configured_converter (d : list string)
    (fp16 optimize allow_custom_ops : bool) : TFLiteConverter :=
  {| conv_source := FromSavedModel d;
     conv_allow_custom_ops := allow_custom_ops;
     conv_optimizations := if optimize then [Optimize_DEFAULT] else [];
     conv_supported_types := if fp16 then [tf_float16] else [] |}.


(** Whenever [m] returns a value [a], the last line it printed is a line
    [l] with [Q a l]. *)
Definition returns_printing {A} (Q : A → line → Prop) (m : M A) : Prop :=
  ∀ w a w', m w = (Ret a, w') →
    ∃ pre l, Q a l ∧ w_out w' = w_out w ++ pre ++ [l].

(** [m] prints nothing. *)
Definition silent {A} (m : M A) : Prop := ∀ w, w_out (m w).2 = w_out w.

(** What the full converter reports with each exit code: the last line it
    prints. *)
Definition full_main_report (onnx_path : upath) (code : Z) (l : line) : Prop :=
  (code = 0%Z ∧ l = Line "[DONE] Conversion complete." [])
  ∨ (code = 1%Z ∧ l = Line "[ERR] ONNX file not found: {}" [VPath onnx_path])
  ∨ (code = 2%Z
     ∧ ∃ e, is_Exception e = true
            ∧ l = Line "[ERR] Conversion failed: {}" [VExn e]).

(** The same for the simple converter. *)
Definition simple_main_report (argv : list upath) (code : Z) (l : line) : Prop :=
  (code = 0%Z ∧ ∃ size, l = Line "     Size: {:.2f} MB" [VInt size])
  ∨ (code = 1%Z
     ∧ (l = Line "Usage: python onnx_to_tflite_simple.py <input.onnx> <output.tflite>" []
        ∨ l = Line "[ERR] ONNX file not found: {}"
                [VPath (nth 1 argv OnnxToTfliteSimple.curdir)]))
  ∨ (code = 2%Z
     ∧ (l = Line "Install with: pip install onnx2tf onnx-graphsurgeon psutil" []
        ∨ (∃ e, is_Exception e = true
                ∧ l = Line "[ERR] onnx2tf conversion failed: {}" [VExn e])
        ∨ ∃ d, l = Line "[ERR] SavedModel not found at {}" [VPath d])).

(** The line with which the simple converter announces its second step. *)
Definition second_step_line : line :=
  Line "[2/2] Converting SavedModel -> TFLite..." [].

(** The full converter after its preflight messages (lines 149-184), for
    the absolute paths of the input and of the output. *)
Definition full_main_tail (E : Env) (args : OnnxToTflite.Args)
    (onnx_path tflite_out : upath) : M Z :=
  let* found := os_path_isfile onnx_path in
  if negb found then
    print "[ERR] ONNX file not found: {}" [VPath onnx_path] >>
    ret 1%Z
  else
    let* prep := OnnxToTflite.prepare_saved_model_dir E args in
    let saved_model_dir := prep.1 in
    let* returned :=
      try_finally
        (try_except
           (os_makedirs saved_model_dir >>
            OnnxToTflite._convert_onnx_to_saved_model E onnx_path
              saved_model_dir >>
            OnnxToTflite._convert_saved_model_to_tflite E saved_model_dir
              tflite_out (OnnxToTflite.args_fp16 args)
              (OnnxToTflite.args_optimize args)
              (OnnxToTflite.args_allow_custom_ops args) >>
            print "[DONE] Conversion complete." [] >>
            ret None)
           (λ e,
             if is_Exception e then
               print "[ERR] Conversion failed: {}" [VExn e] >>
               ret (Some 2%Z)
             else raise e))
        (match prep.2 with
         | Some tmpdir =>
             try_except (TemporaryDirectory_cleanup E tmpdir)
               (λ e, if is_Exception e then ret tt else raise e)
         | None => ret tt
         end) in
    match returned with
    | Some code => ret code
    | None => ret 0%Z
    end.







(** The module the fallback puts in place of [onnx.mapping]. *)
Definition shim_module (E : Env) : onnx_mapping :=
  OnnxMapping (OnnxToTflite.shim_TENSOR_TYPE_TO_NP_TYPE E)
    (OnnxToTflite.shim_NP_TYPE_TO_TENSOR_TYPE E).

(** [quiet_env] with an [onnx] package that has no [mapping] module. *)
Definition env_no_onnx_mapping : Env :=
  with_import_result
    (λ m, if String.eqb m "onnx.mapping"
          then Some (Exn ImportError "cannot import name 'mapping' from 'onnx'")
          else None)
    quiet_env.

(** ** The script blocks of the two acquirers *)

(** [s * n] *)
Fixpoint str_repeat (s : string) (n : nat) : string :=
  match n with
  | O => EmptyString
  | S n' => s +:+ str_repeat s n'
  end.


(** download_film.py, lines 92-113.  A line built with [+] from a literal
    and a computed string is given as the literal with a hole for the
    computed part. *)
Definition download_film_script (E : Env) : M unit :=
  print "{}" [VStr (str_repeat "=" 60)] >>
  print "Google FILM Model Download and Analysis" [] >>
  print "{}" [VStr (str_repeat "=" 60)] >>
  let* model_path := DownloadFilm.download_film_model E in
  let failed : M unit :=
    print "\n[ERR] Download failed. Try manual download from:" [] >>
    print "https://drive.google.com/drive/folders/1q8110-qp225asX3DQvZnfLfJPkCHmDpy" [] in
  match model_path with
  | Some p =>
      let* present := (if path_truthy p then os_path_exists p else ret false) in
      if present then
        DownloadFilm.inspect_saved_model E p >>
        print "\n{}" [VStr (str_repeat "=" 60)] >>
        print "SUMMARY" [] >>
        print "{}" [VStr (str_repeat "=" 60)] >>
        (let* a := os_path_abspath p in
         print "Model location: {}" [VPath a]) >>
        print "Model format: TensorFlow SavedModel" [] >>
        print "Next steps:" [] >>
        print "  1. Convert to TFLite: Use tf.lite.TFLiteConverter" [] >>
        print "  2. Convert to ONNX: Use tf2onnx" [] >>
        print "  3. Test in Android app" []
      else failed
  | None => failed
  end.





(** [m] raises nothing that [except Exception] would catch. *)
Definition raises_no_exception {A} (m : M A) : Prop :=
  ∀ w e, (m w).1 = Raise e → is_Exception e = false.

(** The last line of the FILM script: of its summary, or of its hint to
    download by hand. *)
Definition film_script_last_line (l : line) : Prop :=
  l = Line "  3. Test in Android app" []
  ∨ l = Line "https://drive.google.com/drive/folders/1q8110-qp225asX3DQvZnfLfJPkCHmDpy" [].
(** * Properties *)

(** ** The [onnx.mapping] shim (onnx_to_tflite.py, lines 73-100) *)

(** C7, counterexample: with a numpy that has no [uint32], [UINT32] is a key
    of the reconstructed table, maps to [uint64], and [uint64] maps back to
    [UINT64]: the tables are not mutually inverse. *)
Lemma shim_roundtrip_uint32_lost :
  dict_get (OnnxToTflite.shim_TENSOR_TYPE_TO_NP_TYPE env_without_uint32) UINT32
    = Some np_uint64
  ∧ dict_get (OnnxToTflite.shim_NP_TYPE_TO_TENSOR_TYPE env_without_uint32)
      np_uint64 = Some UINT64
  ∧ shim_roundtrip env_without_uint32 UINT32 = Some UINT64.
Proof. repeat split; vm_compute; reflexivity. Qed.

(** C7, amended: under every outcome of the two probes, every tensor element
    type is a key of the reconstructed table and the round trip through both
    tables yields the type itself, except that [UINT32] yields [UINT64] when
    numpy has no [uint32] and [COMPLEX64] yields [COMPLEX128] when numpy has
    no [complex64]; in particular the tables are mutually inverse when both
    probes succeed. *)
Theorem shim_roundtrip_spec (E : Env) (t : TensorProto) :
  shim_roundtrip E t = Some (shim_roundtrip_expected E t).
Proof.
  unfold shim_roundtrip, shim_roundtrip_expected,
    OnnxToTflite.shim_NP_TYPE_TO_TENSOR_TYPE,
    OnnxToTflite.shim_TENSOR_TYPE_TO_NP_TYPE.
  destruct (np_hasattr E "uint32"), (np_hasattr E "complex64");
    destruct t; vm_compute; reflexivity.
Qed.

(** ** Running computations *)


Lemma bind_run_raise {A B} (m : M A) (k : A → M B) w e w' :
  m w = (Raise e, w') → bind m k w = (Raise e, w').
Proof. intros H. unfold bind. by rewrite H. Qed.


Lemma abspath_idem cwd p : abspath cwd (abspath cwd p) = abspath cwd p.
Proof. unfold abspath. by destruct (is_abs p) eqn:H; simpl; rewrite ?H. Qed.

Lemma new_events_app {A} (m : M A) w evs :
  w_log (m w).2 = w_log w ++ evs → new_events m w = evs.
Proof. intros H. unfold new_events. by rewrite H, drop_app_length. Qed.

(** ** C1: a missing input stops both converters before any backend call *)

Lemma full_main_not_found_run (E : Env) (args : OnnxToTflite.Args) (w : world) :
  fs_isfile (resolved w (OnnxToTflite.args_onnx args)) (w_fs w) = false →
  (OnnxToTflite.main E args w).1 = Ret 1%Z
  ∧ w_fs (OnnxToTflite.main E args w).2 = w_fs w
  ∧ w_log (OnnxToTflite.main E args w).2
    = w_log w ++ [EvFs (IsFile (resolved w (OnnxToTflite.args_onnx args)))].
Proof.
  unfold resolved. intros Hnf. unfold OnnxToTflite.main.
  destruct ((fst (python_version E) =? 3)%Z
            && (snd (python_version E) >=? 12)%Z);
    destruct (String.eqb (str_lower (platform_system E)) "windows");
    cbn; rewrite abspath_idem, Hnf; cbn; auto.
Qed.

Lemma simple_main_not_found_run (E : Env) (argv : list upath) (w : world) :
  (3 ≤ length argv)%nat →
  fs_isfile (resolved w (nth 1 argv OnnxToTfliteSimple.curdir)) (w_fs w)
    = false →
  OnnxToTfliteSimple.main E argv w
  = (Ret 1%Z,
     add_out (Line "[ERR] ONNX file not found: {}"
                [VPath (nth 1 argv OnnxToTfliteSimple.curdir)])
       (add_log (EvFs (IsFile (resolved w
                    (nth 1 argv OnnxToTfliteSimple.curdir)))) w)).
Proof.
  unfold resolved. intros Hlen Hnf. unfold OnnxToTfliteSimple.main.
  destruct (length argv <? 3)%nat eqn:Hlt.
  - apply Nat.ltb_lt in Hlt. lia.
  - cbn. rewrite Hnf. reflexivity.
Qed.

Lemma simple_main_usage_run (E : Env) (argv : list upath) (w : world) :
  (length argv < 3)%nat →
  OnnxToTfliteSimple.main E argv w
  = (Ret 1%Z,
     add_out
       (Line "Usage: python onnx_to_tflite_simple.py <input.onnx> <output.tflite>" [])
       w).
Proof.
  intros Hlen. unfold OnnxToTfliteSimple.main.
  destruct (length argv <? 3)%nat eqn:Hlt; [reflexivity|].
  apply Nat.ltb_ge in Hlt. lia.
Qed.

(** C1.  When the input ONNX path does not name an existing file, the main
    function of the full converter and the main function of the simple
    converter both return 1; the file system is unchanged, and the only
    thing either did to the outside is the one [os.path.isfile] test: no
    import of a backend and no conversion call (ONNX -> SavedModel or
    SavedModel -> TFLite) was made. *)
Theorem converters_input_not_found (E : Env) (w : world) :
  (∀ args : OnnxToTflite.Args,
     fs_isfile (resolved w (OnnxToTflite.args_onnx args)) (w_fs w) = false →
     (OnnxToTflite.main E args w).1 = Ret 1%Z
     ∧ w_fs (OnnxToTflite.main E args w).2 = w_fs w
     ∧ new_events (OnnxToTflite.main E args) w
       = [EvFs (IsFile (resolved w (OnnxToTflite.args_onnx args)))]
     ∧ Forall (λ ev, is_backend_event ev = false)
         (new_events (OnnxToTflite.main E args) w))
  ∧ (∀ argv : list upath,
     (3 ≤ length argv)%nat →
     fs_isfile (resolved w (nth 1 argv OnnxToTfliteSimple.curdir)) (w_fs w)
       = false →
     (OnnxToTfliteSimple.main E argv w).1 = Ret 1%Z
     ∧ w_fs (OnnxToTfliteSimple.main E argv w).2 = w_fs w
     ∧ new_events (OnnxToTfliteSimple.main E argv) w
       = [EvFs (IsFile (resolved w (nth 1 argv OnnxToTfliteSimple.curdir)))]
     ∧ Forall (λ ev, is_backend_event ev = false)
         (new_events (OnnxToTfliteSimple.main E argv) w)).
Proof.
  split.
  - intros args Hnf.
    destruct (full_main_not_found_run E args w Hnf) as (Hr & Hfs & Hlog).
    rewrite (new_events_app _ _ _ Hlog). repeat split; auto.
  - intros argv Hlen Hnf.
    pose proof (simple_main_not_found_run E argv w Hlen Hnf) as Hrun.
    assert (Hlog : w_log (OnnxToTfliteSimple.main E argv w).2
                   = w_log w ++ [EvFs (IsFile (resolved w
                        (nth 1 argv OnnxToTfliteSimple.curdir)))]).
    { by rewrite Hrun. }
    rewrite (new_events_app _ _ _ Hlog), Hrun.
    repeat split; auto.
Qed.

(** C1, at an input: started in a root directory that holds [model.onnx],
    both converters are asked for [missing.onnx]. *)
Lemma converters_input_not_found_witness :
  ((OnnxToTflite.main quiet_env
      {| OnnxToTflite.args_onnx := UPath false ["missing.onnx"];
         OnnxToTflite.args_out := UPath false ["out.tflite"];
         OnnxToTflite.args_saved_model_dir := None;
         OnnxToTflite.args_fp16 := true;
         OnnxToTflite.args_optimize := true;
         OnnxToTflite.args_allow_custom_ops := false |} root_world).1
   = Ret 1%Z)
  ∧ ((OnnxToTfliteSimple.main quiet_env
        [UPath false ["onnx_to_tflite_simple.py"];
         UPath false ["missing.onnx"]; UPath false ["out.tflite"]]
        root_world).1 = Ret 1%Z).
Proof.
  split.
  - apply (proj1 (converters_input_not_found quiet_env root_world)).
    vm_compute; reflexivity.
  - apply (proj2 (converters_input_not_found quiet_env root_world)).
    + simpl; lia.
    + vm_compute; reflexivity.
Defined.

(** ** C10: the simple converter without its two arguments *)

(** C10.  Called with fewer than two positional arguments
    ([len(sys.argv) < 3]) the simple converter prints its usage line and
    returns 1, the code it also returns for a missing input file; in the
    missing-argument case nothing else happens: the file system is the same
    and no file-system call (nor any other call) is logged. *)
Theorem simple_main_missing_arguments (E : Env) (w : world) :
  (∀ argv : list upath,
     (length argv < 3)%nat →
     OnnxToTfliteSimple.main E argv w
     = (Ret 1%Z,
        add_out
          (Line "Usage: python onnx_to_tflite_simple.py <input.onnx> <output.tflite>" [])
          w)
     ∧ w_fs (OnnxToTfliteSimple.main E argv w).2 = w_fs w
     ∧ new_events (OnnxToTfliteSimple.main E argv) w = [])
  ∧ (∀ argv : list upath,
     (3 ≤ length argv)%nat →
     fs_isfile (resolved w (nth 1 argv OnnxToTfliteSimple.curdir)) (w_fs w)
       = false →
     (OnnxToTfliteSimple.main E argv w).1 = Ret 1%Z).
Proof.
  split.
  - intros argv Hlen.
    pose proof (simple_main_usage_run E argv w Hlen) as Hrun.
    split; [exact Hrun|]. rewrite Hrun. split; [reflexivity|].
    apply new_events_app. rewrite Hrun. cbn. by rewrite app_nil_r.
  - intros argv Hlen Hnf.
    by rewrite (simple_main_not_found_run E argv w Hlen Hnf).
Qed.

(** C10, at an input: the script is started with the input path only. *)
Lemma simple_main_missing_arguments_witness :
  OnnxToTfliteSimple.main quiet_env
    [UPath false ["onnx_to_tflite_simple.py"]; UPath false ["model.onnx"]]
    root_world
  = (Ret 1%Z,
     add_out
       (Line "Usage: python onnx_to_tflite_simple.py <input.onnx> <output.tflite>" [])
       root_world).
Proof.
  apply (proj1 (simple_main_missing_arguments quiet_env root_world)).
  simpl; lia.
Defined.

(** ** Dictionaries and sorting *)

Section DictFacts.
Context {K V : Type} `{EqDecision K}.
Implicit Types (d : dict K V) (k : K) (v : V).

Lemma dict_get_set d k v k' :
  dict_get (dict_set d k v) k'
  = if decide (k = k') then Some v else dict_get d k'.
Proof.
  induction d as [|[k0 v0] d IH]; simpl.
  - done.
  - destruct (decide (k0 = k)) as [->|Hne]; simpl.
    + destruct (decide (k = k')); done.
    + rewrite IH. destruct (decide (k0 = k')) as [->|]; [|done].
      by rewrite decide_False.
Qed.

Lemma dict_get_set_eq d k v : dict_get (dict_set d k v) k = Some v.
Proof. by rewrite dict_get_set, decide_True. Qed.

Lemma dict_get_set_ne d k v k' :
  k ≠ k' → dict_get (dict_set d k v) k' = dict_get d k'.
Proof. intros. by rewrite dict_get_set, decide_False. Qed.

End DictFacts.

Section SortFacts.
Context {A : Type} (le : A → A → bool).
Hypothesis le_total : ∀ x y, le x y = false → le y x = true.
Hypothesis le_trans : ∀ x y z, le x y = true → le y z = true → le x z = true.

Lemma insert_sorted_perm x l : insert_sorted le x l ≡ₚ x :: l.
Proof.
  induction l as [|y l IH]; simpl; [done|].
  destruct (le x y); [done|]. rewrite IH. apply Permutation_swap.
Qed.

Lemma sorted_perm l : sorted le l ≡ₚ l.
Proof.
  induction l as [|x l IH]; simpl; [done|].
  unfold sorted in *. simpl. by rewrite insert_sorted_perm, IH.
Qed.

Lemma insert_sorted_sorted x l :
  StronglySorted (λ a b, le a b = true) l →
  StronglySorted (λ a b, le a b = true) (insert_sorted le x l).
Proof using le_total le_trans.
  induction 1 as [|y l Hl IH Hy]; simpl.
  - repeat constructor.
  - destruct (le x y) eqn:Hxy.
    + constructor; [by constructor|]. constructor; [done|].
      eapply Forall_impl; [exact Hy|]. intros z Hz. by eapply le_trans.
    + constructor; [done|].
      rewrite insert_sorted_perm. constructor; [by apply le_total|done].
Qed.

Lemma sorted_sorted l : StronglySorted (λ a b, le a b = true) (sorted le l).
Proof using le_total le_trans.
  induction l as [|x l IH]; [constructor|].
  unfold sorted in *. simpl. by apply insert_sorted_sorted.
Qed.

End SortFacts.

Lemma StronglySorted_take {A} (R : A → A → Prop) n l :
  StronglySorted R l → StronglySorted R (take n l).
Proof.
  intros H. rewrite <- (take_drop n l) in H.
  by apply StronglySorted_app_1_l in H.
Qed.


Lemma StronglySorted_mono {A} (R S : A → A → Prop) l :
  (∀ x y, R x y → S x y) → StronglySorted R l → StronglySorted S l.
Proof.
  intros HRS. induction 1 as [|x l Hl IH Hx]; constructor; [done|].
  eapply Forall_impl; [exact Hx|]. intros y. apply HRS.
Qed.

(** ** C5: the operator tally of the graph inspector *)

Lemma count_ops_acc (nodes : list NodeDef) (acc : dict string Z) (k : string) :
  dict_get
    (foldl (λ op_types node,
              dict_set op_types (op node)
                (default 0%Z (dict_get op_types (op node)) + 1)%Z)
       acc nodes) k
  = if decide (occurrences k nodes = 0%Z) then dict_get acc k
    else Some (default 0%Z (dict_get acc k) + occurrences k nodes)%Z.
Proof.
  revert acc. induction nodes as [|n nodes IH]; intros acc.
  - done.
  - cbn [foldl]. rewrite IH. unfold occurrences. rewrite filter_cons.
    rewrite dict_get_set.
    destruct (decide (op n = k)) as [->|Hne]; cbn [length]; [|done].
    generalize (length (filter (λ n0, op n0 = k) nodes)). intros c.
    destruct (decide (Z.of_nat (S c) = 0%Z)) as [|_]; [lia|].
    destruct (decide (Z.of_nat c = 0%Z)) as [Hc|_]; cbn [default];
      f_equal; unfold id; lia.
Qed.

Lemma count_ops_get (nodes : list NodeDef) (k : string) :
  dict_get (DownloadFilm.count_ops nodes) k
  = if decide (occurrences k nodes = 0%Z) then None
    else Some (occurrences k nodes).
Proof.
  unfold DownloadFilm.count_ops. rewrite count_ops_acc. cbn.
  destruct (decide (occurrences k nodes = 0%Z)); [done|]. f_equal.
Qed.

Lemma top_operators_descending (op_types : dict string Z) :
  StronglySorted (λ x y : string * Z, (y.2 ≤ x.2)%Z)
    (DownloadFilm.top_operators op_types).
Proof.
  unfold DownloadFilm.top_operators. apply StronglySorted_take.
  eapply (StronglySorted_mono
            (λ a b : string * Z, (- a.2 <=? - b.2)%Z = true)).
  - intros x y H. apply Z.leb_le in H. lia.
  - apply (sorted_sorted (λ a b : string * Z, (- a.2 <=? - b.2)%Z)).
    + intros x y H. apply Z.leb_gt in H. apply Z.leb_le. lia.
    + intros x y z H1 H2. apply Z.leb_le in H1, H2. apply Z.leb_le. lia.
Qed.

Lemma perm_AAB {T} (A B : T) (l : list T) :
  l ≡ₚ [A; A; B] → l = [A; A; B] ∨ l = [A; B; A] ∨ l = [B; A; A].
Proof.
  intros H. apply Permutation_cons_inv_r in H as (k1 & k2 & -> & H).
  apply Permutation.Permutation_length_2_inv in H.
  destruct k1 as [|x [|y [|z k1]]]; destruct H as [H|H]; simplify_eq/=; auto.
Qed.

Lemma top_operators_AAB (A B : string) (nodes : list NodeDef) :
  A ≠ B → map op nodes ≡ₚ [A; A; B] →
  DownloadFilm.top_operators (DownloadFilm.count_ops nodes)
  = [(A, 2%Z); (B, 1%Z)].
Proof.
  intros Hne H. apply perm_AAB in H.
  destruct nodes as [|[o1] [|[o2] [|[o3] [|]]]];
    destruct H as [H|[H|H]]; simplify_eq/=.
  all: unfold DownloadFilm.top_operators, DownloadFilm.count_ops; cbn.
  all: repeat (case_decide; simplify_eq/=); done.
Qed.

Lemma occurrences_AAB (A B k : string) (nodes : list NodeDef) :
  A ≠ B → map op nodes ≡ₚ [A; A; B] →
  occurrences k nodes
  = if decide (k = A) then 2%Z else if decide (k = B) then 1%Z else 0%Z.
Proof.
  intros Hne H. apply perm_AAB in H.
  destruct nodes as [|[o1] [|[o2] [|[o3] [|]]]];
    destruct H as [H|[H|H]]; simplify_eq/=.
  all: unfold occurrences; rewrite !filter_cons, filter_nil; cbn.
  all: repeat (case_decide; simplify_eq/=); done.
Qed.

(** ** Printing loops and the output of a run *)

Lemma add_outs_outs a b w : add_outs b (add_outs a w) = add_outs (a ++ b) w.
Proof. unfold add_outs. simpl. by rewrite app_assoc. Qed.

Lemma for_each_print {A} (fm : A → string) (ar : A → list pyval) l w :
  for_each l (λ x, print (fm x) (ar x)) w
  = (Ret tt, add_outs (map (λ x, Line (fm x) (ar x)) l) w).
Proof.
  revert w. induction l as [|x l IH]; intros w; cbn.
  - unfold ret, add_outs. destruct w; simpl. by rewrite app_nil_r.
  - rewrite IH. f_equal.
    unfold add_outs, add_out. simpl. by rewrite <- app_assoc.
Qed.

Lemma new_lines_app {A} (m : M A) w ls :
  w_out (m w).2 = w_out w ++ ls → new_lines m w = ls.
Proof. intros H. unfold new_lines. by rewrite H, drop_app_length. Qed.

(** Unfold the control operators and evaluate what is determined. *)
Ltac run := unfold try_except, try_finally, bind; cbn.

Lemma inspect_saved_model_run (E : Env) (p : upath) (w : world) model f :
  import_result E "tensorflow" = None →
  saved_model_load E (resolved w p) (w_fs w) = Ret model →
  dict_get (signatures model) "serving_default" = Some f →
  (DownloadFilm.inspect_saved_model E p w).1
  = Ret (Some (DownloadFilm.count_ops (graph_def_node f)))
  ∧ ∃ pre post,
      new_lines (DownloadFilm.inspect_saved_model E p) w
      = pre
        ++ map tally_line
             (DownloadFilm.top_operators
                (DownloadFilm.count_ops (graph_def_node f)))
        ++ post.
Proof.
  intros Himp Hload Hsig. unfold resolved in *.
  assert (∃ pre post,
    (DownloadFilm.inspect_saved_model E p w).1
    = Ret (Some (DownloadFilm.count_ops (graph_def_node f)))
    ∧ w_out (DownloadFilm.inspect_saved_model E p w).2
      = w_out w
        ++ pre
        ++ map tally_line
             (DownloadFilm.top_operators
                (DownloadFilm.count_ops (graph_def_node f)))
        ++ post) as (pre & post & Hr & Hout).
  { unfold DownloadFilm.inspect_saved_model.
    unfold py_import, ext_read, dict_getitem.
    run. rewrite Himp. run. rewrite Hload. run. rewrite Hsig. run.
    rewrite for_each_print.
    exists
      [Line "\n[INFO] Inspecting SavedModel at {}" [VPath p];
       Line "\n[INFO] Model has {} nodes"
         [VInt (Z.of_nat (length (graph_def_node f)))];
       Line "[INFO] Unique operator types: {}"
         [VInt (Z.of_nat
                  (length (DownloadFilm.count_ops (graph_def_node f))))];
       Line "\n[INFO] Top 20 operators:" []].
    destruct (DownloadFilm.problematic_operators
                (DownloadFilm.count_ops (graph_def_node f))) as [|o os].
    - exists
        [Line "\n[INFO] No obvious GridSample or custom ops detected" [];
         Line "[INFO] Model uses standard TF ops (Conv2D, DepthwiseConv2D, etc.)" []].
      cbn. split; [reflexivity|]. by rewrite <- !app_assoc.
    - rewrite for_each_print.
      exists
        (Line "\n[WARN] Potentially unsupported operators for NNAPI:" []
         :: map (λ x, Line "  - {}" [VStr x]) (o :: os)).
      cbn. split; [reflexivity|]. by rewrite <- !app_assoc. }
  split; [exact Hr|]. exists pre, post. by apply new_lines_app.
Qed.

(** C5.  The inspector's tally maps every operator type to the number of
    nodes of that type, and holds no entry for a type that does not occur;
    the listing it prints is in descending order of count.  For a graph
    whose node types are A, A, B in any order (A and B distinct) the tally
    is A: 2, B: 1 with no other entry, and the listing is A then B.  When
    the model loads, [inspect_saved_model] returns that tally and prints
    the listing line by line. *)
Theorem inspector_operator_tally (E : Env) :
  (∀ nodes k,
     dict_get (DownloadFilm.count_ops nodes) k
     = if decide (occurrences k nodes = 0%Z) then None
       else Some (occurrences k nodes))
  ∧ (∀ op_types,
       StronglySorted (λ x y : string * Z, (y.2 ≤ x.2)%Z)
         (DownloadFilm.top_operators op_types))
  ∧ (∀ (A B : string) nodes,
       A ≠ B → map op nodes ≡ₚ [A; A; B] →
       dict_get (DownloadFilm.count_ops nodes) A = Some 2%Z
       ∧ dict_get (DownloadFilm.count_ops nodes) B = Some 1%Z
       ∧ (∀ k, k ≠ A → k ≠ B →
            dict_get (DownloadFilm.count_ops nodes) k = None)
       ∧ DownloadFilm.top_operators (DownloadFilm.count_ops nodes)
         = [(A, 2%Z); (B, 1%Z)])
  ∧ (∀ p w model f,
       import_result E "tensorflow" = None →
       saved_model_load E (resolved w p) (w_fs w) = Ret model →
       dict_get (signatures model) "serving_default" = Some f →
       (DownloadFilm.inspect_saved_model E p w).1
       = Ret (Some (DownloadFilm.count_ops (graph_def_node f)))
       ∧ ∃ pre post,
           new_lines (DownloadFilm.inspect_saved_model E p) w
           = pre
             ++ map tally_line
                  (DownloadFilm.top_operators
                     (DownloadFilm.count_ops (graph_def_node f)))
             ++ post).
Proof.
  split; [apply count_ops_get|].
  split; [apply top_operators_descending|].
  split; [|apply inspect_saved_model_run].
  intros A B nodes Hne Hperm.
  pose proof (λ k, occurrences_AAB A B k nodes Hne Hperm) as Hocc.
  repeat split.
  - rewrite count_ops_get, Hocc, (decide_True (P := A = A)) by done.
    reflexivity.
  - rewrite count_ops_get, Hocc, (decide_False (P := B = A)) by done.
    rewrite (decide_True (P := B = B)) by done. reflexivity.
  - intros k HA HB.
    rewrite count_ops_get, Hocc, (decide_False (P := k = A)) by done.
    rewrite (decide_False (P := k = B)) by done. reflexivity.
  - by apply top_operators_AAB.
Qed.

(** C5, at an input: a graph with the nodes Conv2D, Relu, Conv2D. *)
Lemma inspector_operator_tally_witness :
  DownloadFilm.top_operators
    (DownloadFilm.count_ops (map Build_NodeDef ["Conv2D"; "Relu"; "Conv2D"]))
  = [("Conv2D", 2%Z); ("Relu", 1%Z)]
  ∧ (DownloadFilm.inspect_saved_model env_with_graph
       (UPath false ["film_models"; "film_tfhub"]) root_world).1
    = Ret (Some [("Conv2D", 2%Z); ("Relu", 1%Z)]).
Proof.
  split.
  - apply (proj1 (proj2 (proj2 (inspector_operator_tally quiet_env)))
             "Conv2D" "Relu" (map Build_NodeDef ["Conv2D"; "Relu"; "Conv2D"])).
    + discriminate.
    + vm_compute. apply Permutation_skip, Permutation_swap.
  - apply (proj2 (proj2 (proj2 (inspector_operator_tally env_with_graph)))
             (UPath false ["film_models"; "film_tfhub"]) root_world
             (model_with_ops ["Conv2D"; "Relu"; "Conv2D"])
             (Build_ConcreteFunction "x" "y"
                (map Build_NodeDef ["Conv2D"; "Relu"; "Conv2D"])));
      reflexivity.
Defined.

(** ** Invariants: the control operators *)

Section Preserves.
Context (I : world → Prop).

Lemma preserves_ret {A} (a : A) : preserves I (ret a).
Proof. intros w H. exact H. Qed.

Lemma preserves_raise {A} (e : exn) : preserves I (raise (A := A) e).
Proof. intros w H. exact H. Qed.

Lemma preserves_bind {A B} (m : M A) (k : A → M B) :
  preserves I m → (∀ a, preserves I (k a)) → preserves I (bind m k).
Proof.
  intros Hm Hk w Hw. unfold bind. specialize (Hm w Hw).
  destruct (m w) as [[a|e] w']; simpl in *; [by apply Hk|done].
Qed.

Lemma preserves_try_except {A} (m : M A) (h : exn → M A) :
  preserves I m → (∀ e, preserves I (h e)) → preserves I (try_except m h).
Proof.
  intros Hm Hh w Hw. unfold try_except. specialize (Hm w Hw).
  destruct (m w) as [[a|e] w']; simpl in *; [done|by apply Hh].
Qed.

Lemma preserves_try_finally {A} (m : M A) (f : M unit) :
  preserves I m → preserves I f → preserves I (try_finally m f).
Proof.
  intros Hm Hf w Hw. unfold try_finally. specialize (Hm w Hw).
  destruct (m w) as [r w']; simpl in *. specialize (Hf w' Hm).
  destruct (f w') as [[[]|e] w'']; done.
Qed.

Lemma preserves_for_each {A} (l : list A) (body : A → M unit) :
  (∀ x, preserves I (body x)) → preserves I (for_each l body).
Proof.
  intros Hb. induction l as [|x l IH]; simpl.
  - apply preserves_ret.
  - apply preserves_bind; [apply Hb|intros _; exact IH].
Qed.

Context `{!FrameInv I}.

Lemma preserves_print fmt args : preserves I (print fmt args).
Proof. intros w H. by apply inv_out. Qed.

Lemma preserves_emit ev : preserves I (emit ev).
Proof. intros w H. by apply inv_log. Qed.

Lemma preserves_get_fs : preserves I get_fs.
Proof. intros w H. exact H. Qed.

Lemma preserves_resolve p : preserves I (resolve p).
Proof. intros w H. exact H. Qed.

Lemma preserves_abspath p : preserves I (os_path_abspath p).
Proof. intros w H. exact H. Qed.

Lemma preserves_py_import E m : preserves I (py_import E m).
Proof.
  unfold py_import. apply preserves_bind; [apply preserves_emit|intros _].
  destruct (import_result E m); [apply preserves_raise|apply preserves_ret].
Qed.

Lemma preserves_dict_getitem {V} (d : dict string V) k :
  preserves I (dict_getitem d k).
Proof.
  unfold dict_getitem.
  destruct (dict_get d k); [apply preserves_ret|apply preserves_raise].
Qed.

Lemma preserves_isfile p : preserves I (os_path_isfile p).
Proof. intros w H. cbn. by apply inv_log. Qed.

Lemma preserves_isdir p : preserves I (os_path_isdir p).
Proof. intros w H. cbn. by apply inv_log. Qed.

Lemma preserves_exists p : preserves I (os_path_exists p).
Proof. intros w H. cbn. by apply inv_log. Qed.

Lemma preserves_listdir p : preserves I (os_listdir p).
Proof.
  intros w H. unfold os_listdir. run.
  destruct (fs_listdir _ _); cbn; by apply inv_log.
Qed.

Lemma preserves_ext_read {A} fn paths (f : node → result A) :
  preserves I (ext_read fn paths f).
Proof.
  intros w H. unfold ext_read. run.
  destruct (f (w_fs w)); cbn; by apply inv_log.
Qed.

Lemma preserves_fs_update c f msg :
  fs_safe I f → preserves I (fs_update c f msg).
Proof.
  intros Hf w H. unfold fs_update. run.
  destruct (f (w_fs w)) as [n'|] eqn:Hn; cbn.
  - apply (Hf (add_log (EvFs c) w)); [by apply inv_log|exact Hn].
  - by apply inv_log.
Qed.

Lemma preserves_ext_write fn paths (f : node → node * option exn) :
  fs_safe I (λ n, Some (f n).1) → preserves I (ext_write fn paths f).
Proof.
  intros Hf w H. unfold ext_write. run.
  assert (I (set_fs (f (w_fs w)).1 (add_log (EvCall fn paths) w))) as H'.
  { apply (Hf (add_log (EvCall fn paths) w)); [by apply inv_log|done]. }
  destruct ((f (w_fs w)).2); exact H'.
Qed.

Lemma preserves_ext_call {A} fn paths (f : node → node * result A) :
  fs_safe I (λ n, Some (f n).1) → preserves I (ext_call fn paths f).
Proof.
  intros Hf w H. unfold ext_call. run.
  assert (I (set_fs (f (w_fs w)).1 (add_log (EvCall fn paths) w))) as H'.
  { apply (Hf (add_log (EvCall fn paths) w)); [by apply inv_log|done]. }
  destruct ((f (w_fs w)).2); exact H'.
Qed.

End Preserves.

Lemma fs_free_safe I `{!FsFree I} f : fs_safe I f.
Proof. intros w n' H _. by apply fs_free. Qed.

#[global] Instance log_from_frame t : FrameInv (log_from t).
Proof.
  split; unfold log_from; intros; simpl; try done.
  by apply prefix_app_r.
Qed.

#[global] Instance log_from_fs_free t : FsFree (log_from t).
Proof. intros n w H. exact H. Qed.

#[global] Instance has_dir_frame P : FrameInv (has_dir P).
Proof. split; unfold has_dir; intros; simpl; done. Qed.

#[global] Instance has_nonempty_dir_frame P : FrameInv (has_nonempty_dir P).
Proof. split; unfold has_nonempty_dir; intros; simpl; done. Qed.

(** ** The simplifier (simplify_model.py) *)

Lemma declared_shape_dynamic it :
  (-1)%Z ∈ SimplifyModel.declared_shape it ↔ has_dynamic_dim it.
Proof.
  unfold SimplifyModel.declared_shape, has_dynamic_dim.
  rewrite list_elem_of_fmap, Exists_exists. split.
  - intros (d & Hd & Hin). exists d. split; [done|].
    destruct (Z.gtb_spec (dim_value d) 0); lia.
  - intros (d & Hin & Hd). exists d. split; [|done].
    destruct (Z.gtb_spec (dim_value d) 0); [lia|done].
Qed.

Lemma check_input_shape_run it w :
  SimplifyModel.check_input_shape it w = (Ret tt, add_outs (shape_lines it) w).
Proof.
  unfold SimplifyModel.check_input_shape, shape_lines.
  destruct (decide (has_dynamic_dim it)) as [H|H].
  - rewrite bool_decide_eq_true_2 by by apply declared_shape_dynamic.
    run. unfold print, add_outs, add_out, dynamic_shape_lines; simpl.
    by rewrite <- app_assoc.
  - rewrite bool_decide_eq_false_2 by by rewrite declared_shape_dynamic.
    reflexivity.
Qed.

Lemma for_each_check_input_shape l w :
  for_each l SimplifyModel.check_input_shape w
  = (Ret tt, add_outs (concat (map shape_lines l)) w).
Proof.
  revert w. induction l as [|x l IH]; intros w; cbn.
  - unfold ret, add_outs. destruct w; simpl. by rewrite app_nil_r.
  - unfold bind. rewrite check_input_shape_run, IH, add_outs_outs. done.
Qed.

Lemma prints_only_print fmt args : prints_only (print fmt args).
Proof. exists [Line fmt args]. reflexivity. Qed.

Lemma prints_only_seq (m k : M unit) :
  prints_only m → prints_only k → prints_only (m >> k).
Proof.
  intros [a Ha] [b Hb]. exists (a ++ b). intros w.
  unfold bind. by rewrite Ha, Hb, add_outs_outs.
Qed.

Lemma report_operations_prints model :
  prints_only (SimplifyModel.report_operations model).
Proof.
  unfold SimplifyModel.report_operations.
  apply prints_only_seq; [apply prints_only_print|].
  apply prints_only_seq; [|apply prints_only_print].
  destruct (negb _); repeat first
    [ apply prints_only_print
    | apply prints_only_seq; [apply prints_only_print|] ].
Qed.

Lemma report_operations_run model w :
  SimplifyModel.report_operations model w
  = (Ret tt, add_outs (report_lines model) w).
Proof.
  destruct (report_operations_prints model) as [ls H].
  unfold report_lines, new_lines. rewrite !H. simpl. by rewrite drop_0.
Qed.

Lemma add_out_outs l w : add_out l w = add_outs [l] w.
Proof. reflexivity. Qed.

(** The run of [simplify_model] once the model is loaded. *)
Lemma simplify_model_steps (E : Env) (i o : upath) (w : world) model0 :
  onnx_load E (resolved w i) (w_fs w) = Ret model0 →
  SimplifyModel.simplify_model E i o w
  = match SimplifyModel.try_onnxsim E model0
            (add_log (EvCall "onnx.load" [resolved w i])
               (add_out (Line "Loading model: {}" [VPath i]) w)) with
    | (Raise e, w2) => (Raise e, w2)
    | (Ret model', w2) =>
        (SimplifyModel.onnx_save E model' o >>
         print "✓ Done!" [] >> ret model')
          (add_outs
             (report_lines model'
              ++ [Line "\nChecking input shapes..." []]
              ++ concat (map shape_lines (graph_input (graph model')))
              ++ [Line "\nSaving to: {}" [VPath o]])
             w2)
    end.
Proof.
  intros Hload. unfold resolved in *.
  unfold SimplifyModel.simplify_model, ext_read.
  unfold bind at 1. cbn [print fst snd].
  unfold bind at 1. cbn [resolve].
  unfold bind at 1. unfold bind at 1. cbn [emit].
  unfold bind at 1. cbn [get_fs add_out add_log w_fs w_cwd].
  rewrite Hload. cbn [ret].
  unfold bind at 1.
  destruct (SimplifyModel.try_onnxsim _ _ _) as [[model'|e] w2]; [|reflexivity].
  unfold bind at 1. rewrite report_operations_run.
  unfold bind at 1. cbn [print].
  unfold bind at 1. rewrite for_each_check_input_shape.
  unfold bind at 1. cbn [print].
  rewrite !add_out_outs, !add_outs_outs. rewrite <- ?app_assoc. reflexivity.
Qed.

#[global] Instance fs_is_frame n : FrameInv (fs_is n).
Proof. split; unfold fs_is; intros; simpl; done. Qed.

#[global] Instance cwd_is_frame c : FrameInv (cwd_is c).
Proof. split; unfold cwd_is; intros; simpl; done. Qed.

Lemma try_onnxsim_preserves I `{!FrameInv I} (E : Env) model :
  preserves I (SimplifyModel.try_onnxsim E model).
Proof.
  unfold SimplifyModel.try_onnxsim.
  apply preserves_try_except.
  - apply preserves_bind; [by apply preserves_py_import|intros _].
    apply preserves_bind; [by apply preserves_print|intros _].
    apply preserves_bind; [by apply preserves_ext_read|intros [m' b]].
    destruct b; simpl;
      (apply preserves_bind; [by apply preserves_print|intros _]);
      apply preserves_ret.
  - intros e. destruct (is_ImportError e); [|destruct (is_Exception e)].
    + apply preserves_bind; [by apply preserves_print|intros _].
      apply preserves_ret.
    + apply preserves_bind; [by apply preserves_print|intros _].
      apply preserves_ret.
    + apply preserves_raise.
Qed.



Lemma onnx_save_run (E : Env) m o w :
  SimplifyModel.onnx_save E m o w
  = match fs_write (resolved w o) (onnx_serialize E m) (w_fs w) with
    | Some n' =>
        (Ret tt,
         set_fs n'
           (add_log (EvFs (OpenWrite (resolved w o)))
              (add_log (EvCall "onnx.save" [resolved w o]) w)))
    | None =>
        (Raise (Exn OSError "open: cannot write"),
         add_log (EvFs (OpenWrite (resolved w o)))
           (add_log (EvCall "onnx.save" [resolved w o]) w))
    end.
Proof.
  unfold SimplifyModel.onnx_save, write_file, fs_update, os_error, resolved.
  run. destruct (fs_write _ _ _); reflexivity.
Qed.
(** ** The file system *)

Lemma fs_lookup_app p q n :
  fs_lookup (p ++ q) n
  = match fs_lookup p n with Some m => fs_lookup q m | None => None end.
Proof.
  revert n. induction p as [|c p IH]; intros n; simpl; [done|].
  destruct n as [|es]; [done|]. destruct (es !! c); [apply IH|done].
Qed.

Lemma fs_lookup_remove p n : p ≠ [] → fs_lookup p (fs_remove p n) = None.
Proof.
  unfold fs_remove. revert n. induction p as [|c p IH]; intros n Hp; [done|].
  destruct n as [d|es]; [done|]. destruct p as [|c' p].
  - simpl. by rewrite lookup_partial_alter_eq.
  - cbn [fs_alter fs_lookup]. rewrite lookup_alter_eq.
    destruct (es !! c) as [m|]; simpl; [|done]. by apply IH.
Qed.

Lemma fs_lookup_alter_eq f p n :
  p ≠ [] → fs_isdir (removelast p) n = true →
  fs_lookup p (fs_alter f p n) = f (fs_lookup p n).
Proof.
  unfold fs_isdir. revert n. induction p as [|c p IH]; intros n Hp Hd; [done|].
  destruct p as [|c' p].
  - simpl in *. destruct n as [d|es]; [done|]. simpl.
    rewrite lookup_partial_alter_eq. by destruct (es !! c), (f _).
  - change (removelast (c :: c' :: p)) with (c :: removelast (c' :: p)) in Hd.
    destruct n as [d|es]; [done|]. cbn [fs_alter fs_lookup] in *.
    rewrite lookup_alter_eq. destruct (es !! c) as [m|]; simpl; [|done].
    by apply IH.
Qed.

(** An entry strictly below [P] is rewritten: [P] stays a directory. *)
Lemma fs_isdir_alter_below f P c r n :
  fs_isdir P n = true → fs_isdir P (fs_alter f (P ++ c :: r) n) = true.
Proof.
  unfold fs_isdir. revert n. induction P as [|a P IH]; intros n Hd.
  - simpl in *. destruct n as [d|es]; [done|]. by destruct r.
  - destruct n as [d|es]; [done|]. cbn [fs_lookup] in Hd.
    destruct (es !! a) as [m|] eqn:Ha; [|done].
    change ((a :: P) ++ c :: r) with (a :: (P ++ c :: r)).
    cbn [fs_alter]. destruct (P ++ c :: r) as [|x xs] eqn:Hq.
    { by destruct P. }
    cbn [fs_lookup]. rewrite lookup_alter_eq, Ha.
    cbn [fmap option_fmap option_map]. by apply IH.
Qed.

Lemma fs_makedirs_isdir q n n' : fs_makedirs q n = Some n' → fs_isdir q n' = true.
Proof.
  unfold fs_isdir. revert n n'. induction q as [|c q IH]; intros n n' H.
  - simpl in *. destruct n; by simplify_eq.
  - simpl in H. destruct n as [d|es]; [done|].
    destruct (fs_makedirs q _) as [m|] eqn:Hm; [|done]. simplify_eq.
    simpl. rewrite lookup_insert_eq. by eapply IH.
Qed.

(** [makedirs] keeps every directory, and every entry of it. *)
Lemma fs_makedirs_keeps q P n n' :
  fs_makedirs q n = Some n' →
  (fs_isdir P n = true → fs_isdir P n' = true)
  ∧ (fs_nonempty_dir P n = true → fs_nonempty_dir P n' = true).
Proof.
  unfold fs_isdir, fs_nonempty_dir.
  revert P n n'. induction q as [|c q IH]; intros P n n' H.
  - simpl in H. destruct n; by simplify_eq.
  - simpl in H. destruct n as [d|es]; [done|].
    destruct (fs_makedirs q _) as [m|] eqn:Hm; [|done]. simplify_eq.
    destruct P as [|a P].
    + simpl. split; [done|]. intros _.
      apply negb_true_iff, bool_decide_eq_false. apply insert_non_empty.
    + cbn [fs_lookup]. destruct (decide (c = a)) as [->|Hne].
      * rewrite lookup_insert_eq.
        destruct (es !! a) as [m0|] eqn:Ha; simpl in *; [|done].
        apply (IH P _ _ Hm).
      * by rewrite lookup_insert_ne.
Qed.
Lemma strictly_below_join P name : strictly_below P (P ++ [name]).
Proof. by exists name, []. Qed.

Lemma strictly_below_app P q r : strictly_below P q → strictly_below P (q ++ r).
Proof.
  intros (c & r' & ->). exists c, (r' ++ r). by rewrite <- app_assoc.
Qed.

Lemma fs_isdir_alter_strictly_below f P q n :
  strictly_below P q →
  fs_isdir P n = true → fs_isdir P (fs_alter f q n) = true.
Proof. intros (c & r & ->). apply fs_isdir_alter_below. Qed.

Lemma alter_non_empty {A} (g : A → A) (c : string) (es : gmap string A) :
  es ≠ ∅ → alter g c es ≠ ∅.
Proof.
  intros Hne Heq. apply Hne. apply map_empty. intros i.
  pose proof (f_equal (λ m, m !! i) Heq) as Hi. simpl in Hi.
  rewrite lookup_empty in Hi. rewrite lookup_alter in Hi.
  case_decide; subst; [|done]. by destruct (es !! i).
Qed.

Lemma partial_alter_some_non_empty {A} (x : A) (c : string)
    (es : gmap string A) :
  partial_alter (λ _, Some x) c es ≠ ∅.
Proof.
  intros Heq. pose proof (f_equal (λ m, m !! c) Heq) as Hc. simpl in Hc.
  by rewrite lookup_partial_alter_eq, lookup_empty in Hc.
Qed.

Lemma fs_lookup_cons c p es :
  fs_lookup (c :: p) (Dir es)
  = match es !! c with Some m => fs_lookup p m | None => None end.
Proof. reflexivity. Qed.

Lemma fs_alter_single f c es :
  fs_alter f [c] (Dir es) = Dir (partial_alter f c es).
Proof. reflexivity. Qed.

Lemma fs_alter_deep f c c' r es :
  fs_alter f (c :: c' :: r) (Dir es)
  = Dir (alter (fs_alter f (c' :: r)) c es).
Proof. reflexivity. Qed.

(** Writing a file where there is no directory keeps every directory and
    every entry of it. *)
Lemma fs_put_file_keeps P q d n :
  fs_isdir q n = false →
  (fs_isdir P n = true → fs_isdir P (fs_put q (File d) n) = true)
  ∧ (fs_nonempty_dir P n = true
     → fs_nonempty_dir P (fs_put q (File d) n) = true).
Proof.
  unfold fs_isdir, fs_nonempty_dir, fs_put.
  revert q n. induction P as [|a P IH]; intros q n Hq.
  - destruct n as [x|es]; [done|]. destruct q as [|c [|c' r]]; simpl.
    + done.
    + split; [done|]. intros _.
      apply negb_true_iff, bool_decide_eq_false.
      apply partial_alter_some_non_empty.
    + split; [done|]. intros H.
      apply negb_true_iff, bool_decide_eq_false, alter_non_empty.
      by apply negb_true_iff, bool_decide_eq_false in H.
  - destruct n as [x|es]; [done|].
    destruct q as [|c [|c' r]].
    + done.
    + rewrite fs_alter_single, !fs_lookup_cons.
      destruct (decide (c = a)) as [->|Hne].
      * simpl in Hq. destruct (es !! a) as [[x|es']|]; [| |done].
        -- by destruct P.
        -- done.
      * by rewrite lookup_partial_alter_ne.
    + rewrite fs_alter_deep, !fs_lookup_cons.
      destruct (decide (c = a)) as [->|Hne].
      * rewrite lookup_alter_eq. rewrite (fs_lookup_cons a (c' :: r)) in Hq.
        destruct (es !! a) as [m|]; [|done].
        cbn [fmap option_fmap option_map]. by apply IH.
      * by rewrite lookup_alter_ne.
Qed.

Lemma fs_write_keeps q data P n n' :
  fs_write q data n = Some n' →
  (fs_isdir P n = true → fs_isdir P n' = true)
  ∧ (fs_nonempty_dir P n = true → fs_nonempty_dir P n' = true).
Proof.
  unfold fs_write. intros H.
  destruct (fs_isdir q n) eqn:Hq; [done|].
  destruct (_ || _) in H; [done|]. simplify_eq.
  by apply fs_put_file_keeps.
Qed.

(** ** Invariants: the scripts' own blocks *)

Lemma run_bind {A B} (m : M A) (k : A → M B) w :
  bind m k w
  = match m w with
    | (Ret a, w') => k a w'
    | (Raise e, w') => (Raise e, w')
    end.
Proof. reflexivity. Qed.

Lemma preserves_bind_resolve_abs I {B} (p : upath) (k : list string → M B) :
  is_abs p = true → preserves I (k (comps p)) → preserves I (bind (resolve p) k).
Proof.
  intros Hp Hk w Hw. rewrite run_bind. unfold resolve, abspath.
  rewrite Hp. by apply Hk.
Qed.

(** Run the binds at the head of a computation applied to a world. *)
Ltac simp_run :=
  cbn [print emit ret raise get_fs put_fs os_error fst snd
       resolve os_path_abspath
       add_log add_out set_fs w_fs w_cwd w_log w_out w_onnx_mapping].
Ltac steps := simp_run; repeat (rewrite run_bind; simp_run).

(** One step of an invariant proof: split the control operator at the head,
    or use the lemma of the primitive. *)
Ltac pres_step :=
  lazymatch goal with
  | |- preserves _ (bind (resolve _) _) =>
      first [ apply preserves_bind_resolve_abs; [done|]
            | apply preserves_bind;
              [apply preserves_resolve; typeclasses eauto|intros ?] ]
  | |- preserves _ (bind _ _) => apply preserves_bind; [|intros ?]
  | |- preserves _ (try_except _ _) => apply preserves_try_except; [|intros ?]
  | |- preserves _ (try_finally _ _) => apply preserves_try_finally
  | |- preserves _ (for_each _ _) => apply preserves_for_each; intros ?
  | |- preserves _ (ret _) => apply preserves_ret
  | |- preserves _ (raise _) => apply preserves_raise
  | |- preserves _ (os_error _) => apply preserves_raise
  | |- preserves _ (print _ _) => apply preserves_print; typeclasses eauto
  | |- preserves _ (emit _) => apply preserves_emit; typeclasses eauto
  | |- preserves _ get_fs => apply preserves_get_fs; typeclasses eauto
  | |- preserves _ (resolve _) => apply preserves_resolve; typeclasses eauto
  | |- preserves _ (os_path_abspath _) => apply preserves_abspath; typeclasses eauto
  | |- preserves _ (py_import _ _) => apply preserves_py_import; typeclasses eauto
  | |- preserves _ (dict_getitem _ _) => apply preserves_dict_getitem; typeclasses eauto
  | |- preserves _ (os_path_isfile _) => apply preserves_isfile; typeclasses eauto
  | |- preserves _ (os_path_isdir _) => apply preserves_isdir; typeclasses eauto
  | |- preserves _ (os_path_exists _) => apply preserves_exists; typeclasses eauto
  | |- preserves _ (os_listdir _) => apply preserves_listdir; typeclasses eauto
  | |- preserves _ (ext_read _ _ _) => apply preserves_ext_read; typeclasses eauto
  | |- preserves _ (fs_update _ _ _) =>
      apply preserves_fs_update; try typeclasses eauto
  | |- preserves _ (ext_write _ _ _) =>
      apply preserves_ext_write; try typeclasses eauto
  | |- preserves _ (ext_call _ _ _) =>
      apply preserves_ext_call; try typeclasses eauto
  | |- preserves _ (os_makedirs _) => unfold os_makedirs
  | |- preserves _ (os_rename _ _) => unfold os_rename
  | |- preserves _ (shutil_rmtree _) => unfold shutil_rmtree
  | |- preserves _ (os_remove _) => unfold os_remove
  | |- preserves _ (os_rmdir _) => unfold os_rmdir
  | |- preserves _ (write_file _ _) => unfold write_file
  | |- preserves _ (if ?b then _ else _) => destruct b
  | |- preserves _ (match ?x with _ => _ end) => destruct x
  end.

Section FsFreeInvariants.
Context (I : world → Prop) `{!FrameInv I} `{!FsFree I} (E : Env).

Lemma preserves_set_mapping m :
  preserves I (λ w, (Ret tt, set_onnx_mapping m w)).
Proof. intros w H. by apply inv_mapping. Qed.

Lemma stage1_preserves_free a b :
  preserves I (OnnxToTflite._convert_onnx_to_saved_model E a b).
Proof.
  unfold OnnxToTflite._convert_onnx_to_saved_model, OnnxToTflite.try_onnx2tf,
    OnnxToTflite.reroot_saved_model, OnnxToTflite.onnx_tf_fallback,
    OnnxToTflite.install_mapping_shim.
  repeat first [pres_step | apply preserves_set_mapping | apply fs_free_safe; done].
Qed.

Lemma stage2_preserves_free d out fp16 optimize custom :
  preserves I
    (OnnxToTflite._convert_saved_model_to_tflite E d out fp16 optimize custom).
Proof.
  unfold OnnxToTflite._convert_saved_model_to_tflite.
  repeat first [pres_step | apply fs_free_safe; done].
Qed.

Lemma cleanup_preserves_free d :
  preserves I (TemporaryDirectory_cleanup E d).
Proof.
  unfold TemporaryDirectory_cleanup.
  repeat first [pres_step | intros w Hw; by apply fs_free].
Qed.

Lemma rmtree_ignore_preserves_free d :
  preserves I (shutil_rmtree_ignore_errors E d).
Proof.
  unfold shutil_rmtree_ignore_errors.
  repeat first [pres_step | intros w Hw; by apply fs_free].
Qed.

End FsFreeInvariants.

(** ** Temporary directories *)

Lemma mkdtemp_run (E : Env) (prefix : string) (w : world) :
  match mkdtemp E prefix w with
  | (Ret d, w') =>
      is_abs d = true ∧ comps d ≠ []
      ∧ w' = set_fs (fs_put (comps d) (Dir ∅) (w_fs w))
               (add_log (EvFs (Mkdtemp (comps d))) w)
  | (Raise e, w') => w' = w
  end.
Proof.
  unfold mkdtemp. rewrite run_bind. cbn [get_fs].
  destruct (List.find _ _) as [s|]; [|done].
  destruct (fs_isdir (gettempdir E) (w_fs w)); [|done].
  cbn. split; [done|]. split; [|done]. by destruct (gettempdir E).
Qed.

Lemma try_finally_snd {A} (body : M A) (fin : M unit) w :
  (try_finally body fin w).2 = (fin (body w).2).2.
Proof.
  unfold try_finally. destruct (body w) as [r w']. simpl.
  destruct (fin w') as [[u|e] w'']; reflexivity.
Qed.

Lemma resolve_abs (p : upath) (w : world) :
  is_abs p = true → resolve p w = (Ret (comps p), w).
Proof. intros H. unfold resolve, abspath. by rewrite H. Qed.

(** ** The events of a run *)

Lemma elem_of_new_events {A} (m : M A) w t ev :
  log_from (w_log w ++ t) (m w).2 → ev ∈ t → ev ∈ new_events m w.
Proof.
  intros [k Hk] Hev. unfold new_events. rewrite Hk, <- app_assoc.
  rewrite drop_app_length. apply elem_of_app. by left.
Qed.

(** ** C6: dynamic input shapes *)

#[global] Instance out_from_frame t : FrameInv (out_from t).
Proof.
  split; unfold out_from; intros; simpl; try done.
  by apply prefix_app_r.
Qed.

Lemma simplify_model_load_fails (E : Env) (i o : upath) (w : world) e :
  onnx_load E (resolved w i) (w_fs w) = Raise e →
  (SimplifyModel.simplify_model E i o w).1 = Raise e.
Proof.
  intros Hload. unfold resolved in *.
  unfold SimplifyModel.simplify_model, ext_read. steps.
  by rewrite Hload.
Qed.

Lemma save_tail_run (E : Env) m o w :
  (SimplifyModel.onnx_save E m o >> print "✓ Done!" [] >> ret m) w
  = match fs_write (resolved w o) (onnx_serialize E m) (w_fs w) with
    | Some n' =>
        (Ret m,
         add_out (Line "✓ Done!" [])
           (set_fs n'
              (add_log (EvFs (OpenWrite (resolved w o)))
                 (add_log (EvCall "onnx.save" [resolved w o]) w))))
    | None =>
        (Raise (Exn OSError "open: cannot write"),
         add_log (EvFs (OpenWrite (resolved w o)))
           (add_log (EvCall "onnx.save" [resolved w o]) w))
    end.
Proof.
  rewrite run_bind, onnx_save_run.
  destruct (fs_write _ _ _); [|reflexivity]. steps. reflexivity.
Qed.






(** ** C8: the simplifier always emits its output *)




(** ** C9: the acquirers *)

#[global] Instance out_from_fs_free t : FsFree (out_from t).
Proof. intros n w H. exact H. Qed.

Lemma returns_only_bind {A B} (Q : B → Prop) (m : M A) (k : A → M B) :
  (∀ a, returns_only Q (k a)) → returns_only Q (bind m k).
Proof.
  intros Hk w b. rewrite run_bind. destruct (m w) as [[a|e] w']; [|done].
  apply Hk.
Qed.

Lemma returns_only_ret {A} (Q : A → Prop) (a : A) :
  Q a → returns_only Q (ret a).
Proof. intros H w b Hb. by simplify_eq/=. Qed.

Ltac returns_step :=
  lazymatch goal with
  | |- returns_only _ (bind _ _) => apply returns_only_bind; intros ?
  | |- returns_only _ (ret _) => apply returns_only_ret; reflexivity
  | |- returns_only _ (if ?b then _ else _) => destruct b
  end.

Lemma not_Exception_not_ImportError e :
  is_Exception e = false → is_ImportError e = false.
Proof. by destruct e as [[] msg]. Qed.

Lemma try_except_outcome (attempt : M (option upath))
    (h : exn → M (option upath)) (path : upath) (w : world) :
  returns_only (λ r, r = Some path) attempt →
  preserves (out_from (w_out w)) attempt →
  (∀ e w', is_Exception e = true →
     (h e w').1 = Ret None
     ∧ ∃ l ls, w_out (h e w').2 = w_out w' ++ ls ∧ l ∈ ls
               ∧ is_diagnostic l = true ∧ line_args l = [VExn e]) →
  (∀ e w', is_Exception e = false → h e w' = (Raise e, w')) →
  acquirer_outcome attempt (try_except attempt h) path w.
Proof.
  intros Hret Hout Hcatch Hpass.
  unfold acquirer_outcome, new_lines, try_except.
  specialize (Hret w). specialize (Hout w ltac:(by unfold out_from)).
  destruct (attempt w) as [[r|e] w']; cbn [fst snd] in *.
  - split; [done|]. by apply Hret.
  - destruct (is_Exception e) eqn:He.
    + destruct (Hcatch e w' He) as (Hr & l & ls & Hls & Hl & Hd & Ha).
      split; [done|]. exists l. split; [|done].
      destruct Hout as [k Hk]. rewrite Hls, Hk, <- app_assoc, drop_app_length.
      apply elem_of_app. by right.
    + by apply Hpass.
Qed.

Lemma download_film_model_outcome (E : Env) (w : world) :
  acquirer_outcome (DownloadFilm.download_film_attempt E)
    (DownloadFilm.download_film_model E) film_output_dir w.
Proof.
  apply try_except_outcome.
  - unfold DownloadFilm.download_film_attempt. repeat returns_step.
  - unfold DownloadFilm.download_film_attempt.
    repeat first [pres_step | apply fs_free_safe; typeclasses eauto].
  - intros e w' He. destruct (is_ImportError e); rewrite ?He; steps.
    + split; [done|]. eexists _, [_; _]. split; [by rewrite <- app_assoc|].
      split; [apply list_elem_of_here|]. done.
    + split; [done|]. eexists _, [_]. split; [done|].
      split; [apply list_elem_of_here|]. done.
  - intros e w' He. by rewrite (not_Exception_not_ImportError e He), He.
Qed.

Lemma download_raft_lite_outcome (E : Env) (w : world) :
  acquirer_outcome (DownloadOpticalFlow.download_raft_lite_attempt E)
    (DownloadOpticalFlow.download_raft_lite E) raft_output_path w.
Proof.
  apply try_except_outcome.
  - unfold DownloadOpticalFlow.download_raft_lite_attempt. repeat returns_step.
  - unfold DownloadOpticalFlow.download_raft_lite_attempt.
    repeat first [pres_step | apply fs_free_safe; typeclasses eauto].
  - intros e w' He. rewrite He; steps.
    split; [done|]. eexists _, [_]. split; [done|].
    split; [apply list_elem_of_here|]. done.
  - intros e w' He. by rewrite He.
Qed.

Lemma create_simple_optical_flow_tflite_outcome (E : Env) (w : world) :
  acquirer_outcome
    (DownloadOpticalFlow.create_simple_optical_flow_tflite_attempt E)
    (DownloadOpticalFlow.create_simple_optical_flow_tflite E)
    skeleton_output_path w.
Proof.
  apply try_except_outcome.
  - unfold DownloadOpticalFlow.create_simple_optical_flow_tflite_attempt.
    repeat returns_step.
  - unfold DownloadOpticalFlow.create_simple_optical_flow_tflite_attempt.
    repeat first [pres_step | apply fs_free_safe; typeclasses eauto].
  - intros e w' He. rewrite He; steps.
    split; [done|]. eexists _, [_]. split; [done|].
    split; [apply list_elem_of_here|]. done.
  - intros e w' He. by rewrite He.
Qed.

(** C9, counterexample: the user interrupts the hub download; the
    [KeyboardInterrupt] is not an instance of [Exception], no handler of
    [download_film_model] matches, and the call raises instead of returning
    [None]. *)
Lemma download_film_model_interrupt_propagates :
  (DownloadFilm.download_film_attempt env_interrupted_download root_world).1
  = Raise (Exn KeyboardInterrupt EmptyString)
  ∧ (DownloadFilm.download_film_model env_interrupted_download root_world).1
    = Raise (Exn KeyboardInterrupt EmptyString).
Proof. split; vm_compute; reflexivity. Qed.

(** C9, amended.  For each acquirer ([download_film_model],
    [download_raft_lite], [create_simple_optical_flow_tflite]): when the
    attempt returns, the acquirer returns the same value, which is the path
    of the artifact; when the attempt raises an instance of [Exception], the
    acquirer prints an [[ERR]] line naming the exception and returns [None];
    an exception outside [Exception] ([KeyboardInterrupt], [SystemExit])
    propagates to the caller. *)
Theorem acquirers_catch_exceptions (E : Env) (w : world) :
  acquirer_outcome (DownloadFilm.download_film_attempt E)
    (DownloadFilm.download_film_model E) film_output_dir w
  ∧ acquirer_outcome (DownloadOpticalFlow.download_raft_lite_attempt E)
      (DownloadOpticalFlow.download_raft_lite E) raft_output_path w
  ∧ acquirer_outcome
      (DownloadOpticalFlow.create_simple_optical_flow_tflite_attempt E)
      (DownloadOpticalFlow.create_simple_optical_flow_tflite E)
      skeleton_output_path w.
Proof.
  split; [apply download_film_model_outcome|].
  split; [apply download_raft_lite_outcome|].
  apply create_simple_optical_flow_tflite_outcome.
Qed.

(** The amended C9 at two inputs: a network error during the hub download
    gives [None]; a run where every collaborator succeeds gives the path. *)
Example download_film_model_network_down :
  (DownloadFilm.download_film_model env_network_down root_world).1 = Ret None.
Proof. reflexivity. Qed.

Example download_raft_lite_ok :
  (DownloadOpticalFlow.download_raft_lite quiet_env root_world).1
  = Ret (Some raft_output_path).
Proof. vm_compute. reflexivity. Qed.

(** ** C2: onnx2tf first, onnx-tf after it fails *)

Lemma emits_first_log {A} ev (m : M A) w :
  emits_first ev m → ∃ rest, new_events m w = ev :: rest.
Proof.
  intros H. destruct (H w) as [k Hk]. exists k.
  unfold new_events. by rewrite Hk, <- app_assoc, drop_app_length.
Qed.

Lemma emits_first_py_import (E : Env) m : emits_first (EvImport m) (py_import E m).
Proof.
  intros w. unfold py_import. steps.
  destruct (import_result E m); by unfold log_from.
Qed.

Lemma emits_first_bind {A B} ev (m : M A) (k : A → M B) :
  emits_first ev m → (∀ a t, preserves (log_from t) (k a)) →
  emits_first ev (bind m k).
Proof.
  intros Hm Hk w. rewrite run_bind. specialize (Hm w).
  destruct (m w) as [[a|e] w']; [|done]. by apply Hk.
Qed.

Lemma emits_first_try_except {A} ev (m : M A) (h : exn → M A) :
  emits_first ev m → (∀ e t, preserves (log_from t) (h e)) →
  emits_first ev (try_except m h).
Proof.
  intros Hm Hh w. unfold try_except. specialize (Hm w).
  destruct (m w) as [[a|e] w']; [done|]. by apply Hh.
Qed.

Ltac pres_free :=
  repeat first
    [ pres_step
    | apply preserves_set_mapping; typeclasses eauto
    | apply fs_free_safe; typeclasses eauto ].

Lemma stage1_emits_onnx2tf_first (E : Env) a b :
  emits_first (EvImport "onnx2tf")
    (OnnxToTflite._convert_onnx_to_saved_model E a b).
Proof.
  unfold OnnxToTflite._convert_onnx_to_saved_model, OnnxToTflite.try_onnx2tf.
  apply emits_first_bind.
  - apply emits_first_try_except.
    + apply emits_first_bind.
      * apply emits_first_bind.
        -- apply emits_first_try_except; [apply emits_first_py_import|].
           intros e t. pres_free.
        -- intros _ t. unfold OnnxToTflite.reroot_saved_model. pres_free.
      * intros _ t. pres_free.
    + intros e t. pres_free.
  - intros r t. destruct r; [pres_free|].
    unfold OnnxToTflite.onnx_tf_fallback, OnnxToTflite.install_mapping_shim.
    pres_free.
Qed.

Lemma fallback_emits_onnx_first (E : Env) a b :
  emits_first (EvImport "onnx") (OnnxToTflite.onnx_tf_fallback E a b).
Proof.
  unfold OnnxToTflite.onnx_tf_fallback, OnnxToTflite.install_mapping_shim.
  apply emits_first_bind; [apply emits_first_py_import|].
  intros _ t. pres_free.
Qed.

(** The stage, by what the onnx2tf block does. *)
Lemma stage1_by_onnx2tf_block (E : Env) (a b : upath) (w : world) :
  OnnxToTflite._convert_onnx_to_saved_model E a b w
  = match OnnxToTflite.try_onnx2tf E a b w with
    | (Ret _, w') => (Ret tt, w')
    | (Raise e, w') =>
        if is_Exception e
        then OnnxToTflite.onnx_tf_fallback E a b (add_out (fallback_line e) w')
        else (Raise e, w')
    end.
Proof.
  unfold OnnxToTflite._convert_onnx_to_saved_model, try_except.
  rewrite !run_bind.
  destruct (OnnxToTflite.try_onnx2tf E a b w) as [[[]|e] w']; [done|].
  unfold fallback_line.
  destruct e as [c msg]; destruct c; reflexivity.
Qed.

Lemma try_onnx2tf_import_fails (E : Env) (a b : upath) (w : world) e :
  import_result E "onnx2tf" = Some e →
  OnnxToTflite.try_onnx2tf E a b w
  = (Raise (if is_Exception e then Exn ModuleNotFoundError (exn_msg e) else e),
     add_log (EvImport "onnx2tf") w).
Proof.
  intros H. unfold OnnxToTflite.try_onnx2tf, try_except, py_import.
  steps. rewrite H. cbn. by destruct (is_Exception e).
Qed.

Lemma try_onnx2tf_convert_raises (E : Env) (a b : upath) (w : world) e :
  import_result E "onnx2tf" = None →
  (onnx2tf_convert E (resolved w a) (resolved w b) (w_fs w)).2 = Some e →
  OnnxToTflite.try_onnx2tf E a b w
  = (Raise e,
     set_fs (onnx2tf_convert E (resolved w a) (resolved w b) (w_fs w)).1
       (add_log (EvCall "onnx2tf.convert" [resolved w a; resolved w b])
          (add_out
             (Line "[INFO] Using onnx2tf to convert ONNX -> SavedModel ..." [])
             (add_log (EvImport "onnx2tf") w)))).
Proof.
  intros Himp Hconv. unfold resolved in *.
  unfold OnnxToTflite.try_onnx2tf, try_except, py_import, ext_write.
  steps. rewrite Himp. steps. by rewrite Hconv.
Qed.

(** C2, counterexample: [onnx2tf.convert] ends with [sys.exit(1)]; the
    [SystemExit] is raised by backend A's conversion call, yet the stage
    raises it on and never reaches onnx-tf: after the import of onnx2tf and
    the conversion call nothing else is logged. *)
Lemma onnx2tf_exit_skips_fallback :
  (OnnxToTflite._convert_onnx_to_saved_model env_onnx2tf_exits
     (UPath false ["model.onnx"]) (UPath true ["tmp"; "saved_model"])
     root_world).1
  = Raise (Exn SystemExit "1")
  ∧ new_events
      (OnnxToTflite._convert_onnx_to_saved_model env_onnx2tf_exits
         (UPath false ["model.onnx"]) (UPath true ["tmp"; "saved_model"]))
      root_world
    = [EvImport "onnx2tf";
       EvCall "onnx2tf.convert" [["model.onnx"]; ["tmp"; "saved_model"]]].
Proof. split; vm_compute; reflexivity. Qed.

(** C2, amended.  The ONNX -> SavedModel stage always starts with the import
    of onnx2tf.  When that import raises an instance of [Exception], or the
    import succeeds and the conversion call (or anything else in the onnx2tf
    block) raises an instance of [Exception], the stage prints the fallback
    line and goes on exactly as the onnx-tf block does, which starts by
    importing onnx; when the onnx2tf block returns, the stage returns and
    the onnx-tf block is not run.  The order is fixed. *)
Theorem fallback_after_onnx2tf_failure
    (E : Env) (onnx_path out_dir : upath) (w : world) :
  (∃ rest,
     new_events (OnnxToTflite._convert_onnx_to_saved_model E onnx_path out_dir) w
     = EvImport "onnx2tf" :: rest)
  ∧ (∀ e, import_result E "onnx2tf" = Some e → is_Exception e = true →
       OnnxToTflite._convert_onnx_to_saved_model E onnx_path out_dir w
       = OnnxToTflite.onnx_tf_fallback E onnx_path out_dir
           (add_out onnx2tf_unavailable_line (add_log (EvImport "onnx2tf") w)))
  ∧ (∀ e, import_result E "onnx2tf" = None →
       (onnx2tf_convert E (resolved w onnx_path) (resolved w out_dir)
          (w_fs w)).2 = Some e →
       is_Exception e = true →
       OnnxToTflite._convert_onnx_to_saved_model E onnx_path out_dir w
       = OnnxToTflite.onnx_tf_fallback E onnx_path out_dir
           (add_out (fallback_line e)
              (set_fs
                 (onnx2tf_convert E (resolved w onnx_path)
                    (resolved w out_dir) (w_fs w)).1
                 (add_log
                    (EvCall "onnx2tf.convert"
                       [resolved w onnx_path; resolved w out_dir])
                    (add_out
                       (Line "[INFO] Using onnx2tf to convert ONNX -> SavedModel ..." [])
                       (add_log (EvImport "onnx2tf") w))))))
  ∧ (∀ e w', OnnxToTflite.try_onnx2tf E onnx_path out_dir w = (Raise e, w') →
       is_Exception e = true →
       OnnxToTflite._convert_onnx_to_saved_model E onnx_path out_dir w
       = OnnxToTflite.onnx_tf_fallback E onnx_path out_dir
           (add_out (fallback_line e) w'))
  ∧ (∀ w', OnnxToTflite.try_onnx2tf E onnx_path out_dir w = (Ret tt, w') →
       OnnxToTflite._convert_onnx_to_saved_model E onnx_path out_dir w
       = (Ret tt, w'))
  ∧ (∀ w0, ∃ rest,
       new_events (OnnxToTflite.onnx_tf_fallback E onnx_path out_dir) w0
       = EvImport "onnx" :: rest).
Proof.
  split; [apply emits_first_log, stage1_emits_onnx2tf_first|].
  split.
  { intros e Himp He. rewrite stage1_by_onnx2tf_block.
    rewrite (try_onnx2tf_import_fails E _ _ w e Himp), He. reflexivity. }
  split.
  { intros e Himp Hconv He. rewrite stage1_by_onnx2tf_block.
    rewrite (try_onnx2tf_convert_raises E _ _ w e Himp Hconv), He.
    reflexivity. }
  split.
  { intros e w' Hrun He. by rewrite stage1_by_onnx2tf_block, Hrun, He. }
  split.
  { intros w' Hrun. by rewrite stage1_by_onnx2tf_block, Hrun. }
  intros w0. apply emits_first_log, fallback_emits_onnx_first.
Qed.

(** C2, at two inputs: onnx2tf cannot be imported; onnx2tf's conversion
    raises a [RuntimeError].  In both runs the stage is the onnx-tf block run
    after the fallback line. *)
Lemma fallback_after_onnx2tf_failure_witness :
  OnnxToTflite._convert_onnx_to_saved_model env_no_onnx2tf
    (UPath false ["model.onnx"]) (UPath true ["tmp"; "saved_model"]) root_world
  = OnnxToTflite.onnx_tf_fallback env_no_onnx2tf
      (UPath false ["model.onnx"]) (UPath true ["tmp"; "saved_model"])
      (add_out onnx2tf_unavailable_line
         (add_log (EvImport "onnx2tf") root_world))
  ∧ OnnxToTflite._convert_onnx_to_saved_model env_onnx2tf_fails
      (UPath false ["model.onnx"]) (UPath true ["tmp"; "saved_model"])
      root_world
    = OnnxToTflite.onnx_tf_fallback env_onnx2tf_fails
        (UPath false ["model.onnx"]) (UPath true ["tmp"; "saved_model"])
        (add_out (onnx2tf_failed_line (Exn RuntimeError "unsupported operator"))
           (set_fs fs_with_model
              (add_log
                 (EvCall "onnx2tf.convert"
                    [["model.onnx"]; ["tmp"; "saved_model"]])
                 (add_out
                    (Line "[INFO] Using onnx2tf to convert ONNX -> SavedModel ..." [])
                    (add_log (EvImport "onnx2tf") root_world))))).
Proof.
  split.
  - apply (proj1 (proj2 (fallback_after_onnx2tf_failure env_no_onnx2tf
                           (UPath false ["model.onnx"])
                           (UPath true ["tmp"; "saved_model"]) root_world))
             (Exn ImportError "cannot import name 'tf_keras'"));
      reflexivity.
  - apply (proj1 (proj2 (proj2 (fallback_after_onnx2tf_failure
                                  env_onnx2tf_fails
                                  (UPath false ["model.onnx"])
                                  (UPath true ["tmp"; "saved_model"])
                                  root_world)))
             (Exn RuntimeError "unsupported operator"));
      reflexivity.
Defined.

(** ** C4: a persistent SavedModel directory *)

Lemma abspath_is_abs cwd p : is_abs (abspath cwd p) = true.
Proof. unfold abspath. by destruct (is_abs p) eqn:H. Qed.

Lemma abspath_abs cwd p : is_abs p = true → abspath cwd p = p.
Proof. intros H. unfold abspath. by rewrite H. Qed.

Lemma returns_only_try_except {A} (Q : A → Prop) (m : M A) (h : exn → M A) :
  returns_only Q m → (∀ e, returns_only Q (h e)) →
  returns_only Q (try_except m h).
Proof.
  intros Hm Hh w a. unfold try_except. specialize (Hm w).
  destruct (m w) as [[x|e] w']; [apply Hm|apply Hh].
Qed.

Lemma returns_only_try_finally {A} (Q : A → Prop) (m : M A) (f : M unit) :
  returns_only Q m → returns_only Q (try_finally m f).
Proof.
  intros Hm w a. unfold try_finally. specialize (Hm w).
  destruct (m w) as [r w']. destruct (f w') as [[u|e] w'']; [apply Hm|done].
Qed.

Section KeepDir.
Context (P : list string).

Lemma has_dir_safe_makedirs q : fs_safe (has_dir P) (fs_makedirs q).
Proof.
  intros w n' H Hm. unfold has_dir in *. simpl.
  by apply (fs_makedirs_keeps q P _ _ Hm).
Qed.

Lemma has_dir_safe_write q data : fs_safe (has_dir P) (fs_write q data).
Proof.
  intros w n' H Hm. unfold has_dir in *. simpl.
  by apply (fs_write_keeps q data P _ _ Hm).
Qed.

Lemma nonempty_safe_makedirs q : fs_safe (has_nonempty_dir P) (fs_makedirs q).
Proof.
  intros w n' H Hm. unfold has_nonempty_dir in *. simpl.
  by apply (fs_makedirs_keeps q P _ _ Hm).
Qed.

Lemma nonempty_safe_write q data :
  fs_safe (has_nonempty_dir P) (fs_write q data).
Proof.
  intros w n' H Hm. unfold has_nonempty_dir in *. simpl.
  by apply (fs_write_keeps q data P _ _ Hm).
Qed.

Lemma has_dir_safe_rename src dst :
  strictly_below P src → strictly_below P dst →
  fs_safe (has_dir P) (fs_rename src dst).
Proof.
  intros Hs Hd w n' H Hm. unfold has_dir, fs_rename in *. simpl.
  destruct (fs_lookup src (w_fs w)) as [sub|]; [|done].
  destruct (_ || _) in Hm; [done|]. simplify_eq.
  unfold fs_put, fs_remove.
  apply fs_isdir_alter_strictly_below; [done|].
  by apply fs_isdir_alter_strictly_below.
Qed.

Lemma has_dir_safe_rmtree q :
  strictly_below P q → fs_safe (has_dir P) (fs_rmtree q).
Proof.
  intros Hq w n' H Hm. unfold has_dir, fs_rmtree in *. simpl.
  destruct (_ && _) in Hm; [|done]. simplify_eq.
  by apply fs_isdir_alter_strictly_below.
Qed.

Lemma has_dir_safe_unlink q :
  strictly_below P q → fs_safe (has_dir P) (fs_unlink q).
Proof.
  intros Hq w n' H Hm. unfold has_dir, fs_unlink in *. simpl.
  destruct (fs_isfile _ _) in Hm; [|done]. simplify_eq.
  by apply fs_isdir_alter_strictly_below.
Qed.

Lemma has_dir_safe_rmdir q :
  strictly_below P q → fs_safe (has_dir P) (fs_rmdir q).
Proof.
  intros Hq w n' H Hm. unfold has_dir, fs_rmdir in *. simpl.
  destruct (fs_lookup q (w_fs w)) as [[x|es]|]; [done| |done].
  destruct (_ && _) in Hm; [|done]. simplify_eq.
  by apply fs_isdir_alter_strictly_below.
Qed.

Lemma has_dir_safe_keeps f : keeps_dir P f → fs_safe (has_dir P) (λ n, Some (f n).1).
Proof. intros Hf w n' H Hm. simplify_eq. unfold has_dir in *. simpl. by apply Hf. Qed.

End KeepDir.

(** Solve the file-system side conditions of an invariant about the
    directory [comps sd]. *)
Ltac below_tac :=
  unfold path_join; cbn [comps is_abs];
  first [ apply strictly_below_join
        | apply strictly_below_app, strictly_below_join ].

Ltac pres_dir :=
  repeat first
    [ pres_step
    | apply preserves_set_mapping; typeclasses eauto
    | apply has_dir_safe_makedirs
    | apply has_dir_safe_write
    | apply has_dir_safe_rename; below_tac
    | apply has_dir_safe_rmtree; below_tac
    | apply has_dir_safe_unlink; below_tac
    | apply has_dir_safe_rmdir; below_tac ].

Section PersistentDir.
Context (E : Env) (sd : upath).
Hypothesis sd_abs : is_abs sd = true.
Hypothesis backends : backends_respect E (comps sd).

Lemma stage1_keeps_dir onnx_path :
  preserves (has_dir (comps sd))
    (OnnxToTflite._convert_onnx_to_saved_model E onnx_path sd).
Proof using sd_abs backends.
  unfold OnnxToTflite._convert_onnx_to_saved_model, OnnxToTflite.try_onnx2tf,
    OnnxToTflite.reroot_saved_model, OnnxToTflite.onnx_tf_fallback,
    OnnxToTflite.install_mapping_shim.
  pres_dir.
  - apply has_dir_safe_keeps, (onnx2tf_keeps _ _ backends).
  - apply has_dir_safe_keeps, (export_graph_keeps _ _ backends).
Qed.

Lemma stage2_keeps_dir out fp16 optimize custom :
  preserves (has_dir (comps sd))
    (OnnxToTflite._convert_saved_model_to_tflite E sd out fp16 optimize custom).
Proof.
  unfold OnnxToTflite._convert_saved_model_to_tflite. pres_dir.
Qed.

(** When the SavedModel -> TFLite stage returns, the SavedModel directory
    holds something. *)
Lemma stage2_nonempty out fp16 optimize custom w :
  (OnnxToTflite._convert_saved_model_to_tflite E sd out fp16 optimize custom
     w).1 = Ret tt →
  has_nonempty_dir (comps sd)
    (OnnxToTflite._convert_saved_model_to_tflite E sd out fp16 optimize custom
       w).2.
Proof using sd_abs backends.
  unfold OnnxToTflite._convert_saved_model_to_tflite, py_import, ext_read.
  steps. destruct (import_result E "tensorflow"); steps; [done|].
  rewrite !(abspath_abs _ _ sd_abs).
  destruct (from_saved_model E (comps sd) (w_fs w)); steps; [done|].
  destruct (tflite_convert E _ (w_fs w)) as [bytes|e] eqn:Hconv; steps;
    [|done].
  apply (tflite_needs_model _ _ backends) in Hconv; [|done].
  intros _.
  assert (∀ d, preserves (has_nonempty_dir (comps sd))
                 (os_makedirs d >> write_file out bytes >>
                  print "[OK] TFLite model written to: {}" [VPath out])) as Hp.
  { intros d. repeat first
      [ pres_step | apply nonempty_safe_makedirs | apply nonempty_safe_write ]. }
  match goal with
  | |- context [os_makedirs ?d ?w0] => apply (Hp d w0)
  end.
  exact Hconv.
Qed.

(** Lines 163-183 with [keep_saved_model]: the directory stays, and holds
    something when the [try] block ran to its end. *)
Lemma pipeline_keeps_dir onnx_path tflite_out fp16 optimize custom w1 :
  has_dir (comps sd) w1 →
  let pipeline :=
    try_finally
      (try_except
         (os_makedirs sd >>
          OnnxToTflite._convert_onnx_to_saved_model E onnx_path sd >>
          OnnxToTflite._convert_saved_model_to_tflite E sd tflite_out
            fp16 optimize custom >>
          print "[DONE] Conversion complete." [] >>
          ret None)
         (λ e,
           if is_Exception e then
             print "[ERR] Conversion failed: {}" [VExn e] >>
             ret (Some 2%Z)
           else raise e))
      (ret tt) in
  has_dir (comps sd) (pipeline w1).2
  ∧ ((pipeline w1).1 = Ret None → has_nonempty_dir (comps sd) (pipeline w1).2)
  ∧ (∀ c, (pipeline w1).1 = Ret (Some c) → c = 2%Z).
Proof using sd_abs backends.
  intros Hdir pipeline. split; [|split].
  3: { intros c Hc.
       assert (returns_only (λ r, r = None ∨ r = Some 2%Z) pipeline) as Hr.
       { unfold pipeline. apply returns_only_try_finally.
         apply returns_only_try_except.
         - repeat (apply returns_only_bind; intros ?).
           apply returns_only_ret. by left.
         - intros e. destruct (is_Exception e).
           + apply returns_only_bind; intros ?. apply returns_only_ret.
             by right.
           + intros w a Ha. done. }
       destruct (Hr w1 _ Hc) as [?|?]; by simplify_eq. }
  - assert (preserves (has_dir (comps sd)) pipeline) as Hp; [|by apply Hp].
    unfold pipeline.
    repeat first
      [ apply stage1_keeps_dir | apply stage2_keeps_dir
      | pres_step | apply has_dir_safe_makedirs ].
  - unfold pipeline, try_finally, try_except. steps.
    destruct (os_makedirs sd w1) as [[[]|e] w2]; steps.
    2: { destruct (is_Exception e); steps; done. }
    destruct (OnnxToTflite._convert_onnx_to_saved_model E onnx_path sd w2)
      as [[[]|e] w3]; steps.
    2: { destruct (is_Exception e); steps; done. }
    pose proof (stage2_nonempty tflite_out fp16 optimize custom w3) as Hne.
    destruct (OnnxToTflite._convert_saved_model_to_tflite E sd tflite_out
                fp16 optimize custom w3) as [[[]|e] w4]; steps.
    2: { destruct (is_Exception e); steps; done. }
    intros _. by apply Hne.
Qed.

End PersistentDir.

Lemma full_main_keeps_given_dir (E : Env) (args : OnnxToTflite.Args)
    (w : world) (s : upath) :
  OnnxToTflite.args_saved_model_dir args = Some s →
  backends_respect E (resolved w s) →
  keeps_given_dir (resolved w s) (OnnxToTflite.main E args w).
Proof.
  intros Hs Hback. unfold resolved in *. unfold OnnxToTflite.main.
  destruct ((fst (python_version E) =? 3)%Z
            && (snd (python_version E) >=? 12)%Z);
    destruct (String.eqb (str_lower (platform_system E)) "windows").
  all: unfold os_path_isfile; steps.
  all: destruct (fs_isfile _ _); cbn [negb]; [|steps; by left].
  all: unfold OnnxToTflite.prepare_saved_model_dir; rewrite Hs.
  all: unfold os_makedirs at 1, fs_update; steps; rewrite abspath_idem.
  all: destruct (fs_makedirs _ _) as [n1|] eqn:Hmk; steps; [|done].
  all: apply fs_makedirs_isdir in Hmk.
  all: match goal with
       | |- context [try_finally ?B ?F ?w1] =>
           destruct (pipeline_keeps_dir E (abspath (w_cwd w) s)
                       (abspath_is_abs _ _) Hback
                       (abspath (w_cwd w) (OnnxToTflite.args_onnx args))
                       (abspath (w_cwd w) (OnnxToTflite.args_out args))
                       (OnnxToTflite.args_fp16 args)
                       (OnnxToTflite.args_optimize args)
                       (OnnxToTflite.args_allow_custom_ops args) w1 Hmk)
             as (Hd & Hn & Hc);
           cbv zeta in Hd, Hn, Hc; revert Hd Hn Hc;
           destruct (try_finally B F w1) as [[[c|]|e] w2]
       end.
  all: cbn [fst snd]; intros Hd Hn Hc; unfold keeps_given_dir; cbn [ret fst snd].
  all: try done.
  all: first
         [ right; left; split; [by apply Hc|exact Hd]
         | right; right; split; [done|]; split; [exact Hd|by apply Hn] ].
Qed.

(** C4.  A run of the full converter with [--saved-model-dir P], with
    backends that leave [P] in place and a TFLite converter that only
    succeeds on a directory holding something: when [main] returns 0 the
    directory [P] exists and is not empty; when it returns 2 the directory
    [P] still exists (the cleanup in the [finally] clause does nothing when
    the directory was given, and the re-rooting after onnx2tf only touches
    what is inside [P]). *)
Theorem given_saved_model_dir_is_kept (E : Env) (args : OnnxToTflite.Args)
    (w : world) (s : upath) (code : Z) :
  OnnxToTflite.args_saved_model_dir args = Some s →
  backends_respect E (resolved w s) →
  (OnnxToTflite.main E args w).1 = Ret code →
  (code = 0%Z →
   fs_isdir (resolved w s) (w_fs (OnnxToTflite.main E args w).2) = true
   ∧ fs_nonempty_dir (resolved w s) (w_fs (OnnxToTflite.main E args w).2)
     = true)
  ∧ (code = 2%Z →
     fs_isdir (resolved w s) (w_fs (OnnxToTflite.main E args w).2) = true).
Proof.
  intros Hs Hback Hret.
  pose proof (full_main_keeps_given_dir E args w s Hs Hback) as H.
  unfold keeps_given_dir in H. rewrite Hret in H.
  destruct H as [->|[[-> H]|[-> H]]]; split; intros; try done; try lia.
Qed.

Lemma env_writing_backends_respect P :
  backends_respect env_writing_backends P.
Proof.
  split.
  - intros a n Hd. cbn.
    destruct (fs_makedirs (P ++ ["saved_model"]) n) as [n'|] eqn:Hm;
      cbn; [|done].
    apply (fs_isdir_alter_below _ P "saved_model" ["saved_model.pb"]).
    by apply (fs_makedirs_keeps _ P _ _ Hm).
  - intros rep n Hd. cbn.
    by apply (fs_isdir_alter_below _ P "saved_model.pb" []).
  - intros conv n bytes Hsrc. cbn. rewrite Hsrc.
    by destruct (fs_nonempty_dir P n).
Qed.

Lemma env_no_tensorflow_respect P : backends_respect env_no_tensorflow P.
Proof.
  destruct (env_writing_backends_respect P) as [H1 H2 H3].
  split; [exact H1|exact H2|exact H3].
Qed.

(** C4, at two inputs: [--saved-model-dir sm] with backends that write a
    SavedModel (the run returns 0), and the same without TensorFlow (the run
    returns 2). *)
Lemma given_saved_model_dir_is_kept_witness :
  ((0 = 0)%Z →
   fs_isdir ["sm"]
     (w_fs (OnnxToTflite.main env_writing_backends
              (sample_args (Some (UPath false ["sm"]))) root_world).2) = true
   ∧ fs_nonempty_dir ["sm"]
       (w_fs (OnnxToTflite.main env_writing_backends
                (sample_args (Some (UPath false ["sm"]))) root_world).2)
     = true)
  ∧ ((2 = 2)%Z →
     fs_isdir ["sm"]
       (w_fs (OnnxToTflite.main env_no_tensorflow
                (sample_args (Some (UPath false ["sm"]))) root_world).2)
     = true).
Proof.
  split.
  - apply (given_saved_model_dir_is_kept env_writing_backends
             (sample_args (Some (UPath false ["sm"]))) root_world
             (UPath false ["sm"]) 0%Z).
    + reflexivity.
    + apply env_writing_backends_respect.
    + vm_compute. reflexivity.
  - apply (given_saved_model_dir_is_kept env_no_tensorflow
             (sample_args (Some (UPath false ["sm"]))) root_world
             (UPath false ["sm"]) 2%Z).
    + reflexivity.
    + apply env_no_tensorflow_respect.
    + vm_compute. reflexivity.
Defined.

(** * Further properties *)

(** ** C3: the temporary SavedModel directory at exit *)

Lemma fs_lookup_put_in_dir base c x n :
  fs_isdir base n = true →
  fs_lookup (base ++ [c]) (fs_put (base ++ [c]) x n) = Some x.
Proof.
  unfold fs_isdir, fs_put. revert n.
  induction base as [|a base IH]; intros n Hd.
  - destruct n as [data|es]; [done|]. cbn. by rewrite lookup_partial_alter_eq.
  - destruct n as [data|es]; [done|]. cbn [fs_lookup] in Hd.
    destruct (es !! a) as [m|] eqn:Ha; [|done].
    specialize (IH m Hd). cbn [app].
    destruct (base ++ [c]) as [|c' q] eqn:Hb; [by destruct base|].
    cbn [fs_alter fs_lookup]. rewrite lookup_alter_eq, Ha. exact IH.
Qed.

Lemma mkdtemp_has_dir (E : Env) (prefix : string) (w : world) d w' :
  mkdtemp E prefix w = (Ret d, w') → has_dir (comps d) w'.
Proof.
  unfold mkdtemp. rewrite run_bind. cbn [get_fs].
  destruct (List.find _ _) as [s|]; [|done].
  destruct (fs_isdir (gettempdir E) (w_fs w)) eqn:Hd; [|done].
  cbn. intros [= <- <-]. unfold has_dir, fs_isdir. cbn.
  by rewrite (fs_lookup_put_in_dir _ _ _ _ Hd).
Qed.

Lemma cleanup_removes (E : Env) (d : upath) (w : world) :
  removal_never_fails E → is_abs d = true → comps d ≠ [] →
  fs_isdir (comps d)
    (w_fs (try_except (TemporaryDirectory_cleanup E d)
             (λ e, if is_Exception e then ret tt else raise e) w).2) = false
  ∧ (has_dir (comps d) w →
     fs_exists (comps d)
       (w_fs (try_except (TemporaryDirectory_cleanup E d)
                (λ e, if is_Exception e then ret tt else raise e) w).2)
     = false).
Proof.
  intros Hnf Habs Hne.
  unfold has_dir, try_except, TemporaryDirectory_cleanup, fs_rmtree.
  rewrite run_bind, (resolve_abs _ _ Habs). steps. rewrite Hnf.
  rewrite (bool_decide_eq_false_2 _ Hne), andb_true_r.
  destruct (fs_isdir (comps d) (w_fs w)) eqn:Hd.
  - assert (∃ x, fs_lookup (comps d) (w_fs w) = Some x) as [x ->].
    { unfold fs_isdir in Hd. destruct (fs_lookup _ _); [by eexists|done]. }
    cbn. unfold fs_isdir, fs_exists. by rewrite fs_lookup_remove.
  - split; [|done]. destruct (fs_lookup (comps d) (w_fs w)); by cbn.
Qed.

Lemma rmtree_ignore_removes (E : Env) (d : upath) (w : world) :
  removal_never_fails E → is_abs d = true → comps d ≠ [] →
  fs_isdir (comps d) (w_fs (shutil_rmtree_ignore_errors E d w).2) = false
  ∧ (has_dir (comps d) w →
     fs_exists (comps d) (w_fs (shutil_rmtree_ignore_errors E d w).2) = false).
Proof.
  intros Hnf Habs Hne. unfold has_dir, shutil_rmtree_ignore_errors, fs_rmtree.
  rewrite run_bind, (resolve_abs _ _ Habs). steps. rewrite Hnf.
  unfold fs_exists.
  destruct (fs_isdir (comps d) (w_fs w)) eqn:Hd.
  - rewrite bool_decide_eq_false_2 by done. cbn.
    unfold fs_isdir. by rewrite fs_lookup_remove.
  - done.
Qed.

Lemma strictly_below_prefix P q : strictly_below P q → P `prefix_of` q.
Proof. intros (c & r & ->). by apply prefix_app_r. Qed.

Section TemporaryDir.
Context (E : Env) (P : list string) (sd : upath).
Hypothesis sd_abs : is_abs sd = true.
Hypothesis sd_below : P `prefix_of` comps sd.
Hypothesis backends : backends_keep_output E.

Lemma below_output c r : strictly_below P (comps sd ++ c :: r).
Proof using sd_below.
  destruct sd_below as [k ->]. destruct k as [|c' k].
  - rewrite app_nil_r. by exists c, r.
  - exists c', (k ++ c :: r). by rewrite <- app_assoc.
Qed.

Lemma below_output_join name : strictly_below P (comps sd ++ [name]).
Proof using sd_below. apply below_output. Qed.

Lemma below_output_join2 name name' :
  strictly_below P ((comps sd ++ [name]) ++ [name']).
Proof using sd_below. rewrite <- app_assoc. apply below_output. Qed.

Lemma stage1_keeps_above onnx_path :
  preserves (has_dir P)
    (OnnxToTflite._convert_onnx_to_saved_model E onnx_path sd).
Proof using sd_abs sd_below backends.
  unfold OnnxToTflite._convert_onnx_to_saved_model, OnnxToTflite.try_onnx2tf,
    OnnxToTflite.reroot_saved_model, OnnxToTflite.onnx_tf_fallback,
    OnnxToTflite.install_mapping_shim.
  repeat first
    [ pres_step
    | apply preserves_set_mapping; typeclasses eauto
    | apply has_dir_safe_makedirs
    | apply has_dir_safe_write
    | apply has_dir_safe_rename
    | apply has_dir_safe_rmtree
    | apply has_dir_safe_unlink
    | apply has_dir_safe_rmdir ].
  all: unfold path_join; cbn [comps is_abs].
  all: try apply below_output_join.
  all: try apply below_output_join2.
  all: apply has_dir_safe_keeps; by apply backends.
Qed.

Lemma stage2_keeps_above out fp16 optimize custom :
  preserves (has_dir P)
    (OnnxToTflite._convert_saved_model_to_tflite E sd out fp16 optimize custom).
Proof using sd_abs.
  unfold OnnxToTflite._convert_saved_model_to_tflite. pres_dir.
Qed.

End TemporaryDir.

Lemma full_main_cases (E : Env) (args : OnnxToTflite.Args) (w : world) :
  removal_never_fails E →
  OnnxToTflite.args_saved_model_dir args = None →
  (OnnxToTflite.main E args w).1 = Ret 1%Z
  ∨ (∃ e, (OnnxToTflite.main E args w).1 = Raise e)
  ∨ (∃ d, EvFs (Mkdtemp d) ∈ new_events (OnnxToTflite.main E args) w
          ∧ fs_isdir d (w_fs (OnnxToTflite.main E args w).2) = false
          ∧ (backends_keep_output E →
             fs_exists d (w_fs (OnnxToTflite.main E args w).2) = false)).
Proof.
  intros Hnf Hnone. unfold new_events. unfold OnnxToTflite.main.
  destruct ((fst (python_version E) =? 3)%Z
            && (snd (python_version E) >=? 12)%Z);
    destruct (String.eqb (str_lower (platform_system E)) "windows").
  all: unfold os_path_isfile; steps.
  all: destruct (fs_isfile _ _); cbn [negb]; [|left; steps; reflexivity].
  all: right.
  all: unfold OnnxToTflite.prepare_saved_model_dir; rewrite Hnone.
  all: unfold TemporaryDirectory; steps.
  all: match goal with
       | |- context [mkdtemp ?E' ?p ?w0] =>
           pose proof (mkdtemp_run E' p w0) as Hmk;
           pose proof (mkdtemp_has_dir E' p w0) as Hmd;
           destruct (mkdtemp E' p w0) as [[d|e] w1]
       end; [|left; by eexists].
  all: specialize (Hmd d w1 eq_refl).
  all: destruct Hmk as (Habs & Hne & Hw1); right; exists (comps d).
  all: cbn [ret]; steps; cbn [fst snd].
  all: match goal with
       | |- context [try_finally ?B ?F ?w1'] =>
           pose proof (cleanup_removes E d (B w1').2 Hnf Habs Hne)
             as [Hdir Hex];
           rewrite <- (try_finally_snd B F w1') in Hdir, Hex;
           assert (backends_keep_output E → has_dir (comps d) (B w1').2)
             as Hkeep;
           [ intros Hb;
             assert (preserves (has_dir (comps d)) B) as Hp;
             [ repeat first
                 [ apply stage1_keeps_above;
                     [exact Habs|by exists ["saved_model"]|exact Hb]
                 | apply stage2_keeps_above; exact Habs
                 | pres_step | apply has_dir_safe_makedirs ]
             | by apply Hp ]
           | assert (preserves (log_from (w_log w1')) (try_finally B F))
               as Hlog;
             [ repeat first
                 [ apply stage1_preserves_free; typeclasses eauto
                 | apply stage2_preserves_free; typeclasses eauto
                 | apply cleanup_preserves_free; typeclasses eauto
                 | pres_step
                 | apply fs_free_safe; typeclasses eauto ]
             | specialize (Hlog w1' ltac:(by unfold log_from));
               destruct (try_finally B F w1') as [[[c|]|e] w2] ] ]
       end.
  all: try subst w1.
  all: cbn [ret fst snd w_log add_log set_fs add_out] in *.
  all: (split; [|split; [exact Hdir|intros Hb; by apply Hex, Hkeep]]).
  all: destruct Hlog as [k Hk]; rewrite Hk, <- !app_assoc, drop_app_length.
  all: set_solver.
Qed.

Lemma simple_main_cases (E : Env) (argv : list upath) (w : world) :
  removal_never_fails E →
  (OnnxToTfliteSimple.main E argv w).1 = Ret 1%Z
  ∨ (∃ e, (OnnxToTfliteSimple.main E argv w).1 = Raise e)
  ∨ (∃ d, EvFs (Mkdtemp d) ∈ new_events (OnnxToTfliteSimple.main E argv) w
          ∧ fs_isdir d (w_fs (OnnxToTfliteSimple.main E argv w).2) = false
          ∧ (backends_keep_output E →
             fs_exists d (w_fs (OnnxToTfliteSimple.main E argv w).2)
             = false)).
Proof.
  intros Hnf. unfold new_events. unfold OnnxToTfliteSimple.main.
  destruct (length argv <? 3)%nat; [by left|].
  unfold os_path_isfile; steps.
  destruct (fs_isfile _ _); cbn [negb]; [|left; steps; reflexivity].
  right. steps.
  match goal with
  | |- context [mkdtemp ?E' ?p ?w0] =>
      pose proof (mkdtemp_run E' p w0) as Hmk;
      pose proof (mkdtemp_has_dir E' p w0) as Hmd;
      destruct (mkdtemp E' p w0) as [[d|e] w1]
  end; [|left; by eexists].
  specialize (Hmd d w1 eq_refl).
  destruct Hmk as (Habs & Hne & Hw1); right; exists (comps d).
  match goal with
  | |- context [try_finally ?B ?F ?w1'] =>
      pose proof (rmtree_ignore_removes E d (B w1').2 Hnf Habs Hne)
        as [Hdir Hex];
      rewrite <- (try_finally_snd B F w1') in Hdir, Hex;
      assert (backends_keep_output E → has_dir (comps d) (B w1').2) as Hkeep;
      [ intros Hb;
        assert (preserves (has_dir (comps d)) B) as Hp;
        [ pres_dir; apply has_dir_safe_keeps; by apply Hb
        | by apply Hp ]
      | assert (preserves (log_from (w_log w1')) (try_finally B F)) as Hlog;
        [ repeat first
            [ apply rmtree_ignore_preserves_free; typeclasses eauto
            | pres_step
            | apply fs_free_safe; typeclasses eauto ]
        | specialize (Hlog w1' ltac:(by unfold log_from));
          destruct (try_finally B F w1') as [r w2] ] ]
  end.
  try subst w1.
  cbn [ret fst snd w_log add_log set_fs add_out] in *.
  split; [|split; [exact Hdir|intros Hb; by apply Hex, Hkeep]].
  destruct Hlog as [k Hk]; rewrite Hk, <- !app_assoc, drop_app_length.
  set_solver.
Qed.

Lemma env_writing_backends_keep_output :
  backends_keep_output env_writing_backends.
Proof.
  intros P Q [k ->]. split.
  - intros a n Hd. cbn.
    destruct (fs_makedirs ((Q ++ k) ++ ["saved_model"]) n) as [n'|] eqn:Hm;
      cbn; [|done].
    rewrite <- !app_assoc.
    destruct k as [|c k]; cbn [app].
    + apply (fs_isdir_alter_below _ Q "saved_model" ["saved_model.pb"]).
      by apply (fs_makedirs_keeps _ Q _ _ Hm).
    + apply (fs_isdir_alter_below _ Q c).
      by apply (fs_makedirs_keeps _ Q _ _ Hm).
  - intros rep n Hd. cbn. rewrite <- !app_assoc.
    destruct k as [|c k]; cbn [app].
    + by apply (fs_isdir_alter_below _ Q "saved_model.pb" []).
    + by apply (fs_isdir_alter_below _ Q c).
Qed.

(** C3, counterexample: on a system that refuses to remove the
    directory (a file in it is in use), both converters return 0 and the
    temporary directory they created is still there; and when onnx2tf puts a
    file in place of its output folder, the simple converter returns 2 and
    leaves that file under the temporary name. *)
Lemma failed_removal_leaves_temp_dir :
  (OnnxToTflite.main env_removal_refused (sample_args None) root_world).1
    = Ret 0%Z
  ∧ EvFs (Mkdtemp ["tmp"; "onnx2tflite_a1"])
      ∈ new_events (OnnxToTflite.main env_removal_refused (sample_args None))
          root_world
  ∧ fs_isdir ["tmp"; "onnx2tflite_a1"]
      (w_fs (OnnxToTflite.main env_removal_refused (sample_args None)
               root_world).2) = true
  ∧ (OnnxToTfliteSimple.main env_removal_refused sample_argv root_world).1
    = Ret 0%Z
  ∧ EvFs (Mkdtemp ["tmp"; "onnx2tflite_a1"])
      ∈ new_events (OnnxToTfliteSimple.main env_removal_refused sample_argv)
          root_world
  ∧ fs_isdir ["tmp"; "onnx2tflite_a1"]
      (w_fs (OnnxToTfliteSimple.main env_removal_refused sample_argv
               root_world).2) = true
  ∧ (OnnxToTfliteSimple.main env_file_for_folder sample_argv root_world).1
    = Ret 2%Z
  ∧ EvFs (Mkdtemp ["tmp"; "onnx2tflite_a1"])
      ∈ new_events (OnnxToTfliteSimple.main env_file_for_folder sample_argv)
          root_world
  ∧ fs_lookup ["tmp"; "onnx2tflite_a1"]
      (w_fs (OnnxToTfliteSimple.main env_file_for_folder sample_argv
               root_world).2) = Some (File []).
Proof.
  repeat split; try by vm_compute.
  all: apply list_elem_of_In; vm_compute; tauto.
Qed.

(** C3, amended.  Take a system that lets the removal of a
    directory tree go through.  A run of the full converter without
    [--saved-model-dir] that returns 0 or 2 created one temporary directory
    ([tempfile] logged its creation) and that name is no directory when
    [main] returns; it names nothing at all when the exporters left their
    output folder and the directories above it in place.  The same holds
    for the simple converter and the directory [mkdtemp] gave it. *)
Theorem temp_dir_removed_unless_removal_fails (E : Env) (w : world) :
  removal_never_fails E →
  (∀ (args : OnnxToTflite.Args) (code : Z),
     OnnxToTflite.args_saved_model_dir args = None →
     (OnnxToTflite.main E args w).1 = Ret code →
     code = 0%Z ∨ code = 2%Z →
     ∃ d, EvFs (Mkdtemp d) ∈ new_events (OnnxToTflite.main E args) w
          ∧ fs_isdir d (w_fs (OnnxToTflite.main E args w).2) = false
          ∧ (backends_keep_output E →
             fs_exists d (w_fs (OnnxToTflite.main E args w).2) = false))
  ∧ (∀ (argv : list upath) (code : Z),
     (OnnxToTfliteSimple.main E argv w).1 = Ret code →
     code = 0%Z ∨ code = 2%Z →
     ∃ d, EvFs (Mkdtemp d) ∈ new_events (OnnxToTfliteSimple.main E argv) w
          ∧ fs_isdir d (w_fs (OnnxToTfliteSimple.main E argv w).2) = false
          ∧ (backends_keep_output E →
             fs_exists d (w_fs (OnnxToTfliteSimple.main E argv w).2)
             = false)).
Proof.
  intros Hnf. split.
  - intros args code Hnone Hret Hcode.
    destruct (full_main_cases E args w Hnf Hnone) as [H|[[e H]|H]];
      [| |exact H]; rewrite H in Hret; simplify_eq; lia.
  - intros argv code Hret Hcode.
    destruct (simple_main_cases E argv w Hnf) as [H|[[e H]|H]];
      [| |exact H]; rewrite H in Hret; simplify_eq; lia.
Qed.

(** C3, at two inputs: the full converter without TensorFlow returns 2, the
    simple converter with backends that write a SavedModel returns 0; the
    temporary directory of either run is gone. *)
Lemma temp_dir_removed_unless_removal_fails_witness :
  (∃ d, EvFs (Mkdtemp d)
          ∈ new_events (OnnxToTflite.main env_no_tensorflow
                          (sample_args None)) root_world
        ∧ fs_exists d
            (w_fs (OnnxToTflite.main env_no_tensorflow (sample_args None)
                     root_world).2)
          = false)
  ∧ (∃ d, EvFs (Mkdtemp d)
            ∈ new_events (OnnxToTfliteSimple.main env_writing_backends
                            sample_argv) root_world
          ∧ fs_exists d
              (w_fs (OnnxToTfliteSimple.main env_writing_backends sample_argv
                       root_world).2)
            = false).
Proof.
  split.
  - destruct (proj1 (temp_dir_removed_unless_removal_fails
                       env_no_tensorflow root_world (λ _ _, eq_refl))
                (sample_args None) 2%Z eq_refl) as (d & Hev & _ & Hex).
    + vm_compute. reflexivity.
    + right. reflexivity.
    + exists d. split; [exact Hev|].
      apply Hex. exact env_writing_backends_keep_output.
  - destruct (proj2 (temp_dir_removed_unless_removal_fails
                       env_writing_backends root_world (λ _ _, eq_refl))
                sample_argv 0%Z) as (d & Hev & _ & Hex).
    + vm_compute. reflexivity.
    + left. reflexivity.
    + exists d. split; [exact Hev|].
      apply Hex, env_writing_backends_keep_output.
Defined.

(** ** The tally as a dictionary (download_film.py, lines 59-66) *)

Section DictKeys.
Context {K V : Type} `{EqDecision K}.
Implicit Types (d : dict K V) (k : K) (v : V).

Lemma dict_get_None d k : dict_get d k = None ↔ k ∉ dict_keys d.
Proof.
  induction d as [|[k0 v0] d IH]; simpl.
  - split; [intros _; apply not_elem_of_nil|done].
  - rewrite not_elem_of_cons. destruct (decide (k0 = k)) as [->|Hne].
    + split; [done|]. by intros [? _].
    + rewrite IH. split; [|by intros [_ ?]]. intros ?. split; [done|done].
Qed.

Lemma dict_keys_set_old d k v :
  k ∈ dict_keys d → dict_keys (dict_set d k v) = dict_keys d.
Proof.
  induction d as [|[k0 v0] d IH]; simpl; [by intros ?%elem_of_nil|].
  intros Hin. destruct (decide (k0 = k)) as [->|Hne]; simpl; [done|].
  f_equal. apply IH. apply elem_of_cons in Hin as [?|?]; [by subst|done].
Qed.

Lemma dict_keys_set_new d k v :
  k ∉ dict_keys d → dict_keys (dict_set d k v) = dict_keys d ++ [k].
Proof.
  induction d as [|[k0 v0] d IH]; simpl; [done|].
  rewrite not_elem_of_cons. intros [Hne Hin].
  destruct (decide (k0 = k)) as [->|_]; simpl; [done|]. f_equal. by apply IH.
Qed.

Lemma dict_keys_set_NoDup d k v :
  NoDup (dict_keys d) → NoDup (dict_keys (dict_set d k v)).
Proof.
  intros Hnd. destruct (decide (k ∈ dict_keys d)) as [Hin|Hin].
  - by rewrite dict_keys_set_old.
  - rewrite dict_keys_set_new by done. apply NoDup_app. split; [done|].
    split; [|apply NoDup_singleton].
    intros x Hx ->%list_elem_of_singleton. done.
Qed.

Lemma dict_keys_set_elem d k v k' :
  k' ∈ dict_keys (dict_set d k v) ↔ k' = k ∨ k' ∈ dict_keys d.
Proof.
  destruct (decide (k ∈ dict_keys d)) as [Hin|Hin].
  - rewrite dict_keys_set_old by done. split; [auto|]. by intros [->|?].
  - rewrite dict_keys_set_new by done.
    rewrite elem_of_app, list_elem_of_singleton. tauto.
Qed.

End DictKeys.

Lemma tally_total_set (d : dict string Z) k v :
  NoDup (dict_keys d) →
  tally_total (dict_set d k v)
  = (tally_total d - default 0 (dict_get d k) + v)%Z.
Proof.
  induction d as [|[k0 v0] d IH]; simpl; [intros _; lia|].
  intros [Hk0 Hnd]%NoDup_cons.
  destruct (decide (k0 = k)) as [->|Hne]; simpl; [lia|].
  rewrite IH by done. lia.
Qed.

Lemma count_ops_snoc nodes n :
  DownloadFilm.count_ops (nodes ++ [n])
  = dict_set (DownloadFilm.count_ops nodes) (op n)
      (default 0 (dict_get (DownloadFilm.count_ops nodes) (op n)) + 1)%Z.
Proof. unfold DownloadFilm.count_ops. by rewrite foldl_app. Qed.

Lemma count_ops_keys_NoDup nodes : NoDup (dict_keys (DownloadFilm.count_ops nodes)).
Proof.
  induction nodes as [|n nodes IH] using rev_ind; [constructor|].
  rewrite count_ops_snoc. by apply dict_keys_set_NoDup.
Qed.

Lemma count_ops_keys_elem nodes k :
  k ∈ dict_keys (DownloadFilm.count_ops nodes) ↔ k ∈ map op nodes.
Proof.
  induction nodes as [|n nodes IH] using rev_ind.
  - cbn. split; by intros ?%elem_of_nil.
  - rewrite count_ops_snoc, dict_keys_set_elem, IH, map_app, elem_of_app.
    cbn. rewrite list_elem_of_singleton. tauto.
Qed.

Lemma count_ops_total nodes :
  tally_total (DownloadFilm.count_ops nodes) = Z.of_nat (length nodes).
Proof.
  induction nodes as [|n nodes IH] using rev_ind; [done|].
  rewrite count_ops_snoc, tally_total_set by apply count_ops_keys_NoDup.
  rewrite IH, length_app. cbn. lia.
Qed.
Lemma top_operators_perm (op_types : dict string Z) :
  ∃ rest, DownloadFilm.top_operators op_types ++ rest ≡ₚ dict_items op_types
          ∧ ((length op_types <= 20)%nat → rest = [])
          ∧ ∀ x y, x ∈ DownloadFilm.top_operators op_types → y ∈ rest →
                   (y.2 ≤ x.2)%Z.
Proof.
  unfold DownloadFilm.top_operators.
  set (le := λ x y : string * Z, (- x.2 <=? - y.2)%Z).
  assert (Hs : StronglySorted (λ a b, le a b = true) (sorted le (dict_items op_types))).
  { apply sorted_sorted.
    - intros x y H. apply Z.leb_gt in H. apply Z.leb_le. lia.
    - intros x y z H1 H2. apply Z.leb_le in H1, H2. apply Z.leb_le. lia. }
  exists (drop 20 (sorted le (dict_items op_types))).
  split; [by rewrite take_drop, sorted_perm|]. split.
  - intros Hlen. apply drop_ge.
    by rewrite (Permutation_length (sorted_perm le (dict_items op_types))).
  - intros x y Hx Hy. rewrite <- (take_drop 20) in Hs.
    pose proof (StronglySorted_app_1_elem_of _ _ _ x y Hs Hx Hy) as Hall.
    apply Z.leb_le in Hall. lia.
Qed.
(** ** The graph inspector (download_film.py, lines 45-90) *)

Lemma dict_mem_keys {V} (d : dict string V) k :
  dict_mem d k = true ↔ k ∈ dict_keys d.
Proof.
  unfold dict_mem. destruct (dict_get d k) eqn:Hg.
  - split; [intros _|done].
    destruct (decide (k ∈ dict_keys d)) as [|Hn]; [done|].
    apply dict_get_None in Hn. congruence.
  - split; [done|]. intros Hin. by apply dict_get_None in Hg.
Qed.

Lemma problematic_operators_elem (op_types : dict string Z) o :
  o ∈ DownloadFilm.problematic_operators op_types
  ↔ (o = resample_entry
     ∧ ("ResampleGrad" ∈ dict_keys op_types ∨ "Resample" ∈ dict_keys op_types))
    ∨ (o ∈ dict_keys op_types
       ∧ (str_startswith "Custom" o = true ∨ str_contains "Grid" o = true)).
Proof.
  unfold DownloadFilm.problematic_operators.
  set (custom := List.filter _ _).
  assert (Hc : o ∈ custom ↔ o ∈ dict_keys op_types
       ∧ (str_startswith "Custom" o = true ∨ str_contains "Grid" o = true)).
  { unfold custom. rewrite list_elem_of_In, filter_In, <- list_elem_of_In.
    by rewrite orb_true_iff. }
  assert (Hp : o ∈ (if dict_mem op_types "ResampleGrad" || dict_mem op_types "Resample"
                    then [resample_entry] else [])
          ↔ o = resample_entry
            ∧ ("ResampleGrad" ∈ dict_keys op_types ∨ "Resample" ∈ dict_keys op_types)).
  { rewrite <- !dict_mem_keys, <- orb_true_iff.
    destruct (_ || _).
    - rewrite list_elem_of_singleton. split; [by intros ->|by intros [-> _]].
    - split; [by intros ?%elem_of_nil|]. by intros [_ ?]. }
  rewrite <- Hc, <- Hp. fold resample_entry.
  destruct custom as [|c cs].
  - split; [auto|]. intros [?|?%elem_of_nil]; done.
  - by rewrite elem_of_app.
Qed.

Lemma problematic_operators_NoDup (op_types : dict string Z) :
  NoDup (dict_keys op_types) →
  NoDup (DownloadFilm.problematic_operators op_types).
Proof.
  intros Hnd. unfold DownloadFilm.problematic_operators.
  set (custom := List.filter _ _).
  assert (Hc : NoDup custom).
  { unfold custom. apply NoDup_ListNoDup, List.NoDup_filter.
    by apply NoDup_ListNoDup. }
  assert (Hr : resample_entry ∉ custom).
  { unfold custom. rewrite list_elem_of_In, filter_In. by intros [_ ?]. }
  fold resample_entry.
  destruct (_ || _).
  - destruct custom as [|c cs] eqn:Heq; [apply NoDup_singleton|].
    rewrite <- Heq in *. by constructor.
  - by destruct custom.
Qed.
Lemma inspect_saved_model_fails_run (E : Env) (p : upath) (w : world) e :
  inspection_fails E p w e → is_Exception e = true →
  ∃ pre, (DownloadFilm.inspect_saved_model E p w).1 = Ret None
         ∧ w_out (DownloadFilm.inspect_saved_model E p w).2
           = w_out w ++ pre ++ [inspection_failed_line e].
Proof.
  intros Hf He. unfold inspection_fails, resolved in *.
  unfold DownloadFilm.inspect_saved_model, py_import, ext_read, dict_getitem.
  destruct Hf as [Himp|[Himp [Hload|(model & Hload & Hsig & ->)]]].
  - run. rewrite Himp. run. rewrite He. run. by exists [].
  - run. rewrite Himp. run. rewrite Hload. run. rewrite He. run.
    eexists [_]. split; [done|]. by rewrite <- app_assoc.
  - run. rewrite Himp. run. rewrite Hload. run. rewrite Hsig. run.
    eexists [_]. split; [done|]. by rewrite <- app_assoc.
Qed.

Lemma inspect_saved_model_frame (E : Env) (p : upath) (w : world) :
  w_fs (DownloadFilm.inspect_saved_model E p w).2 = w_fs w
  ∧ w_cwd (DownloadFilm.inspect_saved_model E p w).2 = w_cwd w
  ∧ w_onnx_mapping (DownloadFilm.inspect_saved_model E p w).2
    = w_onnx_mapping w.
Proof.
  unfold DownloadFilm.inspect_saved_model, py_import, ext_read, dict_getitem.
  run. destruct (import_result E "tensorflow") as [e|].
  { run. by destruct (is_Exception e). }
  run. destruct (saved_model_load E _ _) as [model|e].
  2:{ run. by destruct (is_Exception e). }
  run. destruct (dict_get (signatures model) "serving_default") as [f|].
  2:{ by run. }
  run. rewrite for_each_print.
  destruct (DownloadFilm.problematic_operators _).
  - by run.
  - run. by rewrite for_each_print.
Qed.

Lemma inspect_saved_model_events (E : Env) (p : upath) (w : world) :
  new_events (DownloadFilm.inspect_saved_model E p) w
  `prefix_of` [EvImport "tensorflow"; EvCall "tf.saved_model.load" [resolved w p]].
Proof.
  assert (∃ evs, w_log (DownloadFilm.inspect_saved_model E p w).2 = w_log w ++ evs
     ∧ evs `prefix_of` [EvImport "tensorflow"; EvCall "tf.saved_model.load" [resolved w p]])
    as (evs & Hlog & Hpre).
  { unfold resolved.
    unfold DownloadFilm.inspect_saved_model, py_import, ext_read, dict_getitem.
    run. destruct (import_result E "tensorflow") as [e|].
    { run. exists [EvImport "tensorflow"]. split; [|by eexists].
      by destruct (is_Exception e). }
    run. destruct (saved_model_load E _ _) as [model|e].
    2:{ run. eexists. split; [|reflexivity].
        destruct (is_Exception e); cbn; by rewrite <- app_assoc. }
    run. destruct (dict_get (signatures model) "serving_default") as [f|].
    2:{ run. eexists. split; [|reflexivity]. cbn. by rewrite <- app_assoc. }
    run. rewrite for_each_print.
    eexists. split; [|reflexivity].
    destruct (DownloadFilm.problematic_operators _).
    - cbn. by rewrite <- app_assoc.
    - run. rewrite for_each_print. cbn. by rewrite <- app_assoc. }
  unfold new_events. by rewrite Hlog, drop_app_length.
Qed.

(** X1.  The inspector's tally accounts for every node of the graph: its
    keys are the operator types that occur, each once, and its counts add
    up to the number of nodes. *)
Theorem tally_accounts_for_every_node (nodes : list NodeDef) :
  NoDup (dict_keys (DownloadFilm.count_ops nodes))
  ∧ (∀ k, k ∈ dict_keys (DownloadFilm.count_ops nodes) ↔ k ∈ map op nodes)
  ∧ tally_total (DownloadFilm.count_ops nodes) = Z.of_nat (length nodes).
Proof.
  split; [apply count_ops_keys_NoDup|].
  split; [apply count_ops_keys_elem|apply count_ops_total].
Qed.

(** X2.  The listing of the inspector holds at most 20 entries of the
    tally.  What it leaves out is the rest of the tally, nothing when the
    tally has 20 entries or fewer, and no entry left out has a larger
    count than a listed one. *)
Theorem top_operators_keeps_the_largest (op_types : dict string Z) :
  (length (DownloadFilm.top_operators op_types) <= 20)%nat
  ∧ ∃ rest,
      DownloadFilm.top_operators op_types ++ rest ≡ₚ dict_items op_types
      ∧ ((length op_types <= 20)%nat → rest = [])
      ∧ ∀ x y, x ∈ DownloadFilm.top_operators op_types → y ∈ rest →
               (y.2 ≤ x.2)%Z.
Proof.
  split; [|apply top_operators_perm].
  unfold DownloadFilm.top_operators. rewrite length_take. lia.
Qed.

(** X3.  The operators the inspector reports as potentially unsupported,
    for the tally of a graph: the entry for resampling when a node has the
    type Resample or ResampleGrad, and every operator type of the graph
    whose name starts with Custom or contains Grid; no entry is reported
    twice. *)
Theorem problematic_operators_listing (nodes : list NodeDef) :
  NoDup (DownloadFilm.problematic_operators (DownloadFilm.count_ops nodes))
  ∧ ∀ o,
      o ∈ DownloadFilm.problematic_operators (DownloadFilm.count_ops nodes)
      ↔ (o = resample_entry
         ∧ ("ResampleGrad" ∈ map op nodes ∨ "Resample" ∈ map op nodes))
        ∨ (o ∈ map op nodes
           ∧ (str_startswith "Custom" o = true
              ∨ str_contains "Grid" o = true)).
Proof.
  split.
  - apply problematic_operators_NoDup, count_ops_keys_NoDup.
  - intros o. rewrite problematic_operators_elem.
    by rewrite !count_ops_keys_elem.
Qed.

(** X4.  When TensorFlow cannot be imported, the SavedModel cannot be
    loaded or it has no serving_default signature, and the exception is an
    instance of Exception, [inspect_saved_model] returns None and the last
    line it prints is the diagnostic naming the exception. *)
Theorem inspect_saved_model_failure (E : Env) (p : upath) (w : world) (e : exn) :
  inspection_fails E p w e →
  is_Exception e = true →
  (DownloadFilm.inspect_saved_model E p w).1 = Ret None
  ∧ last (new_lines (DownloadFilm.inspect_saved_model E p) w)
    = Some (inspection_failed_line e).
Proof.
  intros Hf He.
  destruct (inspect_saved_model_fails_run E p w e Hf He) as (pre & Hr & Hout).
  split; [exact Hr|].
  rewrite (new_lines_app _ _ _ Hout). apply last_snoc.
Qed.

(** X4, at an input: a SavedModel whose only signature is [predict]. *)
Lemma inspect_saved_model_failure_witness :
  (DownloadFilm.inspect_saved_model env_no_default_signature
     film_output_dir root_world).1 = Ret None
  ∧ last (new_lines
            (DownloadFilm.inspect_saved_model env_no_default_signature
               film_output_dir) root_world)
    = Some (inspection_failed_line (Exn KeyError "serving_default")).
Proof.
  apply (inspect_saved_model_failure env_no_default_signature
           film_output_dir root_world (Exn KeyError "serving_default")).
  - right. split; [reflexivity|]. right. eexists.
    split; [reflexivity|]. split; reflexivity.
  - reflexivity.
Defined.

(** X5.  The inspector only reads: whatever it returns or raises, the file
    system, the working directory and the [onnx.mapping] module are as
    before, and the only calls it makes are the import of TensorFlow and
    the load of the SavedModel, in this order. *)
Theorem inspect_saved_model_read_only (E : Env) (p : upath) (w : world) :
  w_fs (DownloadFilm.inspect_saved_model E p w).2 = w_fs w
  ∧ w_cwd (DownloadFilm.inspect_saved_model E p w).2 = w_cwd w
  ∧ w_onnx_mapping (DownloadFilm.inspect_saved_model E p w).2
    = w_onnx_mapping w
  ∧ new_events (DownloadFilm.inspect_saved_model E p) w
    `prefix_of` [EvImport "tensorflow";
                 EvCall "tf.saved_model.load" [resolved w p]].
Proof.
  destruct (inspect_saved_model_frame E p w) as (Hfs & Hcwd & Hmap).
  repeat split; [done|done|done|apply inspect_saved_model_events].
Qed.

(** ** The acquirers (download_optical_flow.py, download_film.py) *)

Lemma fs_makedirs_existing p n : fs_isdir p n = true → fs_makedirs p n = Some n.
Proof.
  unfold fs_isdir. revert n. induction p as [|c p IH]; intros n H.
  - simpl in *. by destruct n.
  - destruct n as [d|es]; [done|]. simpl in *.
    destruct (es !! c) as [m|] eqn:Hc; [|done]. simpl.
    rewrite (IH m H). by rewrite insert_id.
Qed.

Lemma fs_exists_parent p q n :
  fs_exists (p ++ q) n = true → q ≠ [] → fs_isdir p n = true.
Proof.
  unfold fs_exists, fs_isdir. rewrite fs_lookup_app.
  destruct (fs_lookup p n) as [[d|es]|]; [|done|done].
  by destruct q.
Qed.

Lemma fs_write_lookup p data n n' :
  fs_write p data n = Some n' → fs_lookup p n' = Some (File data).
Proof.
  unfold fs_write. intros H.
  destruct (fs_isdir p n); [done|].
  destruct (fs_isdir (removelast p) n) eqn:Hd; [|done].
  destruct (bool_decide (p = [])) eqn:Hp; [done|]. simpl in H. simplify_eq.
  apply bool_decide_eq_false in Hp. unfold fs_put.
  by rewrite fs_lookup_alter_eq.
Qed.

Lemma download_raft_lite_existing_run (E : Env) (w : world) :
  import_result E "torch" = None →
  import_result E "urllib.request" = None →
  fs_exists (resolved w raft_output_path) (w_fs w) = true →
  DownloadOpticalFlow.download_raft_lite E w
  = (Ret (Some raft_output_path),
     World (w_fs w) (w_cwd w)
       (w_out w ++ [Line "[INFO] Downloading RAFT-Lite checkpoint..." [];
                    Line "[INFO] Model already exists: {}"
                      [VPath raft_output_path]])
       (w_log w ++ [EvImport "torch"; EvImport "urllib.request";
                    EvFs (Makedirs (resolved w (dirname raft_output_path)));
                    EvFs (PathExists (resolved w raft_output_path))])
       (w_onnx_mapping w)).
Proof.
  intros Ht Hu Hex. unfold resolved in *. cbn in Hex.
  assert (Hdir : fs_isdir (w_cwd w ++ ["optical_flow_models"]) (w_fs w) = true).
  { apply (fs_exists_parent _ ["raft_small.pth"]); [|done].
    by rewrite <- app_assoc. }
  unfold DownloadOpticalFlow.download_raft_lite,
    DownloadOpticalFlow.download_raft_lite_attempt,
    py_import, os_makedirs, os_path_exists, fs_update.
  run. rewrite Ht. run. rewrite Hu. run.
  rewrite (fs_makedirs_existing _ _ Hdir). run. rewrite Hex. run.
  unfold add_out, add_log, set_fs. cbn. by rewrite <- !app_assoc.
Qed.
Lemma log_from_try_except {A} t (m : M A) (h : exn → M A) w :
  log_from t (m w).2 → (∀ e, preserves (log_from t) (h e)) →
  log_from t (try_except m h w).2.
Proof.
  intros Hm Hh. unfold try_except.
  destruct (m w) as [[a|e] w']; [done|]. by apply Hh.
Qed.

Lemma log_from_bind {A B} t (m : M A) (k : A → M B) w :
  log_from t (m w).2 → (∀ a, preserves (log_from t) (k a)) →
  log_from t (bind m k w).2.
Proof.
  intros Hm Hk. rewrite run_bind.
  destruct (m w) as [[a|e] w']; [|done]. by apply Hk.
Qed.

Lemma new_events_from {A} (m : M A) w t :
  log_from (w_log w ++ t) (m w).2 → ∃ rest, new_events m w = t ++ rest.
Proof.
  intros [k Hk]. exists k. unfold new_events.
  by rewrite Hk, <- app_assoc, drop_app_length.
Qed.

Lemma download_film_model_events (E : Env) (w : world) :
  import_result E "tensorflow" = None →
  import_result E "tensorflow_hub" = None →
  ∃ rest,
    new_events (DownloadFilm.download_film_model E) w
    = [EvImport "tensorflow"; EvImport "tensorflow_hub";
       EvCall "hub.load" []] ++ rest.
Proof.
  intros Ht Hh. apply new_events_from.
  unfold DownloadFilm.download_film_model.
  apply log_from_try_except.
  2:{ intros e. destruct (is_ImportError e); [pres_free|].
      destruct (is_Exception e); pres_free. }
  unfold DownloadFilm.download_film_attempt, py_import, ext_call.
  steps. rewrite Ht. steps. rewrite Hh. steps.
  set (r := hub_load E _ _).
  assert (Hk : ∀ a : SavedModelObj, preserves
            (log_from (w_log w ++ [EvImport "tensorflow"; EvImport "tensorflow_hub";
                                   EvCall "hub.load" []]))
            (print "[SUCCESS] Model downloaded and loaded!" [] >>
              print "\n[INFO] Available signatures: {}"
                [VStrs (dict_keys (signatures a))] >>
              let* infer := dict_getitem (signatures a) "serving_default" in
              print "\n[INFO] Inputs: {}" [VStr (structured_input_signature infer)] >>
              print "[INFO] Outputs: {}" [VStr (structured_outputs infer)] >>
              print "\n[INFO] Saving to {}..." [VPath film_output_dir] >>
              let* a0 := resolve film_output_dir in
              ext_write "tf.saved_model.save" [a0] (saved_model_save E a a0) >>
              print "[SUCCESS] Saved to {}" [VPath film_output_dir] >>
              ret (Some film_output_dir))).
  { intros a. pres_free. }
  destruct r.2 as [a|e].
  - steps. apply (Hk a). unfold log_from. cbn. by rewrite <- !app_assoc.
  - steps. unfold log_from. cbn. by rewrite <- !app_assoc.
Qed.


(** X6.  The optical-flow acquirer does not download twice: when both
    imports succeed and the checkpoint is already at
    optical_flow_models/raft_small.pth, [download_raft_lite] returns that
    path, leaves the file system as it is, and makes no call besides the
    two imports, [os.makedirs] and [os.path.exists]: nothing is fetched. *)
Theorem download_raft_lite_skips_existing (E : Env) (w : world) :
  import_result E "torch" = None →
  import_result E "urllib.request" = None →
  fs_exists (resolved w raft_output_path) (w_fs w) = true →
  (DownloadOpticalFlow.download_raft_lite E w).1 = Ret (Some raft_output_path)
  ∧ w_fs (DownloadOpticalFlow.download_raft_lite E w).2 = w_fs w
  ∧ new_events (DownloadOpticalFlow.download_raft_lite E) w
    = [EvImport "torch"; EvImport "urllib.request";
       EvFs (Makedirs (resolved w (dirname raft_output_path)));
       EvFs (PathExists (resolved w raft_output_path))].
Proof.
  intros Ht Hu Hex. unfold new_events.
  rewrite (download_raft_lite_existing_run E w Ht Hu Hex). cbn.
  by rewrite drop_app_length.
Qed.

(** X6, at an input: the checkpoint is in place. *)
Lemma download_raft_lite_skips_existing_witness :
  (DownloadOpticalFlow.download_raft_lite quiet_env
     (init_world fs_with_checkpoint [])).1 = Ret (Some raft_output_path)
  ∧ w_fs (DownloadOpticalFlow.download_raft_lite quiet_env
            (init_world fs_with_checkpoint [])).2 = fs_with_checkpoint
  ∧ new_events (DownloadOpticalFlow.download_raft_lite quiet_env)
      (init_world fs_with_checkpoint [])
    = [EvImport "torch"; EvImport "urllib.request";
       EvFs (Makedirs ["optical_flow_models"]);
       EvFs (PathExists ["optical_flow_models"; "raft_small.pth"])].
Proof.
  apply (download_raft_lite_skips_existing quiet_env
           (init_world fs_with_checkpoint []));
    [reflexivity|reflexivity|by vm_compute].
Defined.

(** X7.  The FILM acquirer has no such test: whenever its two imports
    succeed it calls [hub.load], whatever the file system holds. *)
Theorem download_film_model_always_downloads (E : Env) (w : world) :
  import_result E "tensorflow" = None →
  import_result E "tensorflow_hub" = None →
  ∃ rest,
    new_events (DownloadFilm.download_film_model E) w
    = [EvImport "tensorflow"; EvImport "tensorflow_hub";
       EvCall "hub.load" []] ++ rest.
Proof. apply download_film_model_events. Qed.

(** X7, at an input. *)
Lemma download_film_model_always_downloads_witness :
  ∃ rest,
    new_events (DownloadFilm.download_film_model quiet_env) root_world
    = [EvImport "tensorflow"; EvImport "tensorflow_hub";
       EvCall "hub.load" []] ++ rest.
Proof.
  apply (download_film_model_always_downloads quiet_env root_world);
    reflexivity.
Defined.



(** ** The simplifier (simplify_model.py) *)

(** Rewriting the entry at [p] leaves [q] alone, unless [p] is [q] or leads
    to it; a file on the way to [p] stops the rewriting. *)
Lemma fs_lookup_alter_frame f p q n :
  ¬ p `prefix_of` q →
  (q `prefix_of` p → ∃ d, fs_lookup q n = Some (File d)) →
  fs_lookup q (fs_alter f p n) = fs_lookup q n.
Proof.
  revert p n. induction q as [|c q IH]; intros p n Hp Hq.
  - destruct (Hq (prefix_nil p)) as [d Hd]. simpl in Hd. simplify_eq.
    by destruct p.
  - destruct p as [|a p]; [by destruct Hp; apply prefix_nil|].
    destruct n as [d|es]; [done|].
    destruct (decide (a = c)) as [->|Hne].
    + destruct p as [|a' p].
      { destruct Hp. by apply prefix_cons, prefix_nil. }
      rewrite fs_alter_deep, !fs_lookup_cons, lookup_alter_eq.
      destruct (es !! c) as [m|] eqn:Hc; [|done].
      cbn [fmap option_fmap option_map].
      apply IH.
      * intros H. apply Hp. by apply prefix_cons.
      * intros H. destruct (Hq (prefix_cons _ _ _ H)) as [d Hd].
        rewrite fs_lookup_cons, Hc in Hd. by exists d.
    + destruct p as [|a' p].
      * rewrite fs_alter_single, !fs_lookup_cons.
        by rewrite lookup_partial_alter_ne.
      * rewrite fs_alter_deep, !fs_lookup_cons. by rewrite lookup_alter_ne.
Qed.

(** A successful write changes nothing but the file and the listings of
    the directories it is in. *)
Lemma fs_write_frame p data q n n' :
  fs_write p data n = Some n' → ¬ q `prefix_of` p →
  fs_lookup q n' = fs_lookup q n.
Proof.
  unfold fs_write. intros H Hq.
  destruct (fs_isdir p n) eqn:Hd; [done|].
  destruct (_ || _); [done|]. simpl in H. simplify_eq.
  destruct (decide (p `prefix_of` q)) as [[r ->]|Hpq].
  - (* [q] is below [p], which is no directory before and a file after *)
    destruct r as [|c r]; [destruct Hq; by rewrite app_nil_r|].
    unfold fs_put. rewrite !fs_lookup_app.
    unfold fs_isdir in Hd.
    assert (Hafter : ∀ m, fs_lookup p (fs_alter (λ _, Some (File data)) p n)
                          = Some m → ∃ d, m = File d).
    { clear Hq. revert n Hd. induction p as [|a p IH]; intros n Hd m Hm.
      - simpl in *. simplify_eq. destruct m; [by eexists|done].
      - destruct n as [d|es]; [done|]. destruct p as [|a' p].
        + rewrite fs_alter_single, fs_lookup_cons in Hm.
          rewrite lookup_partial_alter_eq in Hm. simpl in Hm. simplify_eq.
          by eexists.
        + rewrite fs_alter_deep, fs_lookup_cons, lookup_alter_eq in Hm.
          rewrite fs_lookup_cons in Hd.
          destruct (es !! a) as [m0|]; [|done].
          cbn [fmap option_fmap option_map] in Hm.
          by apply (IH m0). }
    destruct (fs_lookup p (fs_alter _ p n)) as [m|] eqn:Hm.
    + destruct (Hafter m eq_refl) as [d ->].
      by destruct (fs_lookup p n) as [[?|?]|].
    + by destruct (fs_lookup p n) as [[?|?]|].
  - unfold fs_put. apply fs_lookup_alter_frame; [done|]. intros H. done.
Qed.
(** What a run of the simplifier does to the file system: nothing, or one
    write to the output path. *)
Lemma simplify_model_writes (E : Env) (i o : upath) (w : world) :
  match (SimplifyModel.simplify_model E i o w).1 with
  | Ret model' =>
      fs_write (resolved w o) (onnx_serialize E model') (w_fs w)
      = Some (w_fs (SimplifyModel.simplify_model E i o w).2)
  | Raise _ => w_fs (SimplifyModel.simplify_model E i o w).2 = w_fs w
  end.
Proof.
  destruct (onnx_load E (resolved w i) (w_fs w)) as [model0|e] eqn:Hload.
  2:{ unfold resolved in *.
      unfold SimplifyModel.simplify_model, ext_read. steps.
      by rewrite Hload. }
  rewrite (simplify_model_steps E i o w model0 Hload).
  set (w1 := add_log _ _).
  pose proof (try_onnxsim_preserves (fs_is (w_fs w)) E model0 w1
                ltac:(done)) as Hfs.
  pose proof (try_onnxsim_preserves (cwd_is (w_cwd w)) E model0 w1
                ltac:(done)) as Hcwd.
  destruct (SimplifyModel.try_onnxsim E model0 w1) as [[model'|e] w2];
    cbn [fst snd] in *; [|exact Hfs].
  unfold fs_is, cwd_is in *.
  rewrite save_tail_run. unfold resolved.
  cbn [w_fs w_cwd add_outs]. rewrite Hfs, Hcwd.
  destruct (fs_write _ _ _) eqn:Hw; cbn; [exact Hw|done].
Qed.

(** X9.  The simplifier changes nothing on disk but its output: whatever
    it returns or raises, every path that is neither the output path nor
    a directory leading to it names afterwards what it named before. *)
Theorem simplifier_touches_only_output
    (E : Env) (i o : upath) (w : world) (q : list string) :
  ¬ q `prefix_of` resolved w o →
  fs_lookup q (w_fs (SimplifyModel.simplify_model E i o w).2)
  = fs_lookup q (w_fs w).
Proof.
  intros Hq. pose proof (simplify_model_writes E i o w) as H.
  destruct (SimplifyModel.simplify_model E i o w).1 as [model'|e].
  - by apply (fs_write_frame _ _ _ _ _ H).
  - by rewrite H.
Qed.

(** X9, at an input: the input model is as before when the output goes to
    another file. *)
Lemma simplifier_touches_only_output_witness :
  fs_lookup ["model.onnx"]
    (w_fs (SimplifyModel.simplify_model quiet_env
             (UPath false ["model.onnx"]) (UPath false ["out.onnx"])
             root_world).2)
  = fs_lookup ["model.onnx"] (w_fs root_world).
Proof.
  apply (simplifier_touches_only_output quiet_env
           (UPath false ["model.onnx"]) (UPath false ["out.onnx"])
           root_world ["model.onnx"]).
  intros [k Hk]. discriminate Hk.
Defined.

(** X10.  The simplifier does not create the directory of its output:
    when the parent of the output path is not a directory the call never
    returns a model, and the file system is left as it was. *)
Theorem simplifier_needs_output_directory
    (E : Env) (i o : upath) (w : world) :
  fs_isdir (removelast (resolved w o)) (w_fs w) = false →
  (∃ e, (SimplifyModel.simplify_model E i o w).1 = Raise e)
  ∧ w_fs (SimplifyModel.simplify_model E i o w).2 = w_fs w.
Proof.
  intros Hd. pose proof (simplify_model_writes E i o w) as H.
  destruct (SimplifyModel.simplify_model E i o w).1 as [model'|e].
  - unfold fs_write in H. rewrite Hd in H.
    by destruct (fs_isdir (resolved w o) (w_fs w)).
  - split; [by exists e|done].
Qed.

(** X10, at an input: the output goes to a directory that does not
    exist. *)
Lemma simplifier_needs_output_directory_witness :
  (∃ e, (SimplifyModel.simplify_model quiet_env
           (UPath false ["model.onnx"]) (UPath false ["missing"; "out.onnx"])
           root_world).1 = Raise e)
  ∧ w_fs (SimplifyModel.simplify_model quiet_env
            (UPath false ["model.onnx"]) (UPath false ["missing"; "out.onnx"])
            root_world).2 = w_fs root_world.
Proof.
  apply (simplifier_needs_output_directory quiet_env
           (UPath false ["model.onnx"]) (UPath false ["missing"; "out.onnx"])
           root_world).
  by vm_compute.
Defined.






(** ** The converters (onnx_to_tflite.py, onnx_to_tflite_simple.py) *)

Lemma resolved_dirname_abspath w p :
  comps (abspath (w_cwd w) (dirname (abspath (w_cwd w) p)))
  = removelast (resolved w p).
Proof.
  unfold resolved, abspath, dirname.
  destruct (is_abs p) eqn:H; cbn; by rewrite ?H.
Qed.

Lemma stage2_returns (E : Env) (sd out : upath) (fp16 optimize custom : bool)
    (w : world) :
  (OnnxToTflite._convert_saved_model_to_tflite E sd out fp16 optimize custom
     w).1 = Ret tt →
  ∃ tflite_model n1,
    import_result E "tensorflow" = None
    ∧ from_saved_model E (resolved w sd) (w_fs w) = None
    ∧ tflite_convert E
        (configured_converter (resolved w sd) fp16 optimize custom) (w_fs w)
      = Ret tflite_model
    ∧ fs_makedirs (removelast (resolved w out)) (w_fs w) = Some n1
    ∧ fs_write (resolved w out) tflite_model n1
      = Some (w_fs (OnnxToTflite._convert_saved_model_to_tflite E sd out fp16
                      optimize custom w).2).
Proof.
  pose proof (resolved_dirname_abspath w out) as Hdn.
  unfold configured_converter, resolved in *.
  unfold OnnxToTflite._convert_saved_model_to_tflite,
    py_import, ext_read, os_makedirs, write_file, fs_update.
  run. destruct (import_result E "tensorflow") as [e|]; [by run|].
  run. destruct (from_saved_model E _ _) as [e|]; [by run|].
  run. replace (if custom then true else false) with custom by (by destruct custom).
  destruct (tflite_convert E _ _) as [tflite_model|e]; [|by run].
  run. rewrite Hdn.
  destruct (fs_makedirs _ _) as [n1|] eqn:Hm; [|by run].
  run. destruct (fs_write _ _ _) as [n2|] eqn:Hw; [|by run].
  run. intros _. by exists tflite_model, n1.
Qed.
(** *** Exit codes and the last line printed *)


Lemma rp_bind {A B} (Q : B → line → Prop) (m : M A) (k : A → M B) :
  (∀ t, preserves (out_from t) m) →
  (∀ a, returns_printing Q (k a)) → returns_printing Q (bind m k).
Proof.
  intros Hm Hk w b w'. rewrite run_bind.
  destruct (Hm (w_out w) w ltac:(by unfold out_from)) as [k0 Hk0].
  destruct (m w) as [[a|e] w1]; [|done]. intros Hb.
  destruct (Hk a w1 b w' Hb) as (pre & l & HQ & Hout).
  exists (k0 ++ pre), l. split; [exact HQ|].
  cbn in Hk0. by rewrite Hout, Hk0, <- !app_assoc.
Qed.

Lemma rp_print_ret {A} (Q : A → line → Prop) fmt args (a : A) :
  Q a (Line fmt args) → returns_printing Q (print fmt args >> ret a).
Proof.
  intros HQ w b w' H. unfold ret in H. cbn in H. simplify_eq.
  exists [], (Line fmt args). split; [exact HQ|done].
Qed.

Lemma rp_raise {A} (Q : A → line → Prop) e : returns_printing Q (raise e).
Proof. intros w b w' H. discriminate H. Qed.

Lemma rp_try_except {A} (Q : A → line → Prop) (m : M A) (h : exn → M A) :
  (∀ t, preserves (out_from t) m) →
  returns_printing Q m → (∀ e, returns_printing Q (h e)) →
  returns_printing Q (try_except m h).
Proof.
  intros Hp Hm Hh w b w'. unfold try_except.
  destruct (Hp (w_out w) w ltac:(by unfold out_from)) as [k0 Hk0].
  pose proof (Hm w) as Hm'.
  destruct (m w) as [[a|e] w1].
  - intros H. simplify_eq. by apply Hm'.
  - intros H. destruct (Hh e w1 b w' H) as (pre & l & HQ & Hout).
    exists (k0 ++ pre), l. split; [exact HQ|].
    cbn in Hk0. by rewrite Hout, Hk0, <- !app_assoc.
Qed.

Lemma rp_try_finally {A} (Q : A → line → Prop) (m : M A) (f : M unit) :
  returns_printing Q m → silent f → returns_printing Q (try_finally m f).
Proof.
  intros Hm Hf w b w'. unfold try_finally.
  pose proof (Hm w) as Hm'. destruct (m w) as [r w1].
  pose proof (Hf w1) as Hs. destruct (f w1) as [[u|e] w2]; [|done].
  intros H. simplify_eq. cbn in Hs.
  destruct (Hm' b w1 eq_refl) as (pre & l & HQ & Hout).
  exists pre, l. split; [exact HQ|]. by rewrite Hs.
Qed.

Lemma rp_map {A B} (Q : B → line → Prop) (Q' : A → line → Prop)
    (m : M A) (k : A → M B) (f : A → B) :
  returns_printing Q' m → (∀ a, k a = ret (f a)) →
  (∀ a l, Q' a l → Q (f a) l) →
  returns_printing Q (bind m k).
Proof.
  intros Hm Hk HQ w b w'. rewrite run_bind.
  pose proof (Hm w) as Hm'. destruct (m w) as [[a|e] w1]; [|done].
  rewrite Hk. intros H. unfold ret in H. simplify_eq.
  destruct (Hm' a w' eq_refl) as (pre & l & HQ' & Hout).
  exists pre, l. split; [by apply HQ|done].
Qed.

Lemma rp_last {A} (Q : A → line → Prop) (m : M A) w a :
  returns_printing Q m → (m w).1 = Ret a →
  ∃ l, last (new_lines m w) = Some l ∧ Q a l.
Proof.
  intros Hm Hr. destruct (m w) as [r w'] eqn:Hrun. cbn in Hr. subst r.
  destruct (Hm w a w' Hrun) as (pre & l & HQ & Hout).
  exists l. split; [|exact HQ].
  unfold new_lines. rewrite Hrun. cbn. rewrite Hout, drop_app_length.
  apply last_snoc.
Qed.

Lemma cleanup_silent (E : Env) (d : upath) :
  silent (try_except (TemporaryDirectory_cleanup E d)
            (λ e, if is_Exception e then ret tt else raise e)).
Proof.
  intros w. unfold try_except, TemporaryDirectory_cleanup. steps.
  destruct (fs_lookup _ _); [|done].
  destruct (fs_rmtree _ _); [|done].
  by destruct (rmtree_fault E _ _) as [[gone msg]|].
Qed.

Lemma rmtree_ignore_silent (E : Env) (d : upath) :
  silent (shutil_rmtree_ignore_errors E d).
Proof.
  intros w. unfold shutil_rmtree_ignore_errors. steps.
  destruct (fs_rmtree _ _); [|done].
  by destruct (rmtree_fault E _ _) as [[gone e]|].
Qed.

Lemma silent_ret {A} (a : A) : silent (ret a).
Proof. done. Qed.
Section OutputInvariants.
Context (I : world → Prop) `{!FrameInv I} `{!FsFree I} (E : Env).

Lemma mkdtemp_preserves_free prefix : preserves I (mkdtemp E prefix).
Proof.
  unfold mkdtemp.
  repeat first [pres_step | intros w Hw; by apply fs_free].
Qed.

Lemma prepare_preserves_free args :
  preserves I (OnnxToTflite.prepare_saved_model_dir E args).
Proof.
  unfold OnnxToTflite.prepare_saved_model_dir, TemporaryDirectory.
  destruct (OnnxToTflite.args_saved_model_dir args).
  - repeat first [pres_step | apply fs_free_safe; done].
  - apply preserves_bind; [apply mkdtemp_preserves_free|intros ?].
    apply preserves_ret.
Qed.

End OutputInvariants.

Lemma full_main_tail_reports (E : Env) (args : OnnxToTflite.Args)
    (onnx_path tflite_out : upath) :
  returns_printing (full_main_report onnx_path)
    (let* found := os_path_isfile onnx_path in
     if negb found then
       print "[ERR] ONNX file not found: {}" [VPath onnx_path] >>
       ret 1%Z
     else
       let* prep := OnnxToTflite.prepare_saved_model_dir E args in
       let saved_model_dir := prep.1 in
       let* returned :=
         try_finally
           (try_except
              (os_makedirs saved_model_dir >>
               OnnxToTflite._convert_onnx_to_saved_model E onnx_path
                 saved_model_dir >>
               OnnxToTflite._convert_saved_model_to_tflite E saved_model_dir
                 tflite_out (OnnxToTflite.args_fp16 args)
                 (OnnxToTflite.args_optimize args)
                 (OnnxToTflite.args_allow_custom_ops args) >>
               print "[DONE] Conversion complete." [] >>
               ret None)
              (λ e,
                if is_Exception e then
                  print "[ERR] Conversion failed: {}" [VExn e] >>
                  ret (Some 2%Z)
                else raise e))
           (match prep.2 with
            | Some tmpdir =>
                try_except (TemporaryDirectory_cleanup E tmpdir)
                  (λ e, if is_Exception e then ret tt else raise e)
            | None => ret tt
            end) in
       match returned with
       | Some code => ret code
       | None => ret 0%Z
       end).
Proof.
  apply rp_bind; [intros t; pres_free|intros found].
  destruct found; cbn [negb].
  2:{ apply rp_print_ret. right. left. done. }
  apply rp_bind; [intros t; by apply prepare_preserves_free; typeclasses eauto|].
  intros prep.
  apply (rp_map _ (λ r l, full_main_report onnx_path (default 0%Z r) l)
           _ _ (default 0%Z)); [|by intros []|done].
  apply rp_try_finally.
  2:{ destruct prep.2; [apply cleanup_silent|apply silent_ret]. }
  apply rp_try_except.
  - intros t.
    repeat first
      [ apply stage1_preserves_free; typeclasses eauto
      | apply stage2_preserves_free; typeclasses eauto
      | pres_step
      | apply fs_free_safe; typeclasses eauto ].
  - apply rp_bind; [intros t; pres_free|intros _].
    apply rp_bind;
      [intros t; apply stage1_preserves_free; typeclasses eauto|intros _].
    apply rp_bind;
      [intros t; apply stage2_preserves_free; typeclasses eauto|intros _].
    apply rp_print_ret. by left.
  - intros e. destruct (is_Exception e) eqn:He; [|apply rp_raise].
    apply rp_print_ret. right. right. split; [done|]. by exists e.
Qed.
Lemma full_main_reports (E : Env) (args : OnnxToTflite.Args) (w : world) code :
  (OnnxToTflite.main E args w).1 = Ret code →
  ∃ pre l,
    full_main_report (abspath (w_cwd w) (OnnxToTflite.args_onnx args)) code l
    ∧ w_out (OnnxToTflite.main E args w).2 = w_out w ++ pre ++ [l].
Proof.
  pose proof (full_main_tail_reports E args
                (abspath (w_cwd w) (OnnxToTflite.args_onnx args))
                (abspath (w_cwd w) (OnnxToTflite.args_out args))) as Htail.
  unfold OnnxToTflite.main.
  destruct ((fst (python_version E) =? 3)%Z
            && (snd (python_version E) >=? 12)%Z);
    destruct (String.eqb (str_lower (platform_system E)) "windows").
  all: do 4 (rewrite run_bind; simp_run).
  all: match goal with
       | |- (?m ?w2).1 = _ → _ =>
           specialize (Htail w2); destruct (m w2) as [r w'] eqn:Hrun
       end.
  all: cbn [fst snd]; intros ->.
  all: destruct (Htail code w' eq_refl) as (pre & l & HQ & Hout).
  all: cbn [w_out add_out] in Hout.
  - eexists (_ :: _ :: pre), l. split; [exact HQ|].
    rewrite Hout. by rewrite <- !app_assoc.
  - eexists (_ :: pre), l. split; [exact HQ|].
    rewrite Hout. by rewrite <- !app_assoc.
  - eexists (_ :: pre), l. split; [exact HQ|].
    rewrite Hout. by rewrite <- !app_assoc.
  - by exists pre, l.
Qed.
Lemma rp_bind_code (Q : Z → line → Prop) (m : M (option Z)) (rest : M Z) :
  (∀ t, preserves (out_from t) m) →
  (∀ w c w', m w = (Ret (Some c), w') →
     ∃ pre l, Q c l ∧ w_out w' = w_out w ++ pre ++ [l]) →
  returns_printing Q rest →
  returns_printing Q
    (bind m (λ r, match r with Some code => ret code | None => rest end)).
Proof.
  intros Hp Hm Hrest w b w'. rewrite run_bind.
  destruct (Hp (w_out w) w ltac:(by unfold out_from)) as [k0 Hk0].
  pose proof (Hm w) as Hm'. destruct (m w) as [[[c|]|e] w1]; [| |done].
  - intros H. unfold ret in H. simplify_eq.
    by apply Hm'.
  - intros H. destruct (Hrest w1 b w' H) as (pre & l & HQ & Hout).
    exists (k0 ++ pre), l. split; [exact HQ|].
    cbn in Hk0. by rewrite Hout, Hk0, <- !app_assoc.
Qed.

Lemma simple_main_reports (E : Env) (argv : list upath) :
  returns_printing (simple_main_report argv) (OnnxToTfliteSimple.main E argv).
Proof.
  unfold OnnxToTfliteSimple.main.
  destruct (length argv <? 3)%nat.
  { apply rp_print_ret. right. left. split; [done|by left]. }
  apply rp_bind; [intros t; pres_free|intros found].
  destruct found; cbn [negb].
  2:{ apply rp_print_ret. right. left. split; [done|by right]. }
  apply rp_bind; [intros t; pres_free|intros _].
  apply rp_bind;
    [intros t; apply mkdtemp_preserves_free; typeclasses eauto|intros tmpdir].
  apply rp_try_finally; [|apply rmtree_ignore_silent].
  apply rp_bind_code.
  - intros t. pres_free.
  - intros w c w'. unfold try_except.
    set (body := bind (py_import E "onnx2tf") _).
    assert (Hnone : returns_only (λ r : option Z, r = None) body).
    { unfold body. repeat returns_step. }
    assert (Hout : ∀ t, preserves (out_from t) body).
    { intros t. unfold body. pres_free. }
    specialize (Hnone w). specialize (Hout (w_out w) w ltac:(by unfold out_from)).
    destruct (body w) as [[r|e] w1]; cbn [fst snd] in *.
    { intros H. simplify_eq. by specialize (Hnone _ eq_refl). }
    destruct Hout as [k0 Hk0].
    destruct (is_ImportError e) eqn:Hie; [|destruct (is_Exception e) eqn:He].
    + intros H. cbn in H. unfold ret in H. simplify_eq.
      eexists (k0 ++ [_]), _. split.
      * right. right. split; [done|]. by left.
      * cbn. rewrite Hk0. by rewrite <- !app_assoc.
    + intros H. cbn in H. unfold ret in H. simplify_eq.
      eexists k0, _. split.
      * right. right. split; [done|]. right. left. by exists e.
      * cbn. by rewrite Hk0, <- !app_assoc.
    + intros H. discriminate H.
  - apply rp_bind; [intros t; pres_free|intros found'].
    destruct found'; cbn [negb].
    2:{ apply rp_print_ret. right. right. split; [done|]. right. right.
        by eexists. }
    repeat first
      [ apply rp_print_ret
      | apply rp_bind; [intros t; pres_free|intros ?] ].
    left. split; [done|]. by eexists.
Qed.

(** X12.  When [_convert_saved_model_to_tflite] returns, the converter it
    ran was made from the given SavedModel directory, with custom operators
    allowed, default optimizations and float16 weights exactly as its three
    switches say; the directory of the output exists, and the output file
    holds exactly the bytes that converter returned. *)
Theorem tflite_stage_writes_converter_output
    (E : Env) (sd out : upath) (fp16 optimize custom : bool) (w : world) :
  (OnnxToTflite._convert_saved_model_to_tflite E sd out fp16 optimize custom
     w).1 = Ret tt →
  ∃ tflite_model,
    tflite_convert E
      (configured_converter (resolved w sd) fp16 optimize custom) (w_fs w)
    = Ret tflite_model
    ∧ fs_lookup (resolved w out)
        (w_fs (OnnxToTflite._convert_saved_model_to_tflite E sd out fp16
                 optimize custom w).2)
      = Some (File tflite_model).
Proof.
  intros Hret.
  destruct (stage2_returns E sd out fp16 optimize custom w Hret)
    as (tflite_model & n1 & _ & _ & Hconv & _ & Hw).
  exists tflite_model. split; [exact Hconv|].
  by apply (fs_write_lookup _ _ _ _ Hw).
Qed.

(** X12, at an input: a SavedModel in [sm], the output in [out/m.tflite]. *)
Lemma tflite_stage_writes_converter_output_witness :
  ∃ tflite_model,
    tflite_convert quiet_env
      (configured_converter ["sm"] true false false) (w_fs root_world)
    = Ret tflite_model
    ∧ fs_lookup ["out"; "m.tflite"]
        (w_fs (OnnxToTflite._convert_saved_model_to_tflite quiet_env
                 (UPath false ["sm"]) (UPath false ["out"; "m.tflite"])
                 true false false root_world).2)
      = Some (File tflite_model).
Proof.
  apply (tflite_stage_writes_converter_output quiet_env
           (UPath false ["sm"]) (UPath false ["out"; "m.tflite"])
           true false false root_world).
  by vm_compute.
Defined.

(** X13.  The exit code of the full converter tells what its last printed
    line is: with 0 the completion message, with 1 the message that the
    ONNX file (by its absolute path) was not found, with 2 the message
    that the conversion failed, naming an exception that is an instance of
    Exception.  The converter returns no other code. *)
Theorem full_main_exit_code_and_last_line
    (E : Env) (args : OnnxToTflite.Args) (w : world) (code : Z) :
  (OnnxToTflite.main E args w).1 = Ret code →
  ∃ l,
    last (new_lines (OnnxToTflite.main E args) w) = Some l
    ∧ full_main_report (abspath (w_cwd w) (OnnxToTflite.args_onnx args))
        code l.
Proof.
  intros Hret.
  destruct (full_main_reports E args w code Hret) as (pre & l & HQ & Hout).
  exists l. split; [|exact HQ].
  rewrite (new_lines_app _ _ _ Hout). apply last_snoc.
Qed.

(** X13, at an input: the onnx2tf conversion fails and TensorFlow is not
    installed, so that the fallback fails too. *)
Lemma full_main_exit_code_and_last_line_witness :
  ∃ l,
    last (new_lines (OnnxToTflite.main env_no_tensorflow (sample_args None))
            root_world) = Some l
    ∧ full_main_report (UPath true ["model.onnx"]) 2%Z l.
Proof.
  apply (full_main_exit_code_and_last_line env_no_tensorflow
           (sample_args None) root_world 2%Z).
  by vm_compute.
Defined.

(** X14.  The same for the simple converter: with 0 its last line is the
    size of the output; with 1 the usage line or the message that the ONNX
    file was not found; with 2 the installation hint (onnx2tf could not be
    imported), the message that the onnx2tf conversion failed with an
    instance of Exception, or the message that no SavedModel was found.
    No other code is returned. *)
Theorem simple_main_exit_code_and_last_line
    (E : Env) (argv : list upath) (w : world) (code : Z) :
  (OnnxToTfliteSimple.main E argv w).1 = Ret code →
  ∃ l,
    last (new_lines (OnnxToTfliteSimple.main E argv) w) = Some l
    ∧ simple_main_report argv code l.
Proof. intros Hret. by apply (rp_last _ _ _ _ (simple_main_reports E argv)). Qed.

(** X14, at an input: onnx2tf returns without leaving a SavedModel. *)
Lemma simple_main_exit_code_and_last_line_witness :
  ∃ l,
    last (new_lines (OnnxToTfliteSimple.main quiet_env sample_argv)
            root_world) = Some l
    ∧ simple_main_report sample_argv 2%Z l.
Proof.
  apply (simple_main_exit_code_and_last_line quiet_env sample_argv
           root_world 2%Z).
  by vm_compute.
Defined.

Lemma not_second_step_1 l ls :
  second_step_line ∈ l :: ls → line_fmt l ≠ line_fmt second_step_line →
  second_step_line ∈ ls.
Proof. intros [->|H]%elem_of_cons Hne; [done|exact H]. Qed.

Ltac no_second_step w :=
  let H := fresh "H" in
  intros H; exfalso; revert H;
  rewrite <- ?(app_assoc (w_out w)), drop_app_length; cbn; intros H;
  repeat (apply not_second_step_1 in H; [|discriminate]);
  by apply elem_of_nil in H.

(** The cases of the removal at the end of the simple converter. *)
Ltac rmtree_cases :=
  destruct (fs_rmtree _ _);
  [destruct (rmtree_fault _ _ _) as [[? ?]|]|]; run.

Lemma simple_main_second_step (E : Env) (argv : list upath) (w : world) :
  second_step_line ∈ new_lines (OnnxToTfliteSimple.main E argv) w →
  (OnnxToTfliteSimple.main E argv w).1 = Ret 0%Z
  ∨ ∃ e, (OnnxToTfliteSimple.main E argv w).1 = Raise e.
Proof.
  unfold OnnxToTfliteSimple.main, new_lines.
  destruct (length argv <? 3)%nat.
  { run. no_second_step w. }
  unfold os_path_isfile. run.
  destruct (fs_isfile _ _); cbn [negb].
  2:{ run. no_second_step w. }
  unfold mkdtemp. run.
  destruct (List.find _ _) as [s|]; [|intros _; right; by eexists].
  destruct (fs_isdir (gettempdir E) (w_fs w)); [|intros _; right; by eexists].
  unfold py_import, ext_write, shutil_rmtree_ignore_errors. run.
  destruct (import_result E "onnx2tf") as [e|].
  { run. destruct (is_ImportError e); run.
    - rmtree_cases; no_second_step w.
    - destruct (is_Exception e); run.
      + rmtree_cases; no_second_step w.
      + rmtree_cases; intros _; right; by eexists. }
  run.
  destruct (onnx2tf_convert E _ _ _) as [n1 [e|]]; run.
  { destruct (is_ImportError e); run.
    - rmtree_cases; no_second_step w.
    - destruct (is_Exception e); run.
      + rmtree_cases; no_second_step w.
      + rmtree_cases; intros _; right; by eexists. }
  unfold os_path_isdir. run.
  destruct (fs_isdir _ n1); cbn [negb]; run.
  2:{ rmtree_cases; no_second_step w. }
  intros _.
  unfold ext_read, os_makedirs, write_file, fs_update. run.
  destruct (import_result E "tensorflow") as [e|]; run.
  { rmtree_cases; right; by eexists. }
  destruct (from_saved_model E _ _) as [e|]; run.
  { rmtree_cases; right; by eexists. }
  destruct (tflite_convert E _ _) as [tflite_model|e]; run.
  2:{ rmtree_cases; right; by eexists. }
  destruct (fs_makedirs _ _) as [n2|]; run.
  2:{ rmtree_cases; right; by eexists. }
  destruct (fs_write _ _ _) as [n3|]; run.
  2:{ rmtree_cases; right; by eexists. }
  rmtree_cases; by left.
Qed.

(** X15.  Once the simple converter has announced its second step it
    either returns 0 or raises: a failure of the TensorFlow import, of the
    TFLite conversion or of writing the output is not caught, so no such
    failure gives the exit code 2 (which the full converter returns for
    it). *)
Theorem simple_main_second_step_failures_propagate
    (E : Env) (argv : list upath) (w : world) :
  second_step_line ∈ new_lines (OnnxToTfliteSimple.main E argv) w →
  (OnnxToTfliteSimple.main E argv w).1 = Ret 0%Z
  ∨ ∃ e, (OnnxToTfliteSimple.main E argv w).1 = Raise e.
Proof. apply simple_main_second_step. Qed.

(** X15, at an input: onnx2tf writes a SavedModel, TensorFlow is not
    installed. *)
Lemma simple_main_second_step_failures_propagate_witness :
  (OnnxToTfliteSimple.main env_no_tensorflow sample_argv root_world).1
  = Ret 0%Z
  ∨ ∃ e, (OnnxToTfliteSimple.main env_no_tensorflow sample_argv
            root_world).1 = Raise e.
Proof.
  apply (simple_main_second_step_failures_propagate env_no_tensorflow
           sample_argv root_world).
  apply list_elem_of_In. vm_compute. auto 10.
Defined.

Example simple_main_no_tensorflow_raises :
  (OnnxToTfliteSimple.main env_no_tensorflow sample_argv root_world).1
  = Raise (Exn ModuleNotFoundError "No module named 'tensorflow'").
Proof. by vm_compute. Qed.
Lemma full_main_unfold (E : Env) (args : OnnxToTflite.Args) (w : world) :
  ∃ w2,
    OnnxToTflite.main E args w
    = full_main_tail E args
        (abspath (w_cwd w) (OnnxToTflite.args_onnx args))
        (abspath (w_cwd w) (OnnxToTflite.args_out args)) w2
    ∧ w_fs w2 = w_fs w ∧ w_cwd w2 = w_cwd w.
Proof.
  unfold OnnxToTflite.main.
  destruct ((fst (python_version E) =? 3)%Z
            && (snd (python_version E) >=? 12)%Z);
    destruct (String.eqb (str_lower (platform_system E)) "windows").
  all: do 4 (rewrite run_bind; simp_run).
  all: eexists; split; [reflexivity|done].
Qed.

Lemma bind_returns {A B} (m : M A) (k : A → M B) w b w' :
  bind m k w = (Ret b, w') →
  ∃ a w1, m w = (Ret a, w1) ∧ k a w1 = (Ret b, w').
Proof.
  rewrite run_bind. destruct (m w) as [[a|e] w1]; [|done].
  intros H. by exists a, w1.
Qed.

Lemma mkdtemp_in_tempdir (E : Env) (prefix : string) (w : world) d w' :
  mkdtemp E prefix w = (Ret d, w') →
  is_abs d = true ∧ (∃ s, comps d = gettempdir E ++ [s])
  ∧ w_cwd w' = w_cwd w.
Proof.
  unfold mkdtemp. rewrite run_bind. cbn [get_fs].
  destruct (List.find _ _) as [s|]; [|done].
  destruct (fs_isdir (gettempdir E) (w_fs w)); [|done].
  run. unfold ret. intros H. simplify_eq. split; [done|].
  split; [by eexists|done].
Qed.

(** The body of the [try] of the full converter, when it returns. *)
Lemma full_main_body_returns (E : Env) (sd onnx_path tflite_out : upath)
    (fp16 optimize custom : bool) (w : world) r w' :
  is_abs tflite_out = true →
  (os_makedirs sd >>
   OnnxToTflite._convert_onnx_to_saved_model E onnx_path sd >>
   OnnxToTflite._convert_saved_model_to_tflite E sd tflite_out
     fp16 optimize custom >>
   print "[DONE] Conversion complete." [] >>
   ret (None : option Z)) w = (Ret r, w') →
  ∃ tflite_model,
    fs_lookup (comps tflite_out) (w_fs w') = Some (File tflite_model).
Proof.
  intros Habs H.
  apply bind_returns in H as (_ & w1 & _ & H).
  apply bind_returns in H as (_ & w2 & _ & H).
  apply bind_returns in H as ([] & w3 & H2 & H).
  cbn in H. unfold ret in H. simplify_eq.
  pose proof (stage2_returns E sd tflite_out fp16 optimize custom w2) as Hs.
  rewrite H2 in Hs.
  destruct (Hs eq_refl) as (tflite_model & n1 & _ & _ & _ & _ & Hw).
  exists tflite_model. cbn [fst snd] in Hw.
  apply fs_write_lookup in Hw.
  unfold resolved in Hw. by rewrite (abspath_abs _ _ Habs) in Hw.
Qed.
Lemma fs_remove_below_frame p gone q data :
  ¬ p `prefix_of` q →
  ∀ n, fs_lookup q n = Some (File data) →
       fs_lookup q (fs_remove_below p gone n) = Some (File data).
Proof.
  intros Hq. unfold fs_remove_below.
  induction gone as [|g gone IH]; intros n Hl; [done|].
  cbn [foldl]. apply IH. destruct g as [|c r]; [done|].
  unfold fs_remove. rewrite fs_lookup_alter_frame; [done| |].
  - intros Hpre. apply Hq. etrans; [|exact Hpre]. by apply prefix_app_r.
  - intros _. by exists data.
Qed.

Lemma cleanup_keeps_file (E : Env) (d : upath) q data (w : world) :
  is_abs d = true → ¬ comps d `prefix_of` q →
  fs_lookup q (w_fs w) = Some (File data) →
  fs_lookup q
    (w_fs (try_except (TemporaryDirectory_cleanup E d)
             (λ e, if is_Exception e then ret tt else raise e) w).2)
  = Some (File data).
Proof.
  intros Habs Hq Hl. unfold try_except, TemporaryDirectory_cleanup, fs_rmtree.
  rewrite run_bind, (resolve_abs _ _ Habs). steps.
  destruct (fs_lookup (comps d) (w_fs w)); [|done].
  destruct (_ && _); [|done].
  destruct (rmtree_fault E _ _) as [[gone msg]|].
  - cbn. by apply fs_remove_below_frame.
  - cbn. unfold fs_remove.
    rewrite fs_lookup_alter_frame; [done|done|]. intros _. by exists data.
Qed.

Lemma full_main_tail_success (E : Env) (args : OnnxToTflite.Args)
    (onnx_path tflite_out : upath) (w2 : world) :
  is_abs tflite_out = true →
  (OnnxToTflite.args_saved_model_dir args = None →
   ¬ gettempdir E `prefix_of` comps tflite_out) →
  (full_main_tail E args onnx_path tflite_out w2).1 = Ret 0%Z →
  ∃ tflite_model,
    fs_lookup (comps tflite_out)
      (w_fs (full_main_tail E args onnx_path tflite_out w2).2)
    = Some (File tflite_model).
Proof.
  intros Habs Htmp.
  destruct (full_main_tail E args onnx_path tflite_out w2) as [r wf] eqn:Hrun.
  cbn [fst snd]. intros ->. unfold full_main_tail in Hrun.
  apply bind_returns in Hrun as (found & w3 & _ & Hrun).
  destruct found; cbn [negb] in Hrun; [|discriminate Hrun].
  apply bind_returns in Hrun as (prep & w4 & Hprep & Hrun).
  apply bind_returns in Hrun as (returned & w5 & Htf & Hrun).
  assert (wf = w5 ∧ (returned = None ∨ returned = Some 0%Z)) as [-> Hret].
  { destruct returned; unfold ret in Hrun; simplify_eq; auto. }
  clear Hrun. unfold try_finally in Htf.
  match type of Htf with
  | context [try_except ?B ?H w4] =>
      destruct (try_except B H w4) as [rx w4'] eqn:HX
  end.
  match type of Htf with
  | context [match ?F w4' with _ => _ end] =>
      destruct (F w4') as [[u|e] w5'] eqn:HF
  end; [|discriminate Htf].
  simplify_eq.
  assert (∃ tflite_model,
            fs_lookup (comps tflite_out) (w_fs w4') = Some (File tflite_model))
    as [tflite_model Hfile].
  { unfold try_except in HX.
    match type of HX with
    | context [match ?B w4 with _ => _ end] =>
        destruct (B w4) as [[rb|e] wb] eqn:HB
    end.
    - simplify_eq. by eapply full_main_body_returns.
    - destruct (is_Exception e); [|discriminate HX].
      cbn in HX. unfold ret in HX. simplify_eq. by destruct Hret. }
  exists tflite_model.
  unfold OnnxToTflite.prepare_saved_model_dir, TemporaryDirectory in Hprep.
  destruct (OnnxToTflite.args_saved_model_dir args) as [s|].
  - apply bind_returns in Hprep as (sd & wa & _ & Hprep).
    apply bind_returns in Hprep as (_ & wb & _ & Hprep).
    unfold ret in Hprep. simplify_eq. cbn in HF. unfold ret in HF.
    by simplify_eq.
  - apply bind_returns in Hprep as (tmpdir & wa & Hmk & Hprep).
    unfold ret in Hprep. simplify_eq. cbn [fst snd] in HF.
    apply mkdtemp_in_tempdir in Hmk as (Hdabs & [s Hs] & _).
    pose proof (cleanup_keeps_file E tmpdir (comps tflite_out) tflite_model w4'
                  Hdabs) as Hc.
    rewrite HF in Hc. apply Hc; [|done].
    rewrite Hs. intros Hpre. apply (Htmp eq_refl).
    etrans; [|exact Hpre]. by apply prefix_app_r.
Qed.

(** X16.  When the full converter returns 0, the output path names a
    file.  With [--saved-model-dir] this holds as it stands; without it,
    provided the output does not lie in the system's directory for
    temporary files, where the final cleanup could remove it. *)
Theorem full_main_success_leaves_output
    (E : Env) (args : OnnxToTflite.Args) (w : world) :
  (OnnxToTflite.main E args w).1 = Ret 0%Z →
  (OnnxToTflite.args_saved_model_dir args = None →
   ¬ gettempdir E `prefix_of` resolved w (OnnxToTflite.args_out args)) →
  ∃ tflite_model,
    fs_lookup (resolved w (OnnxToTflite.args_out args))
      (w_fs (OnnxToTflite.main E args w).2)
    = Some (File tflite_model).
Proof.
  intros Hret Htmp. destruct (full_main_unfold E args w) as (w2 & Hm & _ & _).
  rewrite Hm in *. unfold resolved in *.
  apply full_main_tail_success; [apply abspath_is_abs|exact Htmp|exact Hret].
Qed.

(** X16, at an input: the output goes to the working directory. *)
Lemma full_main_success_leaves_output_witness :
  ∃ tflite_model,
    fs_lookup ["out.tflite"]
      (w_fs (OnnxToTflite.main env_writing_backends (sample_args None)
               root_world).2)
    = Some (File tflite_model).
Proof.
  apply (full_main_success_leaves_output env_writing_backends
           (sample_args None) root_world).
  - by vm_compute.
  - intros _ [k Hk]. discriminate Hk.
Defined.

Ltac rmtree_done :=
  by (destruct (fs_rmtree _ _);
      [destruct (rmtree_fault _ _ _) as [[? ?]|]|]).

Lemma simple_main_success (E : Env) (argv : list upath) (w : world) :
  (OnnxToTfliteSimple.main E argv w).1 = Ret 0%Z →
  ¬ gettempdir E `prefix_of` resolved w (nth 2 argv OnnxToTfliteSimple.curdir) →
  ∃ tflite_model,
    fs_lookup (resolved w (nth 2 argv OnnxToTfliteSimple.curdir))
      (w_fs (OnnxToTfliteSimple.main E argv w).2)
    = Some (File tflite_model).
Proof.
  intros Hret Htmp. revert Hret. unfold resolved in *.
  unfold OnnxToTfliteSimple.main.
  destruct (length argv <? 3)%nat; [by run|].
  unfold os_path_isfile. run.
  destruct (fs_isfile _ _); cbn [negb]; [|by run].
  unfold mkdtemp. run.
  destruct (List.find _ _) as [s|]; [|done].
  destruct (fs_isdir (gettempdir E) (w_fs w)); [|done].
  unfold py_import, ext_write, shutil_rmtree_ignore_errors. run.
  destruct (import_result E "onnx2tf") as [e|].
  { run. destruct (is_ImportError e); run.
    - rmtree_done.
    - destruct (is_Exception e); run; rmtree_done. }
  run.
  destruct (onnx2tf_convert E _ _ _) as [n1 [e|]]; run.
  { destruct (is_ImportError e); run.
    - rmtree_done.
    - destruct (is_Exception e); run; rmtree_done. }
  unfold os_path_isdir. run.
  destruct (fs_isdir _ n1); cbn [negb]; run.
  2:{ rmtree_done. }
  unfold ext_read, os_makedirs, write_file, fs_update. run.
  destruct (import_result E "tensorflow") as [e|]; run.
  { rmtree_done. }
  destruct (from_saved_model E _ _) as [e|]; run.
  { rmtree_done. }
  destruct (tflite_convert E _ _) as [tflite_model|e]; run.
  2:{ rmtree_done. }
  destruct (fs_makedirs _ _) as [n2|]; run.
  2:{ rmtree_done. }
  destruct (fs_write _ _ _) as [n3|] eqn:Hw; run.
  2:{ rmtree_done. }
  intros _. exists tflite_model. apply fs_write_lookup in Hw.
  assert (Hfr : ¬ (gettempdir E ++ [String.append "onnx2tflite_" s])
                  `prefix_of` comps (abspath (w_cwd w)
                                       (nth 2 argv OnnxToTfliteSimple.curdir))).
  { intros Hpre. apply Htmp. etrans; [|exact Hpre]. by apply prefix_app_r. }
  unfold fs_rmtree. destruct (_ && _); run; [|exact Hw].
  destruct (rmtree_fault E _ _) as [[gone e]|]; run.
  - by apply fs_remove_below_frame.
  - unfold fs_remove. rewrite fs_lookup_alter_frame; [exact Hw|exact Hfr|].
    intros _. by exists tflite_model.
Qed.

(** X17.  When the simple converter returns 0, the output path names a
    file, provided it does not lie in the system's directory for temporary
    files (where the final removal of the temporary directory could take
    it away). *)
Theorem simple_main_success_leaves_output
    (E : Env) (argv : list upath) (w : world) :
  (OnnxToTfliteSimple.main E argv w).1 = Ret 0%Z →
  ¬ gettempdir E `prefix_of` resolved w (nth 2 argv OnnxToTfliteSimple.curdir) →
  ∃ tflite_model,
    fs_lookup (resolved w (nth 2 argv OnnxToTfliteSimple.curdir))
      (w_fs (OnnxToTfliteSimple.main E argv w).2)
    = Some (File tflite_model).
Proof. apply simple_main_success. Qed.

(** X17, at an input. *)
Lemma simple_main_success_leaves_output_witness :
  ∃ tflite_model,
    fs_lookup ["out.tflite"]
      (w_fs (OnnxToTfliteSimple.main env_writing_backends sample_argv
               root_world).2)
    = Some (File tflite_model).
Proof.
  apply (simple_main_success_leaves_output env_writing_backends sample_argv
           root_world).
  - by vm_compute.
  - intros [k Hk]. discriminate Hk.
Defined.

(** ** Re-rooting the SavedModel (onnx_to_tflite.py, lines 47-62) *)


Section LocalView.
Context (P : list string) (n : node) (es : gmap string node).
Hypothesis HP : fs_lookup P n = Some (Dir es).











End LocalView.
Lemma resolved_join w p name :
  comps (abspath (w_cwd w) (path_join p name)) = resolved w p ++ [name].
Proof.
  unfold resolved, abspath, path_join. cbn.
  destruct (is_abs p); cbn; [done|]. by rewrite app_assoc.
Qed.









Lemma os_path_isdir_run p w :
  os_path_isdir p w
  = (Ret (fs_isdir (resolved w p) (w_fs w)),
     add_log (EvFs (IsDir (resolved w p))) w).
Proof. reflexivity. Qed.








(** X19.  Without a sub-directory saved_model the re-rooting touches
    nothing: it returns after the one test, and the file system is as
    before. *)
Theorem reroot_saved_model_without_subdirectory
    (out_dir : upath) (w : world) :
  fs_isdir (resolved w out_dir ++ ["saved_model"]) (w_fs w) = false →
  (OnnxToTflite.reroot_saved_model out_dir w).1 = Ret tt
  ∧ w_fs (OnnxToTflite.reroot_saved_model out_dir w).2 = w_fs w
  ∧ new_events (OnnxToTflite.reroot_saved_model out_dir) w
    = [EvFs (IsDir (resolved w out_dir ++ ["saved_model"]))].
Proof.
  intros Hd.
  assert (Hrun : OnnxToTflite.reroot_saved_model out_dir w
                 = (Ret tt,
                    add_log (EvFs (IsDir (resolved w out_dir ++ ["saved_model"])))
                      w)).
  { unfold OnnxToTflite.reroot_saved_model. cbn zeta.
    rewrite run_bind, os_path_isdir_run.
    change (resolved w (path_join out_dir "saved_model"))
      with (comps (abspath (w_cwd w) (path_join out_dir "saved_model"))).
    by rewrite resolved_join, Hd. }
  unfold new_events. rewrite Hrun. cbn [fst snd w_fs w_log add_log].
  split; [done|]. split; [done|]. apply drop_app_length.
Qed.

(** X19, at an input: an output folder that does not exist. *)
Lemma reroot_saved_model_without_subdirectory_witness :
  (OnnxToTflite.reroot_saved_model (UPath false ["out"]) root_world).1
  = Ret tt
  ∧ w_fs (OnnxToTflite.reroot_saved_model (UPath false ["out"])
            root_world).2 = w_fs root_world
  ∧ new_events (OnnxToTflite.reroot_saved_model (UPath false ["out"]))
      root_world
    = [EvFs (IsDir ["out"; "saved_model"])].
Proof.
  apply (reroot_saved_model_without_subdirectory (UPath false ["out"])
           root_world).
  by vm_compute.
Defined.

(** ** The [onnx.mapping] shim (onnx_to_tflite.py, lines 70-100) *)

Ltac run_oracles :=
  repeat first
    [ progress run
    | match goal with
      | |- context [match onnx_load ?E ?a ?n with _ => _ end] =>
          destruct (onnx_load E a n)
      | |- context [match onnx_tf_prepare ?E ?m with _ => _ end] =>
          destruct (onnx_tf_prepare E m)
      | |- context [match (export_graph ?E ?r ?b ?n).2 with _ => _ end] =>
          destruct (export_graph E r b n).2
      end ].

Lemma fallback_keeps_mapping (E : Env) (a b : upath) (w : world) :
  import_result E "onnx.mapping" = None →
  w_onnx_mapping (OnnxToTflite.onnx_tf_fallback E a b w).2 = w_onnx_mapping w.
Proof.
  intros Hm.
  unfold OnnxToTflite.onnx_tf_fallback, OnnxToTflite.install_mapping_shim,
    py_import, ext_read, ext_write.
  run. destruct (import_result E "onnx"); [done|].
  run. rewrite Hm. run.
  destruct (import_result E "onnx_tf.backend"); [done|].
  run_oracles; done.
Qed.

Lemma fallback_installs_shim (E : Env) (a b : upath) (w : world) e :
  import_result E "onnx" = None →
  import_result E "onnx.mapping" = Some e → is_Exception e = true →
  import_result E "types" = None →
  import_result E "numpy" = None →
  import_result E "onnx.TensorProto" = None →
  w_onnx_mapping (OnnxToTflite.onnx_tf_fallback E a b w).2
  = Some (shim_module E).
Proof.
  intros Ho Hm He Ht Hn Hp.
  unfold OnnxToTflite.onnx_tf_fallback, OnnxToTflite.install_mapping_shim,
    py_import, ext_read, ext_write.
  run. rewrite Ho. run. rewrite Hm. run. rewrite He. run.
  rewrite Ht. run. rewrite Hn. run. rewrite Hp. run.
  destruct (import_result E "onnx_tf.backend"); [done|].
  run_oracles; done.
Qed.

(** X20.  The onnx-tf fallback replaces [onnx.mapping] only when it has
    to: with [onnx] and the three modules of the shim importable, the
    module [onnx.mapping] is after the fallback what it was before when
    [from onnx import mapping] succeeds (or raises something that is no
    Exception), and the shim with its two tables when that import raises
    an Exception; whatever the rest of the fallback does. *)
Theorem mapping_shim_only_when_needed
    (E : Env) (a b : upath) (w : world) :
  import_result E "onnx" = None →
  import_result E "types" = None →
  import_result E "numpy" = None →
  import_result E "onnx.TensorProto" = None →
  w_onnx_mapping (OnnxToTflite.onnx_tf_fallback E a b w).2
  = match import_result E "onnx.mapping" with
    | None => w_onnx_mapping w
    | Some e =>
        if is_Exception e then Some (shim_module E) else w_onnx_mapping w
    end.
Proof.
  intros Ho Ht Hn Hp.
  destruct (import_result E "onnx.mapping") as [e|] eqn:Hm.
  - destruct (is_Exception e) eqn:He.
    + by apply (fallback_installs_shim E a b w e).
    + unfold OnnxToTflite.onnx_tf_fallback, py_import.
      run. rewrite Ho. run. rewrite Hm. run. by rewrite He.
  - by apply fallback_keeps_mapping.
Qed.

(** X20, at an input: an [onnx] package without [mapping]. *)
Lemma mapping_shim_only_when_needed_witness :
  w_onnx_mapping
    (OnnxToTflite.onnx_tf_fallback env_no_onnx_mapping
       (UPath false ["model.onnx"]) (UPath false ["sm"]) root_world).2
  = Some (shim_module env_no_onnx_mapping).
Proof.
  apply (mapping_shim_only_when_needed env_no_onnx_mapping
           (UPath false ["model.onnx"]) (UPath false ["sm"]) root_world);
    reflexivity.
Defined.

(** ** The script blocks of the acquirers *)

Lemma rne_ret {A} (a : A) : raises_no_exception (ret a).
Proof. intros w e H. discriminate H. Qed.

Lemma rne_print fmt args : raises_no_exception (print fmt args).
Proof. intros w e H. discriminate H. Qed.

Lemma rne_bind {A B} (m : M A) (k : A → M B) :
  raises_no_exception m → (∀ a, raises_no_exception (k a)) →
  raises_no_exception (bind m k).
Proof.
  intros Hm Hk w e. rewrite run_bind. specialize (Hm w).
  destruct (m w) as [[a|e'] w']; [apply Hk|].
  cbn. intros H. simplify_eq. by apply Hm.
Qed.

Lemma rne_try_except {A} (m : M A) (h : exn → M A) :
  (∀ e, raises_no_exception (h e)) → raises_no_exception (try_except m h).
Proof.
  intros Hh w e. unfold try_except.
  destruct (m w) as [[a|e'] w']; [done|]. apply Hh.
Qed.

Lemma rne_reraise {A} (e : exn) (m : M A) :
  raises_no_exception m →
  raises_no_exception (if is_Exception e then m else raise e).
Proof.
  intros Hm. destruct (is_Exception e) eqn:He; [done|].
  intros w e' H. cbn in H. by simplify_eq.
Qed.

Lemma rne_exists p : raises_no_exception (os_path_exists p).
Proof. intros w e H. discriminate H. Qed.

Lemma rne_abspath p : raises_no_exception (os_path_abspath p).
Proof. intros w e H. discriminate H. Qed.

Ltac rne_step :=
  lazymatch goal with
  | |- raises_no_exception (bind _ _) => apply rne_bind; [|intros ?]
  | |- raises_no_exception (print _ _) => apply rne_print
  | |- raises_no_exception (ret _) => apply rne_ret
  | |- raises_no_exception (os_path_exists _) => apply rne_exists
  | |- raises_no_exception (os_path_abspath _) => apply rne_abspath
  | |- raises_no_exception (try_except _ _) => apply rne_try_except; intros ?
  | |- raises_no_exception (if is_Exception _ then _ else raise _) =>
      apply rne_reraise
  | |- raises_no_exception (if ?b then _ else _) => destruct b
  | |- raises_no_exception (match ?x with _ => _ end) => destruct x
  end.

Lemma download_film_model_rne (E : Env) :
  raises_no_exception (DownloadFilm.download_film_model E).
Proof. unfold DownloadFilm.download_film_model. repeat rne_step. Qed.

Lemma inspect_saved_model_rne (E : Env) p :
  raises_no_exception (DownloadFilm.inspect_saved_model E p).
Proof. unfold DownloadFilm.inspect_saved_model. repeat rne_step. Qed.

Lemma download_film_script_rne (E : Env) :
  raises_no_exception (download_film_script E).
Proof.
  unfold download_film_script. cbn zeta.
  repeat first
    [ apply download_film_model_rne
    | apply inspect_saved_model_rne
    | rne_step ].
Qed.
Lemma rp_print {Q : unit → line → Prop} fmt args :
  Q tt (Line fmt args) → returns_printing Q (print fmt args).
Proof.
  intros HQ w [] w' H. unfold print in H. simplify_eq.
  exists [], (Line fmt args). split; [exact HQ|done].
Qed.

Lemma download_film_model_out (E : Env) t :
  preserves (out_from t) (DownloadFilm.download_film_model E).
Proof.
  unfold DownloadFilm.download_film_model, DownloadFilm.download_film_attempt.
  pres_free.
Qed.

Lemma inspect_saved_model_out (E : Env) p t :
  preserves (out_from t) (DownloadFilm.inspect_saved_model E p).
Proof. unfold DownloadFilm.inspect_saved_model. pres_free. Qed.

Lemma download_film_script_reports (E : Env) :
  returns_printing (λ _ l, film_script_last_line l) (download_film_script E).
Proof.
  unfold download_film_script. cbn zeta.
  do 3 (apply rp_bind; [intros t; pres_free|intros _]).
  apply rp_bind; [intros t; apply download_film_model_out|intros model_path].
  assert (Hfailed : returns_printing (λ (_ : unit) l, film_script_last_line l)
            (print "\n[ERR] Download failed. Try manual download from:" [] >>
             print "https://drive.google.com/drive/folders/1q8110-qp225asX3DQvZnfLfJPkCHmDpy" [])).
  { apply rp_bind; [intros t; pres_free|intros _]. apply rp_print. by right. }
  destruct model_path as [p|]; [|exact Hfailed].
  apply rp_bind; [intros t; pres_free|intros present].
  destruct present; [|exact Hfailed].
  apply rp_bind; [intros t; apply inspect_saved_model_out|intros _].
  repeat first
    [ apply rp_print; by left
    | apply rp_bind; [intros t; pres_free|intros _] ].
Qed.

(** X21.  The script block of download_film.py ends in one of two ways:
    it returns, and then its last line is the last line of the summary or
    the address for a manual download; or it raises something that is not
    an instance of Exception.  No failure of TensorFlow, of the download or
    of the inspection reaches the caller as an Exception. *)
Theorem download_film_script_outcome (E : Env) (w : world) :
  match (download_film_script E w).1 with
  | Ret _ =>
      ∃ l, last (new_lines (download_film_script E) w) = Some l
           ∧ film_script_last_line l
  | Raise e => is_Exception e = false
  end.
Proof.
  destruct (download_film_script E w).1 as [[]|e] eqn:Hr.
  - exact (rp_last _ _ w tt (download_film_script_reports E) Hr).
  - by apply (download_film_script_rne E w).
Qed.







